(** * Cobblemon spawn editor: the record codec of [app.py] and [exe.py]

    A shallow embedding of the two front-ends' form code: the mapping from a
    spawn record (parsed JSON) to widget state, and the collection of the
    widget state back into the record that is written to disk.

    - [Py]   : the Python built-ins the code relies on ([str.strip],
               [str.split], [str.join], [int], [str], truthiness, [dict]).
    - [Exe]  : the Tkinter editors of [exe.py] ([_build] / [get_data]).
    - [App]  : the Streamlit render functions of [app.py].
    - [Imports] : module-level name binding of [get_default_pokemons.py]
               and the [from ... import] of [exe.py]. *)

From Stdlib Require Import String Ascii List ZArith Lia Bool Floats.
From Stdlib Require Import DecimalString DecimalZ DecimalPos.
Import ListNotations.
Open Scope string_scope.
Open Scope list_scope.
Set Warnings "-register-all".

(* ===================================================================== *)
(** * Python values and built-ins *)
(* ===================================================================== *)

(** What [json.load] returns.  A [dict] keeps insertion order, so it is an
    association list; ints and floats are distinct Python types. *)
Inductive json : Type :=
| JNull
| JBool (b : bool)
| JInt (n : Z)
| JFloat (f : float)
| JStr (s : string)
| JList (l : list json)
| JObj (kv : list (string * json)).

Definition dict := list (string * json).

(** [float(text)] and [str(x)] for a float are taken as an interface:
    nothing below depends on how CPython rounds or prints. [float_] answers
    [None] where Python raises [ValueError]. *)
Class PyFloat := {
  float_ : string -> option float;
  repr_float : float -> string
}.

Module Py.

(** ** dict *)

Fixpoint get (d : dict) (k : string) : option json :=
  match d with
  | [] => None
  | (k', v) :: r => if String.eqb k k' then Some v else get r k
  end.

Definition get_or (d : dict) (k : string) (default : json) : json :=
  match get d k with Some v => v | None => default end.

(** [d[k] = v]: an existing key keeps its position. *)
Fixpoint set (d : dict) (k : string) (v : json) : dict :=
  match d with
  | [] => [(k, v)]
  | (k', v') :: r =>
      if String.eqb k k' then (k, v) :: r else (k', v') :: set r k v
  end.

(** [d.pop(k, None)] as far as the dict is concerned. *)
Fixpoint pop (d : dict) (k : string) : dict :=
  match d with
  | [] => []
  | (k', v') :: r => if String.eqb k k' then r else (k', v') :: pop r k
  end.

Definition keys (d : dict) : list string := map fst d.

Definition has_key (d : dict) (k : string) : bool :=
  match get d k with Some _ => true | None => false end.

(** [x in l] for a list of strings. *)
Definition mem (x : string) (l : list string) : bool :=
  existsb (String.eqb x) l.

(** [l.index(x)] where [x in l]. *)
Fixpoint index (x : string) (l : list string) : nat :=
  match l with
  | [] => 0
  | y :: r => if String.eqb x y then 0 else S (index x r)
  end.

(** ** Truthiness *)

Definition str_truthy (s : string) : bool :=
  match s with EmptyString => false | _ => true end.

Definition truthy (v : json) : bool :=
  match v with
  | JNull => false
  | JBool b => b
  | JInt n => negb (n =? 0)%Z
  | JFloat f => negb (PrimFloat.eqb f 0%float)
  | JStr s => str_truthy s
  | JList l => match l with [] => false | _ => true end
  | JObj kv => match kv with [] => false | _ => true end
  end.

(** ** Strings *)

(** [str.isspace] on the ASCII range: TAB, LF, VT, FF, CR, FS, GS, RS, US
    and SPACE.  Text is taken to be ASCII; the wider Unicode white space of
    Python is outside this model. *)
Definition is_space (c : ascii) : bool :=
  let n := nat_of_ascii c in
  (((9 <=? n) && (n <=? 13)) || ((28 <=? n) && (n <=? 32)))%nat.

Fixpoint lstrip (s : string) : string :=
  match s with
  | EmptyString => EmptyString
  | String c r => if is_space c then lstrip r else s
  end.

Fixpoint rstrip (s : string) : string :=
  match s with
  | EmptyString => EmptyString
  | String c r =>
      match rstrip r with
      | EmptyString => if is_space c then EmptyString else String c EmptyString
      | r' => String c r'
      end
  end.

Definition strip (s : string) : string := rstrip (lstrip s).

Definition nl : ascii := "010"%char.
Definition NL : string := String nl EmptyString.

(** [s.split("\n")]. *)
Fixpoint split_nl (s : string) : list string :=
  match s with
  | EmptyString => [EmptyString]
  | String c r =>
      if Ascii.eqb c nl then EmptyString :: split_nl r
      else match split_nl r with
           | h :: t => String c h :: t
           | [] => [String c EmptyString]
           end
  end.

(** ["\n".join(l)] and [", ".join(l)]. *)
Definition join (sep : string) (l : list string) : string :=
  String.concat sep l.

(** [[line.strip() for line in text.split("\n") if line.strip()]]. *)
Definition stripped_lines (text : string) : list string :=
  map strip (filter (fun line => str_truthy (strip line)) (split_nl text)).

(** ** int *)

(** [str(n)] for an int. *)
Definition str_int (n : Z) : string := NilZero.string_of_int (Z.to_int n).

Definition is_digit (c : ascii) : bool :=
  let n := nat_of_ascii c in ((48 <=? n) && (n <=? 57))%nat.

(** The digits of an integer literal; single underscores may separate
    digits, as [int] allows. [None] when the text is not of that shape. *)
Fixpoint digits_of (s : string) (after_digit : bool) : option string :=
  match s with
  | EmptyString => if after_digit then Some EmptyString else None
  | String c r =>
      if is_digit c then option_map (String c) (digits_of r true)
      else if Ascii.eqb c "_" && after_digit then digits_of r false
      else None
  end.

Definition unsigned_of (s : string) : option Z :=
  match digits_of s false with
  | Some ds => option_map Z.of_uint (NilEmpty.uint_of_string ds)
  | None => None
  end.

(** The white space [int] skips at either end of its text: TAB, LF, VT, FF,
    CR and SPACE.  FS, GS, RS and US, which [str.strip] takes off, are not
    among it: [int] raises on a text that has one of them. *)
Definition is_int_space (c : ascii) : bool :=
  let n := nat_of_ascii c in
  (((9 <=? n) && (n <=? 13)) || (n =? 32))%nat.

Fixpoint lskip (s : string) : string :=
  match s with
  | EmptyString => EmptyString
  | String c r => if is_int_space c then lskip r else s
  end.

Fixpoint rskip (s : string) : string :=
  match s with
  | EmptyString => EmptyString
  | String c r =>
      match rskip r with
      | EmptyString =>
          if is_int_space c then EmptyString else String c EmptyString
      | r' => String c r'
      end
  end.

(** [int(text)] for ASCII text: [None] where Python raises [ValueError].
    Integers are unbounded, as in the language.  The guard CPython puts on
    conversions between [int] and [str] (more than 4300 digits by default,
    [sys.set_int_max_str_digits]) is a setting of the interpreter and is not
    modelled; [json.load] is subject to it, so the integers of a file that
    was read are below it. *)
Definition int_ (text : string) : option Z :=
  let s := rskip (lskip text) in
  match s with
  | String c r =>
      if Ascii.eqb c "+" then unsigned_of r
      else if Ascii.eqb c "-" then option_map Z.opp (unsigned_of r)
      else unsigned_of s
  | EmptyString => None
  end.

(** [float(n)] for an int below 2^63 in absolute value; larger ints are
    outside the model. *)
Definition float_of_int (n : Z) : option float :=
  if (Z.abs n <? 2 ^ 63)%Z then
    let m := PrimFloat.of_uint63 (Uint63.of_Z (Z.abs n)) in
    Some (if (n <? 0)%Z then PrimFloat.opp m else m)
  else None.

(** ** str *)

(** [str(v)] for the scalar values of a record; the [repr] of a list or a
    dict is outside the model. *)
Definition str `{PyFloat} (v : json) : option string :=
  match v with
  | JNull => Some "None"
  | JBool true => Some "True"
  | JBool false => Some "False"
  | JInt n => Some (str_int n)
  | JFloat f => Some (repr_float f)
  | JStr s => Some s
  | JList _ | JObj _ => None
  end.

(** ** Shapes of text used in the statements below *)

Fixpoint no_nl (s : string) : bool :=
  match s with
  | EmptyString => true
  | String c r => negb (Ascii.eqb c nl) && no_nl r
  end.

(** No white space at either end. *)
Definition trimmed (s : string) : bool :=
  String.eqb (lstrip s) s && String.eqb (rstrip s) s.

(** A line that survives [stripped_lines] unchanged. *)
Definition clean_line (s : string) : bool :=
  str_truthy s && trimmed s && no_nl s.

Fixpoint no_space (s : string) : bool :=
  match s with
  | EmptyString => true
  | String c r => negb (is_space c) && no_space r
  end.

Fixpoint all_digits (s : string) : bool :=
  match s with
  | EmptyString => true
  | String c r => is_digit c && all_digits r
  end.

(** A run of [d[k] = v] assignments, some of them skipped. *)
Definition update (d : dict) (entries : list (string * option json)) : dict :=
  fold_left (fun d e => match snd e with
                        | Some v => set d (fst e) v
                        | None => d
                        end) entries d.

Fixpoint nodupb (l : list string) : bool :=
  match l with
  | [] => true
  | x :: r => negb (mem x r) && nodupb r
  end.

Fixpoint assoc {A} (k : string) (l : list (string * A)) : option A :=
  match l with
  | [] => None
  | (k', v) :: r => if String.eqb k k' then Some v else assoc k r
  end.

End Py.

(** ** Exceptions *)

Inductive exn : Type := ValueError.

Inductive exc (A : Type) : Type :=
| Ok (a : A)
| Raise (e : exn).
Arguments Ok {A} a.
Arguments Raise {A} e.

Definition bind {A B} (c : exc A) (k : A -> exc B) : exc B :=
  match c with Ok a => k a | Raise e => Raise e end.

(** [try: body / except ValueError: handler]. *)
Definition try_except {A} (body : exc A) (handler : exc A) : exc A :=
  match body with Ok a => Ok a | Raise ValueError => handler end.

Declare Scope py_scope.
Delimit Scope py_scope with py.
Notation "x <- c ;; k" := (bind c (fun x => k))
  (at level 61, c at next level, right associativity) : py_scope.

Definition of_option {A} (o : option A) : exc A :=
  match o with Some a => Ok a | None => Raise ValueError end.

(** A loop whose body may raise. *)
Fixpoint foldM {A S} (f : S -> A -> exc S) (l : list A) (s : S)
  : exc S :=
  match l with
  | [] => Ok s
  | a :: r => bind (f s a) (foldM f r)
  end.

Fixpoint mapM {A B} (f : A -> exc B) (l : list A) : exc (list B) :=
  match l with
  | [] => Ok []
  | a :: r => bind (f a) (fun b => bind (mapM f r) (fun bs => Ok (b :: bs)))
  end.

(** ** Values outside the schema

    Reading a record into widgets is partial in this model: [None] stands
    for a value whose JSON type the form code does not expect (a list where
    a string belongs, say), where the toolkits' behaviour is not modelled. *)
Notation "x <~ c ;; k" := (match c with Some x => k | None => None end)
  (at level 61, c at next level, right associativity).

Fixpoint traverse {A B} (f : A -> option B) (l : list A) : option (list B) :=
  match l with
  | [] => Some []
  | a :: r => b <~ f a ;; bs <~ traverse f r ;; Some (b :: bs)
  end.

Definition as_dict (v : json) : option dict :=
  match v with JObj kv => Some kv | _ => None end.

Definition as_list (v : json) : option (list json) :=
  match v with JList l => Some l | _ => None end.

Definition as_str (v : json) : option string :=
  match v with JStr s => Some s | _ => None end.

(* ===================================================================== *)
(** * Schema constants (identical in [app.py] and [exe.py]) *)
(* ===================================================================== *)

Definition BUCKETS := ["common"; "uncommon"; "rare"; "ultra-rare"].
Definition SPAWN_TYPES := ["pokemon"; "pokemon-herd"; "npc"].
Definition POSITION_TYPES :=
  ["grounded"; "submerged"; "surface"; "seafloor"; "lavafloor"; "fishing"].
Definition PRESET_OPTIONS :=
  ["ancient_city"; "derelict"; "desert_pyramid"; "end_city"; "foliage";
   "illager_structures"; "jungle_pyramid"; "lava"; "mansion";
   "mansion_bedrooms"; "mansion_dining"; "natural"; "nether_fossil";
   "nether_structures"; "ocean_monument"; "ocean_ruins"; "pillager_outpost";
   "redstone"; "ruined_portal"; "saccharine_tree"; "salt"; "stronghold";
   "trail_ruins"; "treetop"; "urban"; "water"; "webs"; "wild"].
Definition TIME_RANGES :=
  [""; "any"; "day"; "night"; "morning"; "noon"; "afternoon";
   "evening"; "midnight"; "predawn"; "dawn"; "dusk"; "twilight"].
Definition MOON_PHASES :=
  [""; "full"; "new"; "crescent"; "gibbous"; "quarter"; "waxing"; "waning"].

Definition CONDITION_BOOL_FIELDS :=
  ["canSeeSky"; "isRaining"; "isThundering"; "isSlimeChunk"; "fluidIsSource"].
Definition CONDITION_INT_FIELDS :=
  ["minSkyLight"; "maxSkyLight"; "minLight"; "maxLight";
   "minY"; "maxY"; "minX"; "maxX"; "minZ"; "maxZ";
   "minLureLevel"; "maxLureLevel";
   "minHeight"; "maxHeight"; "minDepth"; "maxDepth"].
Definition CONDITION_LIST_FIELDS :=
  ["biomes"; "structures"; "neededNearbyBlocks"; "neededBaseBlocks";
   "dimensions"; "markers"].
Definition CONDITION_STRING_FIELDS := ["bait"; "rodType"; "rod"; "fluid"].


(* ===================================================================== *)
(** * [exe.py]: the Tkinter editors *)
(* ===================================================================== *)

Module Exe.

(** [tk.StringVar(value=v).get()] and [tk.BooleanVar(value=v).get()]: a
    [None] value leaves the variable at its default. *)
Definition StringVar (value : json) : option string :=
  match value with
  | JStr s => Some s
  | JNull => Some ""
  | _ => None
  end.

Definition BooleanVar (value : json) : option bool :=
  match value with
  | JBool b => Some b
  | JNull => Some false
  | _ => None
  end.

(** The content of a [tk.Text]; [txt.get("1.0", "end")] appends a newline. *)
Definition Text_get (content : string) : string := content ++ Py.NL.

(** ** ConditionEditor *)
Module ConditionEditor.

Record t := {
  time_var : string;
  moon_var : string;
  bool_vars : list (string * bool);
  int_vars : list (string * (string * bool));   (* field -> (var, had_value) *)
  list_texts : list (string * string);
  str_vars : list (string * string)
}.

Section Build.
Context `{PyFloat}.

(** [var = StringVar(value=str(current) if current is not None else "")]
    together with [current is not None]. *)
Definition int_var (current : option json) : option (string * bool) :=
  match current with
  | None | Some JNull => Some ("", false)
  | Some v => s <~ Py.str v ;; Some (s, true)
  end.

(** [if current: txt.insert("1.0", "\n".join(current))]. *)
Definition list_text (current : json) : option string :=
  if Py.truthy current then
    l <~ as_list current ;; ss <~ traverse as_str l ;; Some (Py.join Py.NL ss)
  else Some "".

Definition _build (cond : dict) : option t :=
  time <~ StringVar (Py.get_or cond "timeRange" (JStr "")) ;;
  moon <~ Py.str (Py.get_or cond "moonPhase" (JStr "")) ;;
  bools <~ traverse (fun field =>
             var <~ BooleanVar (Py.get_or cond field (JBool false)) ;;
             Some (field, var)) CONDITION_BOOL_FIELDS ;;
  ints <~ traverse (fun field =>
             var <~ int_var (Py.get cond field) ;;
             Some (field, var)) CONDITION_INT_FIELDS ;;
  lists <~ traverse (fun field =>
             txt <~ list_text (Py.get_or cond field (JList [])) ;;
             Some (field, txt)) CONDITION_LIST_FIELDS ;;
  strs <~ traverse (fun field =>
             var <~ StringVar (Py.get_or cond field (JStr "")) ;;
             Some (field, var)) CONDITION_STRING_FIELDS ;;
  Some {| time_var := time; moon_var := moon; bool_vars := bools;
          int_vars := ints; list_texts := lists; str_vars := strs |}.

End Build.

Local Open Scope py_scope.

Definition collect_bool (result : dict) (item : string * bool) : exc dict :=
  let '(field, var) := item in
  if var then Ok (Py.set result field (JBool true)) else Ok result.

Definition collect_int (result : dict) (item : string * (string * bool))
  : exc dict :=
  let '(field, (var, had_value)) := item in
  let raw := Py.strip var in
  if Py.str_truthy raw then
    try_except
      (val <- of_option (Py.int_ raw) ;;
       if had_value || negb (val =? 0)%Z
       then Ok (Py.set result field (JInt val))
       else Ok result)
      (Ok result)
  else Ok result.

Definition collect_list (result : dict) (item : string * string) : exc dict :=
  let '(field, txt) := item in
  let content := Py.strip (Text_get txt) in
  let entries := Py.stripped_lines content in
  match entries with
  | [] => Ok result
  | _ => Ok (Py.set result field (JList (map JStr entries)))
  end.

Definition collect_str (result : dict) (item : string * string) : exc dict :=
  let '(field, var) := item in
  let val := Py.strip var in
  if Py.str_truthy val then Ok (Py.set result field (JStr val)) else Ok result.

Definition get_data (self : t) : exc dict :=
  let result : dict := [] in
  let time_val := time_var self in
  let result :=
    if Py.str_truthy time_val then Py.set result "timeRange" (JStr time_val)
    else result in
  let moon_val := moon_var self in
  let result :=
    if Py.str_truthy moon_val then Py.set result "moonPhase" (JStr moon_val)
    else result in
  result <- foldM collect_bool (bool_vars self) result ;;
  result <- foldM collect_int (int_vars self) result ;;
  result <- foldM collect_list (list_texts self) result ;;
  result <- foldM collect_str (str_vars self) result ;;
  Ok result.

(** The user replaces the text of one numeric entry. *)
Definition type_int (self : t) (field text : string) : t :=
  {| time_var := time_var self; moon_var := moon_var self;
     bool_vars := bool_vars self;
     int_vars := map (fun '(f, (var, had)) =>
                   if String.eqb f field then (f, (text, had))
                   else (f, (var, had))) (int_vars self);
     list_texts := list_texts self; str_vars := str_vars self |}.

End ConditionEditor.

(** ** WeightMultiplierEditor *)
Module WeightMultiplierEditor.

Record t := {
  mult_var : string;
  cond_editor : ConditionEditor.t
}.

Definition __init__ `{PyFloat} (wm : dict) : option t :=
  mult <~ Py.str (Py.get_or wm "multiplier" (JFloat 1.0)) ;;
  cond <~ as_dict (Py.get_or wm "condition" (JObj [])) ;;
  ce <~ ConditionEditor._build cond ;;
  Some {| mult_var := mult; cond_editor := ce |}.

Local Open Scope py_scope.

Definition get_data `{PyFloat} (self : t) : exc dict :=
  mult <- try_except (of_option (float_ (mult_var self))) (Ok 1.0%float) ;;
  cond <- ConditionEditor.get_data (cond_editor self) ;;
  Ok [("multiplier", JFloat mult); ("condition", JObj cond)].

End WeightMultiplierEditor.

(** ** HerdPokemonEditor *)
Module HerdPokemonEditor.

Record t := {
  pokemon_var : string;
  level_var : string;
  weight_var : string;
  leader_var : bool;
  max_times_var : string;
  offset_var : string
}.

Definition __init__ `{PyFloat} (hp : dict) : option t :=
  pokemon <~ StringVar (Py.get_or hp "pokemon" (JStr "")) ;;
  level <~ StringVar (Py.get_or hp "levelRange" (JStr "")) ;;
  weight <~ Py.str (Py.get_or hp "weight" (JInt 1)) ;;
  leader <~ BooleanVar (Py.get_or hp "isLeader" (JBool false)) ;;
  max_times <~ (let mt := Py.get_or hp "maxTimes" (JInt 0) in
                Py.str (if Py.truthy mt then mt else JInt 0)) ;;
  offset <~ StringVar (Py.get_or hp "levelRangeOffset" (JStr "")) ;;
  Some {| pokemon_var := pokemon; level_var := level; weight_var := weight;
          leader_var := leader; max_times_var := max_times;
          offset_var := offset |}.

Local Open Scope py_scope.

Definition get_data `{PyFloat} (self : t) : exc dict :=
  let result : dict :=
    [("pokemon", JStr (pokemon_var self));
     ("levelRange", JStr (level_var self))] in
  result <- try_except
              (w <- of_option (float_ (weight_var self)) ;;
               Ok (Py.set result "weight" (JFloat w)))
              (Ok (Py.set result "weight" (JFloat 1.0%float))) ;;
  let result := Py.set result "isLeader" (JBool (leader_var self)) in
  result <- try_except
              (mt <- of_option (Py.int_ (max_times_var self)) ;;
               if (mt >? 0)%Z then Ok (Py.set result "maxTimes" (JInt mt))
               else Ok result)
              (Ok result) ;;
  let offset := Py.strip (offset_var self) in
  let result :=
    if Py.str_truthy offset then Py.set result "levelRangeOffset" (JStr offset)
    else result in
  Ok result.

End HerdPokemonEditor.

(** ** DropsEditor *)
Module DropsEditor.

Record widget_data := {
  item : string;
  qr : string;
  pct : string
}.

Record t := {
  enabled_var : bool;
  amount_var : string;
  entry_widgets : list widget_data
}.

Definition default_entry : dict :=
  [("item", JStr ""); ("percentage", JFloat 0.0)].

(** [_add_entry(entry)]: the row of variables made for one entry. *)
Definition _add_entry `{PyFloat} (entry : json) : option widget_data :=
  entry <~ match entry with
           | JNull => Some default_entry
           | v => as_dict v
           end ;;
  item_var <~ StringVar (Py.get_or entry "item" (JStr "")) ;;
  qr_var <~ StringVar (Py.get_or entry "quantityRange" (JStr "")) ;;
  pct_var <~ Py.str (Py.get_or entry "percentage" (JFloat 0.0)) ;;
  Some {| item := item_var; qr := qr_var; pct := pct_var |}.

(** [drops] is [spawn.get("drops")]: [None] for an absent or null key. *)
Definition __init__ `{PyFloat} (drops : option json) : option t :=
  match drops with
  | None | Some JNull =>
      Some {| enabled_var := false; amount_var := "1"; entry_widgets := [] |}
  | Some v =>
      d <~ as_dict v ;;
      amount <~ Py.str (Py.get_or d "amount" (JInt 1)) ;;
      entries <~ as_list (Py.get_or d "entries" (JList [])) ;;
      widgets <~ traverse _add_entry entries ;;
      Some {| enabled_var := true; amount_var := amount;
              entry_widgets := widgets |}
  end.

Local Open Scope py_scope.

(** One turn of the loop over [entry_widgets]; [entries] is the list being
    appended to. *)
Definition collect_entry `{PyFloat} (entries : list json) (wd : widget_data)
  : exc (list json) :=
  let item := Py.strip (item wd) in
  if negb (Py.str_truthy item) then Ok entries   (* continue *)
  else
    let e : dict := [("item", JStr item)] in
    let qr := Py.strip (qr wd) in
    let e := if Py.str_truthy qr then Py.set e "quantityRange" (JStr qr)
             else e in
    e <- try_except
           (pct <- of_option (float_ (pct wd)) ;;
            if PrimFloat.ltb 0%float pct
            then Ok (Py.set e "percentage" (JFloat pct))
            else Ok e)
           (Ok e) ;;
    Ok (entries ++ [JObj e]).

(** [None] is Python's [None]: drops are disabled. *)
Definition get_data `{PyFloat} (self : t) : exc (option dict) :=
  if negb (enabled_var self) then Ok None
  else
    amount <- try_except (of_option (Py.int_ (amount_var self))) (Ok 1%Z) ;;
    entries <- foldM collect_entry (entry_widgets self) [] ;;
    Ok (Some [("amount", JInt amount); ("entries", JList entries)]).

End DropsEditor.

(** ** SpawnEditor *)
Module SpawnEditor.

Record t := {
  id_var : string;
  type_var : string;
  pokemon_var : string;
  presets_list : list string;
  pos_var : string;
  bucket_var : string;
  level_var : string;
  weight_var : string;
  herd_size_var : string;
  herd_dist_var : string;
  herd_editors : list HerdPokemonEditor.t;
  wm_editors : list WeightMultiplierEditor.t;
  cond_editor : ConditionEditor.t;
  anti_editor : ConditionEditor.t;
  drops_editor : DropsEditor.t
}.

Definition default_herd_member : dict :=
  [("pokemon", JStr ""); ("levelRange", JStr "1-10"); ("weight", JInt 1)].

Definition default_weight_multiplier : dict :=
  [("multiplier", JFloat 1.0); ("condition", JObj [])].

Definition _add_herd_member `{PyFloat} (hp : json)
  : option HerdPokemonEditor.t :=
  hp <~ match hp with
        | JNull => Some default_herd_member
        | v => as_dict v
        end ;;
  HerdPokemonEditor.__init__ hp.

Definition _add_weight_multiplier `{PyFloat} (wm : json)
  : option WeightMultiplierEditor.t :=
  wm <~ match wm with
        | JNull => Some default_weight_multiplier
        | v => as_dict v
        end ;;
  WeightMultiplierEditor.__init__ wm.

(** Lines 616-619: the list of multipliers the editors are made from. *)
Definition weight_multipliers (spawn : dict) : json :=
  let wm_single := Py.get_or spawn "weightMultiplier" JNull in
  let wms := Py.get_or spawn "weightMultipliers" (JList []) in
  if Py.truthy wm_single && negb (Py.truthy wms) then JList [wm_single]
  else wms.

Definition _build `{PyFloat} (spawn : dict) : option t :=
  id <~ StringVar (Py.get_or spawn "id" (JStr "")) ;;
  type <~ StringVar (Py.get_or spawn "type" (JStr "pokemon")) ;;
  pokemon <~ StringVar (Py.get_or spawn "pokemon" (JStr "")) ;;
  presets <~ (l <~ as_list (Py.get_or spawn "presets" (JList [])) ;;
              traverse as_str l) ;;
  pos <~ StringVar (Py.get_or spawn "spawnablePositionType" (JStr "grounded")) ;;
  bucket <~ StringVar (Py.get_or spawn "bucket" (JStr "common")) ;;
  let is_herd := String.eqb type "pokemon-herd" in
  let level_field := if is_herd then "levelRange" else "level" in
  level <~ StringVar (Py.get_or spawn level_field
                        (Py.get_or spawn "level" (JStr ""))) ;;
  weight <~ Py.str (Py.get_or spawn "weight" (JFloat 1.0)) ;;
  herd_size <~ Py.str (Py.get_or spawn "maxHerdSize" (JInt 5)) ;;
  herd_dist <~ Py.str (Py.get_or spawn "minDistanceBetweenSpawns" (JFloat 1.5)) ;;
  herd <~ (if is_herd then
             l <~ as_list (Py.get_or spawn "herdablePokemon" (JList [])) ;;
             traverse _add_herd_member l
           else Some []) ;;
  wms <~ (l <~ as_list (weight_multipliers spawn) ;;
          traverse _add_weight_multiplier l) ;;
  cond <~ (c <~ as_dict (Py.get_or spawn "condition" (JObj [])) ;;
           ConditionEditor._build c) ;;
  anti <~ (c <~ as_dict (Py.get_or spawn "anticondition" (JObj [])) ;;
           ConditionEditor._build c) ;;
  drops <~ DropsEditor.__init__ (Py.get spawn "drops") ;;
  Some {| id_var := id; type_var := type; pokemon_var := pokemon;
          presets_list := presets; pos_var := pos; bucket_var := bucket;
          level_var := level; weight_var := weight;
          herd_size_var := herd_size; herd_dist_var := herd_dist;
          herd_editors := herd; wm_editors := wms;
          cond_editor := cond; anti_editor := anti; drops_editor := drops |}.

(** The user picks another entry of the type combobox; [_on_type_change]
    only shows and hides frames. *)
Definition select_type (self : t) (type : string) : t :=
  {| id_var := id_var self; type_var := type; pokemon_var := pokemon_var self;
     presets_list := presets_list self; pos_var := pos_var self;
     bucket_var := bucket_var self; level_var := level_var self;
     weight_var := weight_var self; herd_size_var := herd_size_var self;
     herd_dist_var := herd_dist_var self; herd_editors := herd_editors self;
     wm_editors := wm_editors self; cond_editor := cond_editor self;
     anti_editor := anti_editor self; drops_editor := drops_editor self |}.

Local Open Scope py_scope.

Definition get_data `{PyFloat} (self : t) : exc dict :=
  let result : dict :=
    [("id", JStr (id_var self)); ("type", JStr (type_var self))] in
  let is_herd := String.eqb (type_var self) "pokemon-herd" in
  let result :=
    if negb is_herd then Py.set result "pokemon" (JStr (pokemon_var self))
    else result in
  let result :=
    match presets_list self with
    | [] => result
    | l => Py.set result "presets" (JList (map JStr l))
    end in
  let result := Py.set result "spawnablePositionType" (JStr (pos_var self)) in
  let result := Py.set result "bucket" (JStr (bucket_var self)) in
  let level_key := if is_herd then "levelRange" else "level" in
  let result := Py.set result level_key (JStr (level_var self)) in
  result <- try_except
              (w <- of_option (float_ (weight_var self)) ;;
               Ok (Py.set result "weight" (JFloat w)))
              (Ok (Py.set result "weight" (JFloat 1.0%float))) ;;
  result <-
    (if is_herd then
       result <- try_except
                   (n <- of_option (Py.int_ (herd_size_var self)) ;;
                    Ok (Py.set result "maxHerdSize" (JInt n)))
                   (Ok (Py.set result "maxHerdSize" (JInt 5))) ;;
       result <- try_except
                   (x <- of_option (float_ (herd_dist_var self)) ;;
                    Ok (Py.set result "minDistanceBetweenSpawns" (JFloat x)))
                   (Ok (Py.set result "minDistanceBetweenSpawns"
                          (JFloat 1.5%float))) ;;
       herd <- mapM HerdPokemonEditor.get_data (herd_editors self) ;;
       Ok (Py.set result "herdablePokemon" (JList (map JObj herd)))
     else Ok result) ;;
  wm_data <- mapM WeightMultiplierEditor.get_data (wm_editors self) ;;
  let result :=
    match wm_data with
    | [] => result
    | _ => Py.set result "weightMultipliers" (JList (map JObj wm_data))
    end in
  cond <- ConditionEditor.get_data (cond_editor self) ;;
  let result :=
    match cond with [] => result | _ => Py.set result "condition" (JObj cond) end in
  anti <- ConditionEditor.get_data (anti_editor self) ;;
  let result :=
    match anti with [] => result | _ => Py.set result "anticondition" (JObj anti) end in
  drops <- DropsEditor.get_data (drops_editor self) ;;
  let result :=
    match drops with
    | Some d => Py.set result "drops" (JObj d)
    | None => result
    end in
  Ok result.

End SpawnEditor.

End Exe.

(* ===================================================================== *)
(** * [app.py]: the Streamlit render functions *)
(* ===================================================================== *)

Module App.

(** [st.session_state] as far as the script reads it: the value the user
    gave to a keyed widget (absent while the widget still shows the value
    it was created with), the [*_count] entries the script writes itself,
    and the buttons pressed in this run. *)
Record session := {
  text_state : string -> option string;
  check_state : string -> option bool;
  int_state : string -> option Z;
  float_state : string -> option float;
  multi_state : string -> option (list string);
  count_state : string -> option nat;
  clicked : string -> bool
}.

Definition fresh : session :=
  {| text_state := fun _ => None; check_state := fun _ => None;
     int_state := fun _ => None; float_state := fun _ => None;
     multi_state := fun _ => None; count_state := fun _ => None;
     clicked := fun _ => false |}.

Definition set_count (ss : session) (key : string) (n : nat) : session :=
  {| text_state := text_state ss; check_state := check_state ss;
     int_state := int_state ss; float_state := float_state ss;
     multi_state := multi_state ss;
     count_state := fun k => if String.eqb k key then Some n
                             else count_state ss k;
     clicked := clicked ss |}.

(** [st.session_state.pop(key, None)] for a widget key. *)
Definition pop_widget (ss : session) (key : string) : session :=
  let drop {A} (f : string -> option A) :=
    fun k => if String.eqb k key then None else f k in
  {| text_state := drop (text_state ss); check_state := drop (check_state ss);
     int_state := drop (int_state ss); float_state := drop (float_state ss);
     multi_state := drop (multi_state ss); count_state := count_state ss;
     clicked := clicked ss |}.

(** ** Widgets *)

(** [st.selectbox(label, options, index=i, key=k)]; Python's [None] when
    there is nothing to select. *)
Definition selectbox (ss : session) (key : string) (options : list string)
  (index : nat) : option string :=
  match text_state ss key with
  | Some v => Some v
  | None => nth_error options index
  end.

Definition text_input (ss : session) (key value : string) : string :=
  match text_state ss key with Some v => v | None => value end.

Definition text_area := text_input.

Definition checkbox (ss : session) (key : string) (value : bool) : bool :=
  match check_state ss key with Some v => v | None => value end.

(** The numbers of the browser.  [st.number_input] checks its arguments
    with [JSNumber.validate_int_bounds] and [validate_float_bounds] and
    raises [StreamlitJSNumberBoundsError] on an int outside JavaScript's
    safe integers and on a float below [-MAX_VALUE] or above [MAX_VALUE]
    (a NaN passes the two comparisons). *)
Definition MAX_SAFE_INTEGER : Z := 2 ^ 53 - 1.
Definition MAX_VALUE : float := 0x1.fffffffffffffp+1023%float.

Definition js_int (n : Z) : bool :=
  ((- MAX_SAFE_INTEGER <=? n) && (n <=? MAX_SAFE_INTEGER))%Z.

Definition js_float (x : float) : bool :=
  negb (PrimFloat.ltb x (- MAX_VALUE)) && negb (PrimFloat.ltb MAX_VALUE x).

(** [st.number_input(label, value=v, step=1, key=k)] for an int [v] and
    [st.number_input(label, value=v, step=0.1, key=k)] for a float [v]:
    [None] where the argument is out of bounds.  What the session holds
    for the widget came from the browser and is one of its numbers; a
    stored number that is not is outside the model. *)
Definition number_input_int (ss : session) (key : string) (value : Z)
  : option Z :=
  if js_int value then
    match int_state ss key with
    | Some v => if js_int v then Some v else None
    | None => Some value
    end
  else None.

Definition number_input_float (ss : session) (key : string) (value : float)
  : option float :=
  if js_float value then
    match float_state ss key with
    | Some v => if js_float v then Some v else None
    | None => Some value
    end
  else None.

(** A session whose stored numbers are numbers of the browser. *)
Definition in_range (ss : session) : Prop :=
  (forall k v, int_state ss k = Some v -> js_int v = true) /\
  (forall k v, float_state ss k = Some v -> js_float v = true).

Definition multiselect (ss : session) (key : string) (default : list string)
  : list string :=
  match multi_state ss key with Some v => v | None => default end.

Definition button (ss : session) (key : string) : bool := clicked ss key.

Definition opt_str (v : option string) : json :=
  match v with Some s => JStr s | None => JNull end.

(** [options.index(current) if current in options else 0]. *)
Definition index_or_0 (current : json) (options : list string) : nat :=
  match current with
  | JStr s => if Py.mem s options then Py.index s options else 0
  | _ => 0
  end.

(** ** Arguments the widgets are created with *)

Definition as_bool (v : json) : option bool :=
  match v with JBool b => Some b | _ => None end.

(** [float(v)] for a number of the record. *)
Definition float_of (v : json) : option float :=
  match v with
  | JFloat f => Some f
  | JInt n => Py.float_of_int n
  | _ => None
  end.

(** [int(v)] for an int of the record. *)
Definition int_of (v : json) : option Z :=
  match v with JInt n => Some n | _ => None end.

(** [current if current is not None else 0], with [current is not None]. *)
Definition int_value (current : option json) : option (Z * bool) :=
  match current with
  | None | Some JNull => Some (0%Z, false)
  | Some (JInt n) => Some (n, true)
  | Some _ => None
  end.

Definition list_value (current : json) : option string :=
  l <~ as_list current ;; ss <~ traverse as_str l ;; Some (Py.join Py.NL ss).

Definition moon_index `{PyFloat} (cond : dict) : option nat :=
  current_moon <~ Py.str (Py.get_or cond "moonPhase" (JStr "")) ;;
  Some (index_or_0 (JStr current_moon) MOON_PHASES).

Definition time_index (cond : dict) : nat :=
  index_or_0 (Py.get_or cond "timeRange" (JStr "")) TIME_RANGES.

(** ** render_condition *)

Fixpoint foldO {A S} (f : S -> A -> option S) (l : list A) (s : S)
  : option S :=
  match l with
  | [] => Some s
  | a :: r => s' <~ f s a ;; foldO f r s'
  end.

Section Condition.
Context `{PyFloat}.
Variable ss : session.
Variable cond : dict.
Variable key_prefix : string.

Definition key (field : string) : string := key_prefix ++ "_" ++ field.

Definition render_bool (result : dict) (field : string) : option dict :=
  value <~ as_bool (Py.get_or cond field (JBool false)) ;;
  let val := checkbox ss (key field) value in
  Some (if val then Py.set result field (JBool val) else result).

Definition render_int (result : dict) (field : string) : option dict :=
  let current := Py.get cond field in
  vh <~ int_value current ;;
  let '(value, had_value) := vh in
  val <~ number_input_int ss (key field) value ;;
  let int_val := val in
  Some (if had_value || negb (int_val =? 0)%Z
        then Py.set result field (JInt int_val) else result).

Definition render_list (result : dict) (field : string) : option dict :=
  value <~ list_value (Py.get_or cond field (JList [])) ;;
  let val := text_area ss (key field) value in
  let entries := Py.stripped_lines val in
  Some (match entries with
        | [] => result
        | _ => Py.set result field (JList (map JStr entries))
        end).

Definition render_str (result : dict) (field : string) : option dict :=
  current <~ as_str (Py.get_or cond field (JStr "")) ;;
  let val := text_input ss (key field) current in
  Some (if Py.str_truthy val then Py.set result field (JStr val) else result).

Definition render_condition : option dict :=
  let result : dict := [] in
  let time_val := selectbox ss (key "timeRange") TIME_RANGES (time_index cond) in
  let result :=
    if Py.truthy (opt_str time_val)
    then Py.set result "timeRange" (opt_str time_val) else result in
  index <~ moon_index cond ;;
  let moon_val := selectbox ss (key "moonPhase") MOON_PHASES index in
  let result :=
    if Py.truthy (opt_str moon_val)
    then Py.set result "moonPhase" (opt_str moon_val) else result in
  result <~ foldO render_bool CONDITION_BOOL_FIELDS result ;;
  result <~ foldO render_int CONDITION_INT_FIELDS result ;;
  result <~ foldO render_list CONDITION_LIST_FIELDS result ;;
  result <~ foldO render_str CONDITION_STRING_FIELDS result ;;
  Some result.

End Condition.

(** The state of the condition form: what each widget shows, and for the
    numeric fields whether the record had a value. *)
Record condition_widgets := {
  time_val : option string;
  moon_val : option string;
  bool_vals : list (string * bool);
  int_vals : list (string * (Z * bool));
  list_vals : list (string * string);
  str_vals : list (string * string)
}.

Definition widgets_of `{PyFloat} (ss : session) (cond : dict)
  (key_prefix : string) : option condition_widgets :=
  let k := key key_prefix in
  index <~ moon_index cond ;;
  bools <~ traverse (fun field =>
             value <~ as_bool (Py.get_or cond field (JBool false)) ;;
             Some (field, checkbox ss (k field) value))
           CONDITION_BOOL_FIELDS ;;
  ints <~ traverse (fun field =>
             vh <~ int_value (Py.get cond field) ;;
             let '(value, had_value) := vh in
             val <~ number_input_int ss (k field) value ;;
             Some (field, (val, had_value)))
           CONDITION_INT_FIELDS ;;
  lists <~ traverse (fun field =>
             value <~ list_value (Py.get_or cond field (JList [])) ;;
             Some (field, text_area ss (k field) value))
           CONDITION_LIST_FIELDS ;;
  strs <~ traverse (fun field =>
             current <~ as_str (Py.get_or cond field (JStr "")) ;;
             Some (field, text_input ss (k field) current))
           CONDITION_STRING_FIELDS ;;
  Some {| time_val := selectbox ss (k "timeRange") TIME_RANGES (time_index cond);
          moon_val := selectbox ss (k "moonPhase") MOON_PHASES index;
          bool_vals := bools; int_vals := ints; list_vals := lists;
          str_vals := strs |}.

(** ** render_weight_multiplier, render_herd_pokemon *)

Definition render_weight_multiplier `{PyFloat} (ss : session) (wm : dict)
  (key_prefix : string) : option dict :=
  value <~ float_of (Py.get_or wm "multiplier" (JFloat 1.0)) ;;
  mult <~ number_input_float ss (key_prefix ++ "_mult") value ;;
  let result : dict := [("multiplier", JFloat mult)] in
  c <~ as_dict (Py.get_or wm "condition" (JObj [])) ;;
  cond <~ render_condition ss c (key_prefix ++ "_mc") ;;
  Some (Py.set result "condition" (JObj cond)).

(** [names] is what [load_pokemon_names()] reads from the spawn directory. *)
Definition render_herd_pokemon (names : list string) (ss : session)
  (hp : dict) (key_prefix : string) : option dict :=
  let result : dict := [] in
  let current := Py.get_or hp "pokemon" (JStr "") in
  let idx := index_or_0 current names in
  let result :=
    Py.set result "pokemon"
      (opt_str (selectbox ss (key_prefix ++ "_poke") names idx)) in
  lr <~ as_str (Py.get_or hp "levelRange" (JStr "")) ;;
  let result :=
    Py.set result "levelRange" (JStr (text_input ss (key_prefix ++ "_lr") lr)) in
  w <~ float_of (Py.get_or hp "weight" (JInt 1)) ;;
  weight <~ number_input_float ss (key_prefix ++ "_w") w ;;
  let result := Py.set result "weight" (JFloat weight) in
  leader <~ as_bool (Py.get_or hp "isLeader" (JBool false)) ;;
  let result :=
    Py.set result "isLeader"
      (JBool (checkbox ss (key_prefix ++ "_leader") leader)) in
  let max_times := Py.get_or hp "maxTimes" JNull in
  value <~ (if Py.truthy max_times then int_of max_times else Some 0%Z) ;;
  mt <~ number_input_int ss (key_prefix ++ "_mt") value ;;
  let result :=
    if (mt >? 0)%Z then Py.set result "maxTimes" (JInt mt) else result in
  lro <~ as_str (Py.get_or hp "levelRangeOffset" (JStr "")) ;;
  let offset := text_input ss (key_prefix ++ "_lro") lro in
  let result :=
    if Py.str_truthy offset
    then Py.set result "levelRangeOffset" (JStr offset) else result in
  Some result.

(** ** One script run

    A run reads and writes the session; it ends with a value, or is cut
    short by [st.rerun()], or meets a value outside the schema. *)
Inductive run (A : Type) : Type :=
| Done (a : A) (ss : session)
| Rerun (ss : session)
| OutOfSchema.
Arguments Done {A} a ss.
Arguments Rerun {A} ss.
Arguments OutOfSchema {A}.

Definition M (A : Type) : Type := session -> run A.

Definition ret {A} (a : A) : M A := fun ss => Done a ss.

Definition bindM {A B} (c : M A) (k : A -> M B) : M B :=
  fun ss =>
    match c ss with
    | Done a ss' => k a ss'
    | Rerun ss' => Rerun ss'
    | OutOfSchema => OutOfSchema
    end.

Definition reads {A} (f : session -> A) : M A := fun ss => Done (f ss) ss.

Definition lift {A} (o : option A) : M A :=
  fun ss => match o with Some a => Done a ss | None => OutOfSchema end.

Definition modify (f : session -> session) : M unit :=
  fun ss => Done tt (f ss).

Definition rerun {A} : M A := fun ss => Rerun ss.

Declare Scope app_scope.
Delimit Scope app_scope with app.
Notation "x <- c ;; k" := (bindM c (fun x => k))
  (at level 61, c at next level, right associativity) : app_scope.
Notation "c ;;; k" := (bindM c (fun _ => k))
  (at level 61, right associativity) : app_scope.

Local Open Scope app_scope.

(** [if count_key not in st.session_state: st.session_state[count_key] = n],
    then the stored count. *)
Definition init_count (count_key : string) (n : nat) : M nat :=
  fun ss =>
    match count_state ss count_key with
    | Some c => Done c ss
    | None => Done n (set_count ss count_key n)
    end.

Definition item_at (l : list json) (i : nat) (default : dict) : option dict :=
  match nth_error l i with
  | Some v => as_dict v
  | None => Some default
  end.

Definition index_key (key_prefix : string) (i : nat) : string :=
  key_prefix ++ Py.str_int (Z.of_nat i).

(** ** render_drops *)

Definition default_drops : dict :=
  [("amount", JInt 1); ("entries", JList [])].

Definition default_entry : dict :=
  [("item", JStr ""); ("percentage", JFloat 0.0)].

(** One turn of the loop over [range(n)]: the state is
    [(updated_entries, to_delete)]. *)
Definition render_entry (ss : session) (file_entries : list json)
  (key_prefix : string) (acc : list json * list nat) (ei : nat)
  : option (list json * list nat) :=
  let '(updated_entries, to_delete) := acc in
  entry <~ item_at file_entries ei default_entry ;;
  let ek := index_key (key_prefix ++ "_entry") ei in
  item0 <~ as_str (Py.get_or entry "item" (JStr "")) ;;
  let item := text_input ss (ek ++ "_item") item0 in
  qr0 <~ as_str (Py.get_or entry "quantityRange" (JStr "")) ;;
  let qr := text_input ss (ek ++ "_qr") qr0 in
  pct0 <~ float_of (Py.get_or entry "percentage" (JInt 0)) ;;
  pct <~ number_input_float ss (ek ++ "_pct") pct0 ;;
  if checkbox ss (ek ++ "_del") false then
    Some (updated_entries, to_delete ++ [ei])   (* continue *)
  else if Py.str_truthy item then
    let e : dict := [("item", JStr item)] in
    let e := if Py.str_truthy qr then Py.set e "quantityRange" (JStr qr)
             else e in
    let e := if PrimFloat.ltb 0%float pct
             then Py.set e "percentage" (JFloat pct) else e in
    Some (updated_entries ++ [JObj e], to_delete)
  else Some (updated_entries, to_delete).

Definition pop_entry_keys (key_prefix : string) (ss : session) (ei : nat)
  : session :=
  fold_left (fun ss suffix =>
               pop_widget ss (index_key (key_prefix ++ "_entry") ei ++ suffix))
            ["_item"; "_qr"; "_pct"; "_del"] ss.

(** [drops] is [spawn.get("drops")]; the result [None] is Python's. *)
Definition render_drops (drops : option json) (key_prefix : string)
  : M (option dict) :=
  let has_drops :=
    match drops with None | Some JNull => false | Some _ => true end in
  enabled <- reads (fun ss => checkbox ss (key_prefix ++ "_has_drops") has_drops) ;;
  if negb enabled then ret None
  else
    drops <- lift (match drops with
                   | None | Some JNull => Some default_drops
                   | Some v => as_dict v
                   end) ;;
    let count_key := (key_prefix ++ "_entry_count")%string in
    file_entries <- lift (as_list (Py.get_or drops "entries" (JList []))) ;;
    n <- init_count count_key (length file_entries) ;;
    amount0 <- lift (a <~ int_of (Py.get_or drops "amount" (JInt 1)) ;;
                     if (a <? 1)%Z then None else Some a) ;;
    amount <- (fun ss => lift (number_input_int ss (key_prefix ++ "_amount")
                                 amount0) ss) ;;
    let result : dict := [("amount", JInt amount)] in
    loop <- (fun ss =>
               lift (foldO (render_entry ss file_entries key_prefix)
                           (seq 0 n) ([], [])) ss) ;;
    let '(updated_entries, to_delete) := loop in
    match to_delete with
    | _ :: _ =>
        modify (fun ss =>
                  fold_left (pop_entry_keys key_prefix) to_delete
                    (set_count ss count_key (n - length to_delete))) ;;;
        rerun
    | [] =>
        add <- reads (fun ss => button ss (key_prefix ++ "_add_entry")) ;;
        if add then
          modify (fun ss => set_count ss count_key (n + 1)) ;;; rerun
        else
          ret (Some (Py.set result "entries" (JList updated_entries)))
    end.

(** ** render_spawn *)

Definition default_herd_member : dict :=
  [("pokemon", JStr ""); ("levelRange", JStr "1-10"); ("weight", JInt 1)].

Definition default_weight_multiplier : dict :=
  [("multiplier", JFloat 1.0); ("condition", JObj [])].

(** Lines 382-386: the list of multipliers that is rendered. *)
Definition weight_multipliers (spawn : dict) : json :=
  let wm := Py.get_or spawn "weightMultiplier" JNull in
  let wms := Py.get_or spawn "weightMultipliers" (JList []) in
  if Py.truthy wm && negb (Py.truthy wms) then JList [wm] else wms.

(** The body shared by the two delete-aware loops: [render] is the editor
    of one item, [default] the item shown for a slot past the file's list. *)
Definition render_slot (render : session -> dict -> string -> option dict)
  (ss : session) (file_items : list json) (default : dict)
  (key_prefix : string) (acc : list json * list nat) (i : nat)
  : option (list json * list nat) :=
  let '(updated, to_delete) := acc in
  it <~ item_at file_items i default ;;
  let k := index_key key_prefix i in
  if checkbox ss (k ++ "_del") false then
    Some (updated, to_delete ++ [i])   (* continue *)
  else
    r <~ render ss it k ;;
    Some (updated ++ [JObj r], to_delete).

Definition render_slots (render : session -> dict -> string -> option dict)
  (file_items : list json) (default : dict) (key_prefix count_key add_key : string)
  : M (list json) :=
  n <- init_count count_key (length file_items) ;;
  loop <- (fun ss =>
             lift (foldO (render_slot render ss file_items default key_prefix)
                         (seq 0 n) ([], [])) ss) ;;
  let '(updated, to_delete) := loop in
  match to_delete with
  | _ :: _ =>
      modify (fun ss => set_count ss count_key (n - length to_delete)) ;;;
      rerun
  | [] =>
      add <- reads (fun ss => button ss add_key) ;;
      if add then modify (fun ss => set_count ss count_key (n + 1)) ;;; rerun
      else ret updated
  end.

Definition herd_fields `{PyFloat} (names : list string) (spawn : dict)
  (key_prefix : string) (result : dict) : M dict :=
  size0 <- lift (n <~ int_of (Py.get_or spawn "maxHerdSize" (JInt 5)) ;;
                 if (n <? 1)%Z then None else Some n) ;;
  size <- (fun ss => lift (number_input_int ss (key_prefix ++ "_herdsize")
                             size0) ss) ;;
  let result := Py.set result "maxHerdSize" (JInt size) in
  dist0 <- lift (float_of (Py.get_or spawn "minDistanceBetweenSpawns"
                             (JFloat 1.5))) ;;
  dist <- (fun ss => lift (number_input_float ss (key_prefix ++ "_herddist")
                             dist0) ss) ;;
  let result := Py.set result "minDistanceBetweenSpawns" (JFloat dist) in
  herd_list <- lift (as_list (Py.get_or spawn "herdablePokemon" (JList []))) ;;
  updated_herd <- render_slots (render_herd_pokemon names) herd_list
                    default_herd_member (key_prefix ++ "_herd")
                    (key_prefix ++ "_herd_count") (key_prefix ++ "_add_herd") ;;
  ret (Py.set result "herdablePokemon" (JList updated_herd)).

(** [if not result.get(k): result.pop(k, None)]. *)
Definition drop_if_empty (result : dict) (k : string) : dict :=
  if negb (Py.truthy (Py.get_or result k JNull)) then Py.pop result k
  else result.

(** The pair returned is [(updated_dict, delete)], with Python's [None]
    for a deleted spawn. *)
Definition render_spawn `{PyFloat} (names : list string) (spawn : dict)
  (key_prefix : string) : M (option dict * bool) :=
  delete <- reads (fun ss => checkbox ss (key_prefix ++ "_delete") false) ;;
  if delete then ret (None, true)
  else
    let result : dict := [] in
    id0 <- lift (as_str (Py.get_or spawn "id" (JStr ""))) ;;
    id <- reads (fun ss => text_input ss (key_prefix ++ "_id") id0) ;;
    let result := Py.set result "id" (JStr id) in
    let spawn_type := Py.get_or spawn "type" (JStr "pokemon") in
    type <- reads (fun ss => selectbox ss (key_prefix ++ "_type") SPAWN_TYPES
                               (index_or_0 spawn_type SPAWN_TYPES)) ;;
    let result := Py.set result "type" (opt_str type) in
    let is_herd :=
      match type with Some t => String.eqb t "pokemon-herd" | None => false end in
    result <- (if negb is_herd then
                 p0 <- lift (as_str (Py.get_or spawn "pokemon" (JStr ""))) ;;
                 p <- reads (fun ss => text_input ss (key_prefix ++ "_pokemon") p0) ;;
                 ret (Py.set result "pokemon" (JStr p))
               else ret result) ;;
    presets <- lift (l <~ as_list (Py.get_or spawn "presets" (JList [])) ;;
                     traverse as_str l) ;;
    sel <- reads (fun ss => multiselect ss (key_prefix ++ "_presets") presets) ;;
    let result := Py.set result "presets" (JList (map JStr sel)) in
    let pos := Py.get_or spawn "spawnablePositionType" (JStr "grounded") in
    pos_val <- reads (fun ss => selectbox ss (key_prefix ++ "_pos") POSITION_TYPES
                                  (index_or_0 pos POSITION_TYPES)) ;;
    let result := Py.set result "spawnablePositionType" (opt_str pos_val) in
    let bucket := Py.get_or spawn "bucket" (JStr "common") in
    bucket_val <- reads (fun ss => selectbox ss (key_prefix ++ "_bucket") BUCKETS
                                     (index_or_0 bucket BUCKETS)) ;;
    let result := Py.set result "bucket" (opt_str bucket_val) in
    let level_field := if is_herd then "levelRange" else "level" in
    level0 <- lift (as_str (Py.get_or spawn level_field
                              (Py.get_or spawn "level" (JStr "")))) ;;
    level <- reads (fun ss => text_input ss (key_prefix ++ "_level") level0) ;;
    let result := Py.set result level_field (JStr level) in
    weight0 <- lift (float_of (Py.get_or spawn "weight" (JFloat 1.0))) ;;
    weight <- (fun ss => lift (number_input_float ss (key_prefix ++ "_weight")
                                 weight0) ss) ;;
    let result := Py.set result "weight" (JFloat weight) in
    result <- (if is_herd then herd_fields names spawn key_prefix result
               else ret result) ;;
    wms <- lift (as_list (weight_multipliers spawn)) ;;
    updated_wms <- render_slots render_weight_multiplier wms
                     default_weight_multiplier (key_prefix ++ "_wms")
                     (key_prefix ++ "_wm_count") (key_prefix ++ "_add_wms") ;;
    let result :=
      match updated_wms with
      | [] => result
      | _ => Py.set result "weightMultipliers" (JList updated_wms)
      end in
    c <- lift (as_dict (Py.get_or spawn "condition" (JObj []))) ;;
    cond <- (fun ss => lift (render_condition ss c (key_prefix ++ "_cond")) ss) ;;
    let result := Py.set result "condition" (JObj cond) in
    a <- lift (as_dict (Py.get_or spawn "anticondition" (JObj []))) ;;
    anti <- (fun ss => lift (render_condition ss a (key_prefix ++ "_anti")) ss) ;;
    let result := Py.set result "anticondition" (JObj anti) in
    drops_result <- render_drops (Py.get spawn "drops") (key_prefix ++ "_drops") ;;
    let result :=
      match drops_result with
      | Some d => Py.set result "drops" (JObj d)
      | None => result
      end in
    let result := fold_left drop_if_empty ["condition"; "anticondition"] result in
    let result := drop_if_empty result "presets" in
    ret (Some result, false).

End App.

(* ===================================================================== *)
(** * Module-level names: [get_default_pokemons.py] and the head of [exe.py] *)
(* ===================================================================== *)

Module Imports.

(** The statements that bind names when a module body runs. *)
Inductive stmt : Type :=
| import_ (module as_name : string)               (* import m [as n] *)
| from_import (module : string) (names : list string)
| try_import_else_exit (module : string) (code : Z)
    (* try: import m / except ImportError: print(...); sys.exit(code) *)
| bind (name : string)                            (* NAME = ..., def NAME, class NAME *)
| if_frozen (name : string)                       (* if getattr(sys, "frozen", False): NAME = ... *)
| if_main (call : string).                        (* if __name__ == "__main__": call() *)

Inductive outcome : Type :=
| Finished (namespace : list string) (called : list string)
| ImportError (module : string) (name : option string)
| SystemExit (code : Z).

(** The machine the program runs on. *)
Record env := {
  installed : string -> bool;   (* modules outside the repository *)
  frozen : bool                 (* packaged by PyInstaller *)
}.

Section Exec.
Variable e : env.
(** Loading a module of the repository, [None] for any other module. *)
Variable repo : string -> option outcome.
Variable is_main : bool.

Fixpoint exec (body : list stmt) (namespace called : list string) : outcome :=
  match body with
  | [] => Finished namespace called
  | import_ m n :: rest =>
      if installed e m then exec rest (namespace ++ [n]) called
      else ImportError m None
  | try_import_else_exit m code :: rest =>
      if installed e m then exec rest (namespace ++ [m]) called
      else SystemExit code
  | from_import m names :: rest =>
      match repo m with
      | Some (Finished exported _) =>
          match find (fun n => negb (Py.mem n exported)) names with
          | Some missing => ImportError m (Some missing)
          | None => exec rest (namespace ++ names) called
          end
      | Some failure => failure
      | None =>
          if installed e m then exec rest (namespace ++ names) called
          else ImportError m None
      end
  | bind n :: rest => exec rest (namespace ++ [n]) called
  | if_frozen n :: rest =>
      exec rest (if frozen e then namespace ++ [n] else namespace) called
  | if_main f :: rest =>
      exec rest namespace (if is_main then called ++ [f] else called)
  end.

End Exec.

(** [get_default_pokemons.py], top to bottom. *)
Definition get_default_pokemons : list stmt :=
  [import_ "io" "io"; import_ "json" "json"; import_ "os" "os";
   import_ "re" "re"; import_ "sys" "sys"; import_ "tarfile" "tarfile";
   from_import "shutil" ["rmtree"];
   try_import_else_exit "requests" 1;
   bind "BASE_URL"; bind "PROJECT_ID"; bind "SPAWN_FOLDER";
   bind "SPECIES_FOLDER"; bind "REF"; bind "OUTPUT_DIR"; bind "BLANK_SPAWN";
   bind "download_spawn_pool"; bind "fetch_all_species";
   bind "create_blank_spawns"; bind "get_default"; bind "reset";
   if_main "reset"].

(** [exe.py], top to bottom. *)
Definition exe : list stmt :=
  [import_ "glob" "glob"; import_ "json" "json"; import_ "os" "os";
   import_ "re" "re"; import_ "sys" "sys"; import_ "threading" "threading";
   import_ "tkinter" "tk";
   from_import "tkinter" ["ttk"; "messagebox"];
   from_import "get_default_pokemons" ["reset"; "set_blank"];
   if_frozen "_devnull"; bind "_BASE_DIR"; bind "SPAWN_DIR";
   bind "BUCKETS"; bind "SPAWN_TYPES"; bind "POSITION_TYPES";
   bind "PRESET_OPTIONS"; bind "TIME_RANGES"; bind "MOON_PHASES";
   bind "CONDITION_BOOL_FIELDS"; bind "CONDITION_INT_FIELDS";
   bind "CONDITION_LIST_FIELDS"; bind "CONDITION_STRING_FIELDS";
   bind "load_pokemon_files"; bind "load_pokemon_names";
   bind "load_spawn_data"; bind "save_spawn_data";
   bind "ScrollableFrame"; bind "CollapsibleFrame"; bind "ChecklistPopup";
   bind "ConditionEditor"; bind "WeightMultiplierEditor";
   bind "HerdPokemonEditor"; bind "DropsEditor"; bind "SpawnEditor";
   bind "CobblemonSpawnEditor"; bind "main";
   if_main "main"].

(** Importing [get_default_pokemons] from another module. *)
Definition load_get_default_pokemons (e : env) : outcome :=
  exec e (fun _ => None) false get_default_pokemons [] [].

(** Loading [exe.py]: run as a script ([is_main]) or imported. *)
Definition load_exe (e : env) (is_main : bool) : outcome :=
  exec e (fun m => if String.eqb m "get_default_pokemons"
                   then Some (load_get_default_pokemons e) else None)
       is_main exe [] [].

(** [python exe.py]. *)
Definition run_exe (e : env) : outcome := load_exe e true.

(** The modules outside the repository that [exe.py] imports before its
    line 16, and those that [get_default_pokemons.py] imports before it
    tries [requests], in the order of the imports. *)
Definition EXE_HEAD : list string :=
  ["glob"; "json"; "os"; "re"; "sys"; "threading"; "tkinter"].

Definition GET_DEFAULT_HEAD : list string :=
  ["io"; "json"; "os"; "re"; "sys"; "tarfile"; "shutil"].

Definition first_missing (e : env) (modules : list string) : option string :=
  find (fun m => negb (installed e m)) modules.

Definition is_ImportError (o : outcome) : bool :=
  match o with ImportError _ _ => true | _ => false end.

Definition all_installed : env :=
  {| installed := fun _ => true; frozen := false |}.

Definition without_requests : env :=
  {| installed := fun m => negb (String.eqb m "requests"); frozen := false |}.

Definition without_tkinter_and_requests : env :=
  {| installed := fun m => negb (String.eqb m "requests"
                                 || String.eqb m "tkinter");
     frozen := false |}.

End Imports.

(* ===================================================================== *)
(** * Vocabulary of the statements *)
(* ===================================================================== *)

(** ** What a condition form assigns, key by key *)

Module ExeEntries.
Import Exe.ConditionEditor.

Definition text_entry (key val : string) : string * option json :=
  (key, if Py.str_truthy val then Some (JStr val) else None).

Definition bool_entry (item : string * bool) : string * option json :=
  (fst item, if snd item then Some (JBool true) else None).

Definition int_result (var : string) (had_value : bool) : option json :=
  let raw := Py.strip var in
  if Py.str_truthy raw then
    match Py.int_ raw with
    | Some val => if had_value || negb (val =? 0)%Z then Some (JInt val) else None
    | None => None
    end
  else None.

Definition int_entry (item : string * (string * bool)) : string * option json :=
  (fst item, int_result (fst (snd item)) (snd (snd item))).

Definition list_result (txt : string) : option json :=
  match Py.stripped_lines (Py.strip (Exe.Text_get txt)) with
  | [] => None
  | entries => Some (JList (map JStr entries))
  end.

Definition list_entry (item : string * string) : string * option json :=
  (fst item, list_result (snd item)).

Definition str_entry (item : string * string) : string * option json :=
  text_entry (fst item) (Py.strip (snd item)).

Definition entries (self : t) : list (string * option json) :=
  [text_entry "timeRange" (time_var self);
   text_entry "moonPhase" (moon_var self)]
  ++ map bool_entry (bool_vars self)
  ++ map int_entry (int_vars self)
  ++ map list_entry (list_texts self)
  ++ map str_entry (str_vars self).

(** The variables of an editor are those [_build] made: one per field. *)
Definition wf (self : t) : Prop :=
  map fst (bool_vars self) = CONDITION_BOOL_FIELDS /\
  map fst (int_vars self) = CONDITION_INT_FIELDS /\
  map fst (list_texts self) = CONDITION_LIST_FIELDS /\
  map fst (str_vars self) = CONDITION_STRING_FIELDS.

End ExeEntries.

(** ** What [_build] makes of a well-typed condition *)

Module ExeShape.
Import Exe.ConditionEditor.

Definition sv (v : option json) : string :=
  match v with Some (JStr s) => s | _ => "" end.

Definition mv `{PyFloat} (v : option json) : string :=
  match v with
  | Some (JStr s) => s
  | Some (JInt n) => Py.str_int n
  | Some (JFloat f) => repr_float f
  | Some JNull => "None"
  | Some (JBool true) => "True"
  | Some (JBool false) => "False"
  | _ => ""
  end.

Definition bv (v : option json) : bool :=
  match v with Some (JBool b) => b | _ => false end.

Definition iv (v : option json) : string * bool :=
  match v with Some (JInt n) => (Py.str_int n, true) | _ => ("", false) end.

Definition lines (v : option json) : list string :=
  match v with
  | Some (JList l) =>
      flat_map (fun x => match x with JStr s => [s] | _ => [] end) l
  | _ => []
  end.

Definition lv (v : option json) : string := Py.join Py.NL (lines v).

Definition shape `{PyFloat} (raw : dict) : t :=
  {| time_var := sv (Py.get raw "timeRange");
     moon_var := mv (Py.get raw "moonPhase");
     bool_vars := map (fun f => (f, bv (Py.get raw f))) CONDITION_BOOL_FIELDS;
     int_vars := map (fun f => (f, iv (Py.get raw f))) CONDITION_INT_FIELDS;
     list_texts := map (fun f => (f, lv (Py.get raw f))) CONDITION_LIST_FIELDS;
     str_vars := map (fun f => (f, sv (Py.get raw f))) CONDITION_STRING_FIELDS |}.

End ExeShape.

Module AppEntries.
Import App.

Section Entries.
Context `{PyFloat}.
Variable ss : session.
Variable cond : dict.
Variable key_prefix : string.

Definition select_entry (field : string) (val : option string)
  : string * option json :=
  (field, if Py.truthy (opt_str val) then Some (opt_str val) else None).

Definition time_entry : string * option json :=
  select_entry "timeRange"
    (selectbox ss (key key_prefix "timeRange") TIME_RANGES (time_index cond)).

Definition moon_entry : string * option json :=
  select_entry "moonPhase"
    (match moon_index cond with
     | Some index => selectbox ss (key key_prefix "moonPhase") MOON_PHASES index
     | None => None
     end).

Definition bool_entry (field : string) : string * option json :=
  (field,
   match as_bool (Py.get_or cond field (JBool false)) with
   | Some value =>
       if checkbox ss (key key_prefix field) value then Some (JBool true)
       else None
   | None => None
   end).

(** The number shown for a numeric field, and whether the record had one. *)
Definition int_widget (field : string) : option (Z * bool) :=
  match int_value (Py.get cond field) with
  | Some (value, had_value) =>
      val <~ number_input_int ss (key key_prefix field) value ;;
      Some (val, had_value)
  | None => None
  end.

Definition int_entry (field : string) : string * option json :=
  (field,
   match int_widget field with
   | Some (int_val, had_value) =>
       if had_value || negb (int_val =? 0)%Z then Some (JInt int_val) else None
   | None => None
   end).

Definition list_entry (field : string) : string * option json :=
  (field,
   match list_value (Py.get_or cond field (JList [])) with
   | Some value =>
       match Py.stripped_lines (text_area ss (key key_prefix field) value) with
       | [] => None
       | entries => Some (JList (map JStr entries))
       end
   | None => None
   end).

Definition str_entry (field : string) : string * option json :=
  (field,
   match as_str (Py.get_or cond field (JStr "")) with
   | Some current =>
       let val := text_input ss (key key_prefix field) current in
       if Py.str_truthy val then Some (JStr val) else None
   | None => None
   end).

Definition entries : list (string * option json) :=
  [time_entry; moon_entry]
  ++ map bool_entry CONDITION_BOOL_FIELDS
  ++ map int_entry CONDITION_INT_FIELDS
  ++ map list_entry CONDITION_LIST_FIELDS
  ++ map str_entry CONDITION_STRING_FIELDS.

End Entries.

(** What the widgets of a fresh session show for a well-typed condition. *)
Definition pick (options : list string) (current : string) : string :=
  if Py.mem current options then current else hd "" options.

Definition shape `{PyFloat} (raw : dict) : condition_widgets :=
  {| time_val := Some (pick TIME_RANGES (ExeShape.sv (Py.get raw "timeRange")));
     moon_val := Some (pick MOON_PHASES (ExeShape.mv (Py.get raw "moonPhase")));
     bool_vals := map (fun f => (f, ExeShape.bv (Py.get raw f)))
                      CONDITION_BOOL_FIELDS;
     int_vals := map (fun f => (f, match Py.get raw f with
                                   | Some (JInt n) => (n, true)
                                   | _ => (0%Z, false)
                                   end)) CONDITION_INT_FIELDS;
     list_vals := map (fun f => (f, ExeShape.lv (Py.get raw f)))
                      CONDITION_LIST_FIELDS;
     str_vals := map (fun f => (f, ExeShape.sv (Py.get raw f)))
                     CONDITION_STRING_FIELDS |}.

End AppEntries.

Definition CONDITION_KEYS : list string :=
  ["timeRange"; "moonPhase"] ++ CONDITION_BOOL_FIELDS ++ CONDITION_INT_FIELDS
  ++ CONDITION_LIST_FIELDS ++ CONDITION_STRING_FIELDS.

(** ** Raw condition objects *)

Module Raw.

Definition str_ok (v : option json) : bool :=
  match v with None | Some (JStr _) => true | _ => false end.

(** [moonPhase] may be a string or any other scalar, which [str] turns
    into a string. *)
Definition moon_ok (v : option json) : bool :=
  match v with
  | Some (JList _) | Some (JObj _) => false
  | _ => true
  end.

Definition bool_ok (v : option json) : bool :=
  match v with None | Some (JBool _) => true | _ => false end.

Definition int_ok (v : option json) : bool :=
  match v with None | Some (JInt _) => true | _ => false end.

Definition safe_int (v : option json) : bool :=
  match v with Some (JInt n) => App.js_int n | _ => true end.

(** The integers of the numeric fields are safe integers of the browser. *)
Definition safe_ints (raw : dict) : bool :=
  forallb (fun f => safe_int (Py.get raw f)) CONDITION_INT_FIELDS.

Definition is_str (v : json) : bool :=
  match v with JStr _ => true | _ => false end.

Definition list_ok (v : option json) : bool :=
  match v with
  | None => true
  | Some (JList l) => forallb is_str l
  | _ => false
  end.

(** Every known field is absent or has the type of its category. *)
Definition well_typed (raw : dict) : bool :=
  str_ok (Py.get raw "timeRange") && moon_ok (Py.get raw "moonPhase")
  && forallb (fun f => bool_ok (Py.get raw f)) CONDITION_BOOL_FIELDS
  && forallb (fun f => int_ok (Py.get raw f)) CONDITION_INT_FIELDS
  && forallb (fun f => list_ok (Py.get raw f)) CONDITION_LIST_FIELDS
  && forallb (fun f => str_ok (Py.get raw f)) CONDITION_STRING_FIELDS.

Definition is_clean_line (v : json) : bool :=
  match v with JStr s => Py.clean_line s | _ => false end.

Definition lines_ok (v : option json) : bool :=
  match v with
  | None => true
  | Some (JList l) => forallb is_clean_line l
  | _ => false
  end.

(** The entries of every list field are non-empty, carry no white space at
    either end and no line break. *)
Definition clean_lists (raw : dict) : bool :=
  forallb (fun f => lines_ok (Py.get raw f)) CONDITION_LIST_FIELDS.

Definition trimmed_ok (v : option json) : bool :=
  match v with
  | None => true
  | Some (JStr s) => Py.trimmed s
  | _ => false
  end.

(** The free strings carry no white space at either end. *)
Definition trimmed_strings (raw : dict) : bool :=
  forallb (fun f => trimmed_ok (Py.get raw f)) CONDITION_STRING_FIELDS.

(** A weight multiplier of the schema: the [multiplier], when there is one,
    is a number whose float the browser holds; the [condition], when there
    is one, is a well-typed condition with safe integers. *)
Definition multiplier_ok (wm : dict) : bool :=
  match App.float_of (Py.get_or wm "multiplier" (JFloat 1.0)) with
  | Some x => App.js_float x
  | None => false
  end
  && match Py.get_or wm "condition" (JObj []) with
     | JObj c => well_typed c && safe_ints c
     | _ => false
     end.

End Raw.

(** ** What the spawn editor of [exe.py] assigns *)

(** [try: x = float(text) / except ValueError: x = default]. *)
Definition float_or `{PyFloat} (default : float) (text : string) : float :=
  match float_ text with Some w => w | None => default end.

Definition int_or (default : Z) (text : string) : Z :=
  match Py.int_ text with Some n => n | None => default end.

(** What the editor of a herd member collects. *)
Module ExeHerd.
Import Exe.HerdPokemonEditor.

Definition encoded `{PyFloat} (self : t) : dict :=
  Py.update
    [("pokemon", JStr (pokemon_var self));
     ("levelRange", JStr (level_var self))]
    [("weight", Some (JFloat (float_or 1.0 (weight_var self))));
     ("isLeader", Some (JBool (leader_var self)));
     ("maxTimes",
      match Py.int_ (max_times_var self) with
      | Some mt => if (mt >? 0)%Z then Some (JInt mt) else None
      | None => None
      end);
     ("levelRangeOffset",
      let offset := Py.strip (offset_var self) in
      if Py.str_truthy offset then Some (JStr offset) else None)].

End ExeHerd.

Module ExeDrops.
Import Exe.DropsEditor.

(** What one row of the drops editor adds to [entries]. *)
Definition encoded `{PyFloat} (wd : widget_data) : list json :=
  let item := Py.strip (item wd) in
  if Py.str_truthy item then
    [JObj (Py.update [("item", JStr item)]
             [("quantityRange",
               let qr := Py.strip (qr wd) in
               if Py.str_truthy qr then Some (JStr qr) else None);
              ("percentage",
               match float_ (pct wd) with
               | Some pct => if PrimFloat.ltb 0%float pct
                             then Some (JFloat pct) else None
               | None => None
               end)])]
  else [].

(** The [item] of an encoded entry. *)
Definition item_of (entry : json) : option json :=
  match entry with JObj kv => Py.get kv "item" | _ => None end.

(** The entry is an object whose [item] is a non-empty string. *)
Definition has_item (entry : json) : bool :=
  match item_of entry with Some (JStr s) => Py.str_truthy s | _ => false end.

End ExeDrops.

Module ExeSpawn.
Import Exe.SpawnEditor.

Definition is_herd (self : t) : bool := String.eqb (type_var self) "pokemon-herd".

Definition base (self : t) : dict :=
  [("id", JStr (id_var self)); ("type", JStr (type_var self))].

Definition entries (self : t) (weight : float) (size : Z) (dist : float)
  (herd wm_data : list dict) (cond anti : dict) (drops : option dict)
  : list (string * option json) :=
  [("pokemon", if negb (is_herd self) then Some (JStr (pokemon_var self))
               else None);
   ("presets", match presets_list self with
               | [] => None
               | l => Some (JList (map JStr l))
               end);
   ("spawnablePositionType", Some (JStr (pos_var self)));
   ("bucket", Some (JStr (bucket_var self)));
   (if is_herd self then "levelRange" else "level", Some (JStr (level_var self)));
   ("weight", Some (JFloat weight));
   ("maxHerdSize", if is_herd self then Some (JInt size) else None);
   ("minDistanceBetweenSpawns",
    if is_herd self then Some (JFloat dist) else None);
   ("herdablePokemon",
    if is_herd self then Some (JList (map JObj herd)) else None);
   ("weightMultipliers", match wm_data with
                         | [] => None
                         | _ => Some (JList (map JObj wm_data))
                         end);
   ("condition", match cond with [] => None | _ => Some (JObj cond) end);
   ("anticondition", match anti with [] => None | _ => Some (JObj anti) end);
   ("drops", option_map JObj drops)].

End ExeSpawn.

(** ** What [render_spawn] assigns *)

Module AppSpawn.
Import App.

Definition is_herd (type : option string) : bool :=
  match type with Some t => String.eqb t "pokemon-herd" | None => false end.

(** Lines 434-438: the empty [condition], [anticondition] and [presets]
    are taken out again. *)
Definition finish (result : dict) : dict :=
  drop_if_empty (fold_left drop_if_empty ["condition"; "anticondition"] result)
    "presets".

Definition entries (id : string) (type : option string) (pokemon : string)
  (sel : list string) (pos bucket : option string) (level : string)
  (weight : float) (size : Z) (dist : float) (herd wms : list json)
  (cond anti : dict) (drops : option dict) : list (string * option json) :=
  [("id", Some (JStr id));
   ("type", Some (opt_str type));
   ("pokemon", if negb (is_herd type) then Some (JStr pokemon) else None);
   ("presets", Some (JList (map JStr sel)));
   ("spawnablePositionType", Some (opt_str pos));
   ("bucket", Some (opt_str bucket));
   (if is_herd type then "levelRange" else "level", Some (JStr level));
   ("weight", Some (JFloat weight));
   ("maxHerdSize", if is_herd type then Some (JInt size) else None);
   ("minDistanceBetweenSpawns",
    if is_herd type then Some (JFloat dist) else None);
   ("herdablePokemon", if is_herd type then Some (JList herd) else None);
   ("weightMultipliers", match wms with
                         | [] => None
                         | _ => Some (JList wms)
                         end);
   ("condition", Some (JObj cond));
   ("anticondition", Some (JObj anti));
   ("drops", option_map JObj drops)].

End AppSpawn.

(** ** A condition form with every field at its zero value *)

Module Blank.

(** A numeric entry left empty or showing zero, for a field the record had
    no value for. *)
Definition int_zero (v : string * bool) : Prop :=
  snd v = false /\
  (fst v = EmptyString \/ Py.int_ (Py.strip (fst v)) = Some 0%Z).

Definition editor (self : Exe.ConditionEditor.t) : Prop :=
  Exe.ConditionEditor.time_var self = EmptyString /\
  Exe.ConditionEditor.moon_var self = EmptyString /\
  Forall (fun x => snd x = false) (Exe.ConditionEditor.bool_vars self) /\
  Forall (fun x => int_zero (snd x)) (Exe.ConditionEditor.int_vars self) /\
  Forall (fun x => snd x = EmptyString) (Exe.ConditionEditor.list_texts self) /\
  Forall (fun x => snd x = EmptyString) (Exe.ConditionEditor.str_vars self).

Definition widgets (w : App.condition_widgets) : Prop :=
  App.time_val w = Some EmptyString /\
  App.moon_val w = Some EmptyString /\
  Forall (fun x => snd x = false) (App.bool_vals w) /\
  Forall (fun x => snd x = (0%Z, false)) (App.int_vals w) /\
  Forall (fun x => snd x = EmptyString) (App.list_vals w) /\
  Forall (fun x => snd x = EmptyString) (App.str_vals w).

End Blank.

(** ** Concrete inputs *)

(** An instance of the float interface to run examples with.  It reads
    plain decimal literals ([-12], [1.5], [.25]) of at most 15 digits and
    prints the floats whose exact decimal expansion has at most 15 digits
    and no exponent (and the non-finite ones); there it agrees with
    CPython.  It is not a model of CPython outside that range, where it
    answers that the text does not parse and prints nothing. *)
Module ExampleFloats.

Definition digits (n : Z) : string := Py.str_int n.

(** [r] written with exactly [k] digits. *)
Definition padded (k : nat) (r : Z) : string :=
  match digits (10 ^ Z.of_nat k + r) with
  | String _ rest => rest
  | EmptyString => EmptyString
  end.

(** The decimal expansion of [m / 2^k], [m] odd or [k = 0]. *)
Definition expansion (m : Z) (k : nat) : string :=
  let scaled := (m * 5 ^ Z.of_nat k)%Z in
  let unit := (10 ^ Z.of_nat k)%Z in
  if ((10 ^ 15 <=? scaled) || (scaled * 10 ^ 4 <? unit))%Z then ""
  else match k with
       | O => digits scaled ++ ".0"
       | _ => digits (scaled / unit) ++ "." ++ padded k (scaled mod unit)
       end.

Fixpoint reduce (fuel : nat) (m : Z) (k : nat) : Z * nat :=
  match fuel, k with
  | S fuel', S k' => if Z.even m then reduce fuel' (m / 2) k' else (m, k)
  | _, _ => (m, k)
  end.

Definition repr (f : float) : string :=
  match Prim2SF f with
  | S754_zero false => "0.0"
  | S754_zero true => "-0.0"
  | S754_infinity false => "inf"
  | S754_infinity true => "-inf"
  | S754_nan => "nan"
  | S754_finite s m e =>
      let sign := if s then "-" else "" in
      let body :=
        if (0 <=? e)%Z then expansion (Zpos m * 2 ^ e) 0
        else let '(m', k) := reduce (Z.to_nat (- e)) (Zpos m) (Z.to_nat (- e)) in
             expansion m' k in
      match body with
      | EmptyString => ""
      | _ => sign ++ body
      end
  end.

Fixpoint split_dot (s : string) : string * option string :=
  match s with
  | EmptyString => (EmptyString, None)
  | String c r =>
      if Ascii.eqb c "." then (EmptyString, Some r)
      else let '(a, b) := split_dot r in (String c a, b)
  end.

Definition digits_value (s : string) : option Z :=
  if Py.all_digits s then option_map Z.of_uint (NilEmpty.uint_of_string s)
  else None.

Definition unsigned (s : string) : option float :=
  let '(int_part, frac) := split_dot s in
  let frac_part := match frac with Some x => x | None => EmptyString end in
  if (String.length int_part + String.length frac_part =? 0)%nat then None
  else if (15 <? String.length int_part + String.length frac_part)%nat then None
  else
    i <~ digits_value int_part ;;
    x <~ digits_value frac_part ;;
    let k := Z.of_nat (String.length frac_part) in
    n <~ Py.float_of_int (i * 10 ^ k + x) ;;
    d <~ Py.float_of_int (10 ^ k) ;;
    Some (PrimFloat.div n d).

Definition parse (text : string) : option float :=
  match Py.strip text with
  | String c r =>
      if Ascii.eqb c "+" then unsigned r
      else if Ascii.eqb c "-" then option_map PrimFloat.opp (unsigned r)
      else unsigned (String c r)
  | EmptyString => None
  end.

End ExampleFloats.

#[export] Instance example_floats : PyFloat :=
  {| float_ := ExampleFloats.parse; repr_float := ExampleFloats.repr |}.

Module Examples.

(** A biome written with a leading blank. *)
Definition padded_biome : dict := [("biomes", JList [JStr " plains"])].

(** The condition of the pidgey record of the specification, with a
    numeric moon phase and a bait. *)
Definition plains : dict :=
  [("biomes", JList [JStr "plains"]); ("minSkyLight", JInt 7);
   ("moonPhase", JInt 3); ("bait", JStr "worm")].

Definition minY_five : dict := [("minY", JInt 5)].

(** An integer one past the largest the browser holds exactly. *)
Definition minY_huge : dict := [("minY", JInt (2 ^ 53))].

(** A condition whose only field is a zero that the record spells out. *)
Definition minY_zero : dict := [("minY", JInt 0)].

Definition odd_enums : dict :=
  [("moonPhase", JInt 3); ("timeRange", JStr "brunch")].

(** The record of the specification's end-to-end scenario, with a legacy
    singular weight multiplier. *)
Definition empty_singular : dict :=
  [("id", JStr "pidgey-1"); ("type", JStr "pokemon"); ("pokemon", JStr "pidgey");
   ("weightMultiplier", JObj [])].

(** A record whose condition spells out a zero. *)
Definition zero_condition : dict :=
  [("id", JStr "pidgey-1"); ("type", JStr "pokemon"); ("pokemon", JStr "pidgey");
   ("condition", JObj [("minY", JInt 0)])].

(** An amount entry that starts with the unit separator, which [str.strip]
    takes off and [int] does not skip. *)
Definition separator_amount : Exe.DropsEditor.t :=
  {| Exe.DropsEditor.enabled_var := true;
     Exe.DropsEditor.amount_var := String "031" "7";
     Exe.DropsEditor.entry_widgets := [] |}.

Definition legacy_multiplier : dict :=
  [("multiplier", JFloat 2.0); ("condition", JObj [])].

Definition pidgey : dict :=
  [("id", JStr "pidgey-1"); ("type", JStr "pokemon"); ("pokemon", JStr "pidgey");
   ("bucket", JStr "common"); ("spawnablePositionType", JStr "grounded");
   ("level", JStr "1-10"); ("weight", JFloat 1.0);
   ("weightMultiplier", JObj legacy_multiplier);
   ("condition", JObj [("biomes", JList [JStr "plains"]); ("minSkyLight", JInt 7)])].

(** An editor whose weight entry holds text that is no number. *)
Definition blank_condition : Exe.ConditionEditor.t :=
  ExeShape.shape [].

Definition doubling : Exe.WeightMultiplierEditor.t :=
  {| Exe.WeightMultiplierEditor.mult_var := "2.0";
     Exe.WeightMultiplierEditor.cond_editor := blank_condition |}.

Definition bad_weight : Exe.SpawnEditor.t :=
  {| Exe.SpawnEditor.id_var := "pidgey-1";
     Exe.SpawnEditor.type_var := "pokemon";
     Exe.SpawnEditor.pokemon_var := "pidgey";
     Exe.SpawnEditor.presets_list := [];
     Exe.SpawnEditor.pos_var := "grounded";
     Exe.SpawnEditor.bucket_var := "common";
     Exe.SpawnEditor.level_var := "1-10";
     Exe.SpawnEditor.weight_var := "heavy";
     Exe.SpawnEditor.herd_size_var := "5";
     Exe.SpawnEditor.herd_dist_var := "1.5";
     Exe.SpawnEditor.herd_editors := [];
     Exe.SpawnEditor.wm_editors := [];
     Exe.SpawnEditor.cond_editor := blank_condition;
     Exe.SpawnEditor.anti_editor := blank_condition;
     Exe.SpawnEditor.drops_editor :=
       {| Exe.DropsEditor.enabled_var := true;
          Exe.DropsEditor.amount_var := "a few";
          Exe.DropsEditor.entry_widgets :=
            [{| Exe.DropsEditor.item := "";
                Exe.DropsEditor.qr := "1-2";
                Exe.DropsEditor.pct := "50" |};
             {| Exe.DropsEditor.item := "minecraft:feather";
                Exe.DropsEditor.qr := "";
                Exe.DropsEditor.pct := "2.5" |}] |} |}.

Definition bad_weight_encoded : dict :=
  Eval vm_compute in
    match Exe.SpawnEditor.get_data bad_weight with
    | Ok d => d
    | Raise _ => []
    end.

Definition bad_weight_as_herd : dict :=
  Eval vm_compute in
    match Exe.SpawnEditor.get_data
            (Exe.SpawnEditor.select_type bad_weight "pokemon-herd") with
    | Ok d => d
    | Raise _ => []
    end.

Definition bad_weight_drops : dict :=
  Eval vm_compute in
    match Exe.DropsEditor.get_data (Exe.SpawnEditor.drops_editor bad_weight) with
    | Ok (Some d) => d
    | _ => []
    end.

Definition times_two : Exe.WeightMultiplierEditor.t :=
  {| Exe.WeightMultiplierEditor.mult_var := "x2";
     Exe.WeightMultiplierEditor.cond_editor := blank_condition |}.

(** A session in which the user ticked nothing and typed nothing, for a
    record with drops of which the first has no item. *)
Definition with_drops : json :=
  JObj [("amount", JInt 1);
        ("entries",
         JList [JObj [("item", JStr ""); ("percentage", JFloat 50.0)];
                JObj [("item", JStr "minecraft:feather");
                      ("percentage", JFloat 2.5)]])].

(** The pidgey record rendered by the browser form in a fresh session, and
    the same with the type switched to a herd. *)
Definition pidgey_rendered : dict :=
  Eval vm_compute in
    match App.render_spawn ["pidgey"] pidgey "k" App.fresh with
    | App.Done (Some d, _) _ => d
    | _ => []
    end.

Definition herd_selected : App.session :=
  {| App.text_state := fun k => if String.eqb k "k_type"
                                then Some "pokemon-herd" else None;
     App.check_state := fun _ => None;
     App.int_state := fun _ => None;
     App.float_state := fun _ => None;
     App.multi_state := fun _ => None;
     App.count_state := fun _ => None;
     App.clicked := fun _ => false |}.

Definition pidgey_as_herd : dict :=
  Eval vm_compute in
    match App.render_spawn ["pidgey"] pidgey "k" herd_selected with
    | App.Done (Some d, _) _ => d
    | _ => []
    end.

(** The pidgey record read into the desktop editor and collected again. *)
Definition pidgey_collected : dict :=
  Eval vm_compute in
    match Exe.SpawnEditor._build pidgey with
    | Some self => match Exe.SpawnEditor.get_data self with
                   | Ok d => d
                   | Raise _ => []
                   end
    | None => []
    end.

Definition with_drops_rendered : dict :=
  Eval vm_compute in
    match App.render_drops (Some with_drops) "k" App.fresh with
    | App.Done (Some d) _ => d
    | _ => []
    end.

End Examples.

(* ===================================================================== *)
(** * The rest of the program: files, listing, top-level fields *)
(* ===================================================================== *)

(** ** More of [str]

    Text is ASCII: the letters of [lower] and [title] and the digits of
    [\d] are the ASCII ones; any other character is left as it is. *)

Module Str.

Definition is_upper (c : ascii) : bool :=
  let n := nat_of_ascii c in ((65 <=? n) && (n <=? 90))%nat.

Definition is_lower (c : ascii) : bool :=
  let n := nat_of_ascii c in ((97 <=? n) && (n <=? 122))%nat.

Definition to_lower (c : ascii) : ascii :=
  if is_upper c then ascii_of_nat (nat_of_ascii c + 32) else c.

Definition to_upper (c : ascii) : ascii :=
  if is_lower c then ascii_of_nat (nat_of_ascii c - 32) else c.

Fixpoint map_chars (f : ascii -> ascii) (s : string) : string :=
  match s with
  | EmptyString => EmptyString
  | String c r => String (f c) (map_chars f r)
  end.

(** [s.lower()], on ASCII text. *)
Definition lower (s : string) : string := map_chars to_lower s.

(** [s.replace(old, new)] for one-character [old] and [new]. *)
Definition replace (old new : ascii) (s : string) : string :=
  map_chars (fun c => if Ascii.eqb c old then new else c) s.

(** [s.title()]: a letter is put in upper case when the character before
    it is not a letter, in lower case when it is. *)
Fixpoint title_from (previous_is_cased : bool) (s : string) : string :=
  match s with
  | EmptyString => EmptyString
  | String c r =>
      String (if previous_is_cased then to_lower c else to_upper c)
             (title_from (is_upper c || is_lower c) r)
  end.

Definition title (s : string) : string := title_from false s.

(** [s.split(sep)] for a one-character separator. *)
Fixpoint split (sep : ascii) (s : string) : list string :=
  match s with
  | EmptyString => [EmptyString]
  | String c r =>
      if Ascii.eqb c sep then EmptyString :: split sep r
      else match split sep r with
           | h :: t => String c h :: t
           | [] => [String c EmptyString]
           end
  end.

(** [needle in hay]. *)
Fixpoint contains (needle hay : string) : bool :=
  String.prefix needle hay ||
  match hay with
  | EmptyString => false
  | String _ r => contains needle r
  end.

Definition startswith (s prefix : string) : bool := String.prefix prefix s.

Fixpoint endswith (s suffix : string) : bool :=
  String.eqb s suffix ||
  match s with
  | EmptyString => false
  | String _ r => endswith r suffix
  end.

Fixpoint zeros (n : nat) : string :=
  match n with
  | O => EmptyString
  | S m => String "0" (zeros m)
  end.

(** [f"{n:04d}"]: the sign counts in the width. *)
Definition format_04d (n : Z) : string :=
  let digits := Py.str_int (Z.abs n) in
  let sign := if (n <? 0)%Z then "-" else "" in
  sign ++ zeros (4 - String.length sign - String.length digits) ++ digits.

(** [sorted(l)] for a total order [le]. *)
Fixpoint insert {A} (le : A -> A -> bool) (x : A) (l : list A) : list A :=
  match l with
  | [] => [x]
  | y :: r => if le x y then x :: l else y :: insert le x r
  end.

Definition sorted {A} (le : A -> A -> bool) (l : list A) : list A :=
  fold_right (insert le) [] l.

(** A dict whose values are not JSON: [d[k] = v]. *)
Fixpoint set {A} (d : list (string * A)) (k : string) (v : A)
  : list (string * A) :=
  match d with
  | [] => [(k, v)]
  | (k', v') :: r =>
      if String.eqb k k' then (k, v) :: r else (k', v') :: set r k v
  end.

End Str.

(** ** The four regular expressions of the program

    [re.match] with Python's backtracking order: a greedy repetition tries
    the longest run first, a lazy one the shortest.  Groups do not nest in
    the patterns used. *)

Module Re.

Inductive cls : Type :=
| digit    (* \d, on ASCII text *)
| dot.     (* . : anything but a newline *)

Inductive item : Type :=
| lit (s : string)        (* literal text *)
| plus (c : cls)          (* c+ *)
| plus_lazy (c : cls)     (* c+? *)
| opt (s : string)        (* (?:s)? *)
| open_                   (* ( *)
| close.                  (* ) *)

Definition accepts (c : cls) (a : ascii) : bool :=
  match c with
  | digit => Py.is_digit a
  | dot => negb (Ascii.eqb a Py.nl)
  end.

(** The groups closed so far and the text of the group that is open. *)
Record state := {
  groups : list string;
  cur : option string
}.

Definition eat (a : ascii) (st : state) : state :=
  {| groups := groups st;
     cur := option_map (fun g => (g ++ String a EmptyString)%string) (cur st) |}.

Fixpoint eat_lit (l s : string) (st : state) : option (string * state) :=
  match l with
  | EmptyString => Some (s, st)
  | String c l' =>
      match s with
      | String a r => if Ascii.eqb a c then eat_lit l' r (eat a st) else None
      | EmptyString => None
      end
  end.

Section Repeat.
Context {R : Type}.
Variable ok : ascii -> bool.
Variable k : string -> state -> option R.

(** Zero or more characters, longest first. *)
Fixpoint star_greedy (s : string) (st : state) : option R :=
  match s with
  | String a r =>
      if ok a then
        match star_greedy r (eat a st) with
        | Some x => Some x
        | None => k s st
        end
      else k s st
  | EmptyString => k s st
  end.

(** Zero or more characters, shortest first. *)
Fixpoint star_lazy (s : string) (st : state) : option R :=
  match k s st with
  | Some x => Some x
  | None =>
      match s with
      | String a r => if ok a then star_lazy r (eat a st) else None
      | EmptyString => None
      end
  end.

End Repeat.

Fixpoint run (pat : list item) (s : string) (st : state)
  : option (list string) :=
  match pat with
  | [] => Some (groups st)
  | lit l :: rest =>
      match eat_lit l s st with
      | Some (s', st') => run rest s' st'
      | None => None
      end
  | plus c :: rest =>
      match s with
      | String a r =>
          if accepts c a then star_greedy (accepts c) (run rest) r (eat a st)
          else None
      | EmptyString => None
      end
  | plus_lazy c :: rest =>
      match s with
      | String a r =>
          if accepts c a then star_lazy (accepts c) (run rest) r (eat a st)
          else None
      | EmptyString => None
      end
  | opt l :: rest =>
      match match eat_lit l s st with
            | Some (s', st') => run rest s' st'
            | None => None
            end with
      | Some x => Some x
      | None => run rest s st
      end
  | open_ :: rest =>
      run rest s {| groups := groups st; cur := Some EmptyString |}
  | close :: rest =>
      run rest s {| groups := groups st ++
                              [match cur st with Some g => g | None => "" end];
                    cur := None |}
  end.

(** [re.match(pattern, s)]: the groups, or [None]. *)
Definition match_ (pat : list item) (s : string) : option (list string) :=
  run pat s {| groups := []; cur := None |}.

(** [(\d+)_(.+)\.json] *)
Definition FILE : list item :=
  [open_; plus digit; close; lit "_"; open_; plus dot; close; lit ".json"].

(** [\d+_(.+?)(?:_herd)?\.json] *)
Definition NAME : list item :=
  [plus digit; lit "_"; open_; plus_lazy dot; close; opt "_herd"; lit ".json"].

(** [\d+_(.+)\.json] *)
Definition POKE : list item :=
  [plus digit; lit "_"; open_; plus dot; close; lit ".json"].

(** [^(\d+)_] *)
Definition DEX : list item := [open_; plus digit; close; lit "_"].

End Re.

(** ** The spawn directory

    A directory lists its entries by name.  A file is identified with the
    value [json.load] reads from it ([json.dump] followed by [json.load]
    gives the value back); [None] stands for any other entry.  Names are
    plain file names.  The limits of a file system (the length of a name,
    permissions, space) are not modelled: writing a file always works. *)

Module Files.

Definition directory := list (string * option json).

(** [os.path.exists(os.path.join(dir, name))]. *)
Definition exists_ (dir : directory) (name : string) : bool :=
  match Py.assoc name dir with Some _ => true | None => false end.

(** [load_spawn_data(filename)]; [None] where [open] or [json.load]
    raises. *)
Definition load_spawn_data (dir : directory) (filename : string)
  : option json :=
  match Py.assoc filename dir with
  | Some (Some v) => Some v
  | _ => None
  end.

(** [save_spawn_data(filename, data)]. *)
Definition save_spawn_data (dir : directory) (filename : string) (data : dict)
  : directory :=
  Str.set dir filename (Some (JObj data)).

(** The display name of a file.  [int] does not fail on the digits the
    pattern matched. *)
Definition display (fname : string) : string :=
  match Re.match_ Re.FILE fname with
  | Some [g1; g2] =>
      match Py.int_ g1 with
      | Some dex =>
          let name := Str.title (Str.replace "_" " " g2) in
          "#" ++ Str.format_04d dex ++ " " ++ name
      | None => fname
      end
  | _ => fname
  end.

(** [load_pokemon_files()]; [fnames] are the base names of the paths
    [glob.glob(os.path.join(SPAWN_DIR, "*.json"))] returns.  The paths share
    their directory, so sorting them sorts the names. *)
Definition load_pokemon_files (fnames : list string)
  : list (string * string) :=
  map (fun fname => (fname, display fname)) (Str.sorted String.leb fnames).

Definition pokemon_name (fname : string) : list string :=
  match Re.match_ Re.NAME fname with
  | Some [g] => [g]
  | _ => []
  end.

(** [load_pokemon_names()]: the names are collected in a set. *)
Definition load_pokemon_names (fnames : list string) : list string :=
  Str.sorted String.leb (nodup string_dec (flat_map pokemon_name fnames)).

(** [[m.strip() for m in text.split(",") if m.strip()]]. *)
Definition mods_of (text : string) : list string :=
  map Py.strip
    (filter (fun m => Py.str_truthy (Py.strip m)) (Str.split "," text)).

(** [", ".join(data.get(key, []))]. *)
Definition mods_text (data : dict) (key : string) : option string :=
  l <~ as_list (Py.get_or data key (JList [])) ;;
  ss <~ traverse as_str l ;;
  Some (Py.join ", " ss).

(** The spawn that "Add new spawn" makes; [n] is the number of spawns
    there are. *)
Definition poke_name (file : string) : string :=
  match Re.match_ Re.POKE file with
  | Some [g] => g
  | _ => ""
  end.

Definition new_spawn (file : string) (n : nat) : dict :=
  let poke_name := poke_name file in
  let new_id := (poke_name ++ "-" ++ Py.str_int (Z.of_nat (n + 1)))%string in
  [("id", JStr new_id);
   ("pokemon", JStr poke_name);
   ("presets", JList [JStr "natural"]);
   ("type", JStr "pokemon");
   ("spawnablePositionType", JStr "grounded");
   ("bucket", JStr "common");
   ("level", JStr "1-50");
   ("weight", JFloat 1.0);
   ("condition", JObj [])].

End Files.

(** ** [get_default_pokemons.py]: blank files for the missing species *)

Module GetDefault.
Import Files.

Definition BLANK_SPAWN : dict :=
  [("enabled", JBool true);
   ("neededInstalledMods", JList []);
   ("neededUninstalledMods", JList []);
   ("spawns", JList [])].

(** Lines 116-121; only membership in the set is used. *)
Definition existing_dex (existing_files : list string) : list Z :=
  flat_map (fun fname =>
              match Re.match_ Re.DEX fname with
              | Some [g] =>
                  match Py.int_ g with Some n => [n] | None => [] end
              | _ => []
              end) existing_files.

(** [f"{dex:04d}_{name}.json"]. *)
Definition blank_name (dex : Z) (name : string) : string :=
  Str.format_04d dex ++ "_" ++ name ++ ".json".

(** Tuples compare by their first component, then by the second. *)
Definition species_leb (a b : Z * string) : bool :=
  (fst a <? fst b)%Z || ((fst a =? fst b)%Z && String.leb (snd a) (snd b)).

(** A name that [open] takes as a file of the directory itself. *)
Definition plain (name : string) : bool :=
  negb (Str.contains "/" name) && negb (Str.contains (String Ascii.zero "") name).

(** One turn of the loop of lines 124-133 on [(directory, count)]; [None]
    where the file name is not plain. *)
Definition create_one (existing : list Z) (st : directory * nat)
  (sp : Z * string) : option (directory * nat) :=
  let '(dir, count) := st in
  let '(dex, name) := sp in
  if existsb (Z.eqb dex) existing then Some st   (* continue *)
  else
    let filename := blank_name dex name in
    if negb (plain filename) then None
    else if negb (exists_ dir filename) then
      Some (dir ++ [(filename, Some (JObj BLANK_SPAWN))], S count)
    else Some st.

(** A species as [fetch_all_species] hands it over, with its number read
    as an integer.  On a number that is no integer the function raises:
    [sorted] on numbers of different kinds, the set lookup on a list or an
    object, [{dex:04d}] on a string or a float.  The two exceptions, a
    boolean (taken for 0 or 1) and a float that equals the number of an
    existing file (passed over), are outside the model. *)
Definition numbered (sp : json * string) : option (Z * string) :=
  match fst sp with
  | JInt dex => Some (dex, snd sp)
  | _ => None
  end.

(** [create_blank_spawns(output, existing_files, species)] on the content
    of [output].  The function returns nothing: the result here is the
    directory it leaves and the count it prints at its end; [None] where it
    raises before. *)
Definition create_blank_spawns (dir : directory)
  (existing_files : list string) (species : list (json * string))
  : option (directory * nat) :=
  species <~ traverse numbered species ;;
  App.foldO (create_one (existing_dex existing_files))
            (Str.sorted species_leb species) (dir, 0).

(** A member of the species archive: [content] is what [json.load] reads
    from it, [None] where it raises [JSONDecodeError] or [ValueError]. *)
Record member := {
  isfile : bool;
  name : string;
  content : option json
}.

(** One turn of the loop of lines 97-108 on [species]; [None] where
    [info.get] or [name.lower] raises [AttributeError]. *)
Definition fetch_one (species : list (json * string)) (m : member)
  : option (list (json * string)) :=
  if negb (isfile m) || negb (Str.endswith (name m) ".json")
  then Some species   (* continue *)
  else
    match content m with
    | None => Some species   (* continue *)
    | Some (JObj info) =>
        let dex := Py.get_or info "nationalPokedexNumber" JNull in
        let name := Py.get_or info "name" JNull in
        if negb (match dex with JNull => true | _ => false end)
           && Py.truthy name
        then match name with
             | JStr s => Some (species ++ [(dex, Str.lower s)])
             | _ => None
             end
        else Some species
    | Some _ => None
    end.

(** [fetch_all_species()] on the members of the archive it downloads. *)
Definition fetch_all_species (members : list member)
  : option (list (json * string)) :=
  App.foldO fetch_one members [].

(** The members the loop does not pass over. *)
Definition read (m : member) : bool :=
  isfile m && Str.endswith (name m) ".json"
  && match content m with Some _ => true | None => false end.

End GetDefault.

(** ** [exe.py]: the preset popup and the main window *)

Module ExeMain.
Import Files.

Module ChecklistPopup.

Record t := {
  vars : list (string * bool)
}.

Definition __init__ (options selected : list string) : t :=
  {| vars := fold_left (fun vars opt => Str.set vars opt (Py.mem opt selected))
                       options [] |}.

(** The user ticks or unticks one box. *)
Definition toggle (self : t) (opt : string) : t :=
  {| vars := map (fun '(o, v) => if String.eqb o opt then (o, negb v)
                                 else (o, v)) (vars self) |}.

(** The list handed to the callback. *)
Definition _ok (self : t) : list string :=
  map fst (filter snd (vars self)).

End ChecklistPopup.

(** [SpawnEditor._edit_presets] opens the popup, [_set_presets] is its
    callback. *)
Definition _edit_presets (self : Exe.SpawnEditor.t) : ChecklistPopup.t :=
  let presets_list := Exe.SpawnEditor.presets_list self in
  let all_opts :=
    PRESET_OPTIONS ++
    filter (fun p => negb (Py.mem p PRESET_OPTIONS)) presets_list in
  ChecklistPopup.__init__ all_opts presets_list.

Definition _set_presets (self : Exe.SpawnEditor.t) (selected : list string)
  : Exe.SpawnEditor.t :=
  let s := self in
  {| Exe.SpawnEditor.id_var := Exe.SpawnEditor.id_var s;
     Exe.SpawnEditor.type_var := Exe.SpawnEditor.type_var s;
     Exe.SpawnEditor.pokemon_var := Exe.SpawnEditor.pokemon_var s;
     Exe.SpawnEditor.presets_list := selected;
     Exe.SpawnEditor.pos_var := Exe.SpawnEditor.pos_var s;
     Exe.SpawnEditor.bucket_var := Exe.SpawnEditor.bucket_var s;
     Exe.SpawnEditor.level_var := Exe.SpawnEditor.level_var s;
     Exe.SpawnEditor.weight_var := Exe.SpawnEditor.weight_var s;
     Exe.SpawnEditor.herd_size_var := Exe.SpawnEditor.herd_size_var s;
     Exe.SpawnEditor.herd_dist_var := Exe.SpawnEditor.herd_dist_var s;
     Exe.SpawnEditor.herd_editors := Exe.SpawnEditor.herd_editors s;
     Exe.SpawnEditor.wm_editors := Exe.SpawnEditor.wm_editors s;
     Exe.SpawnEditor.cond_editor := Exe.SpawnEditor.cond_editor s;
     Exe.SpawnEditor.anti_editor := Exe.SpawnEditor.anti_editor s;
     Exe.SpawnEditor.drops_editor := Exe.SpawnEditor.drops_editor s |}.

Module CobblemonSpawnEditor.

(** The variables [_load_editor] makes. *)
Record top_fields := {
  enabled_var : bool;
  installed_var : string;
  uninstalled_var : string
}.

Record t := {
  files : list (string * string);
  current_file : option string;
  spawn_editors : list Exe.SpawnEditor.t;
  pokemon_names : list string;
  search_var : string;
  listbox : list string;
  _filtered : list (string * string);
  header_var : string;
  top : option top_fields
}.

(** The window when [_build_ui] is done. *)
Definition __init__ : t :=
  {| files := []; current_file := None; spawn_editors := [];
     pokemon_names := []; search_var := ""; listbox := []; _filtered := [];
     header_var := "Select a Pokemon"; top := None |}.

Definition shown (search : string) (file : string * string) : bool :=
  let '(fname, display) := file in
  negb (Py.str_truthy search)
  || Str.contains search (Str.lower display)
  || Str.contains search (Str.lower fname).

Definition _filter_list (self : t) : t :=
  let search := Str.lower (search_var self) in
  let kept := filter (shown search) (files self) in
  {| files := files self; current_file := current_file self;
     spawn_editors := spawn_editors self;
     pokemon_names := pokemon_names self; search_var := search_var self;
     listbox := map snd kept; _filtered := kept;
     header_var := header_var self; top := top self |}.

(** [fnames] is what [glob] finds in the spawn directory. *)
Definition _load_files (self : t) (fnames : list string) : t :=
  _filter_list
    {| files := load_pokemon_files fnames; current_file := current_file self;
       spawn_editors := spawn_editors self;
       pokemon_names := load_pokemon_names fnames;
       search_var := search_var self; listbox := listbox self;
       _filtered := _filtered self; header_var := header_var self;
       top := top self |}.

(** The user types in the search entry; the trace calls [_filter_list]. *)
Definition type_search (self : t) (text : string) : t :=
  _filter_list
    {| files := files self; current_file := current_file self;
       spawn_editors := spawn_editors self;
       pokemon_names := pokemon_names self; search_var := text;
       listbox := listbox self; _filtered := _filtered self;
       header_var := header_var self; top := top self |}.

(** How a callback ends: it runs to its end; or an exception ends it,
    which Tk reports before it goes on with the state reached; or it meets
    a value outside the schema. *)
Inductive result : Type :=
| Completed (self : t)
| Failed (self : t)
| OutOfSchema.

Section Methods.
Context `{PyFloat}.

Definition _load_editor (self : t) (dir : directory)
  (filename display : string) : result :=
  let self :=
    {| files := files self; current_file := current_file self;
       spawn_editors := [];
       pokemon_names := pokemon_names self; search_var := search_var self;
       listbox := listbox self; _filtered := _filtered self;
       header_var := display; top := top self |} in
  match v <~ load_spawn_data dir filename ;; as_dict v with
  | None => Failed self     (* [load_spawn_data] or [data.get] raises *)
  | Some data =>
      match
        enabled <~ Exe.BooleanVar (Py.get_or data "enabled" (JBool true)) ;;
        installed <~ mods_text data "neededInstalledMods" ;;
        uninstalled <~ mods_text data "neededUninstalledMods" ;;
        spawns <~ as_list (Py.get_or data "spawns" (JList [])) ;;
        editors <~ traverse (fun spawn =>
                               d <~ as_dict spawn ;; Exe.SpawnEditor._build d)
                            spawns ;;
        Some {| files := files self; current_file := current_file self;
                spawn_editors := editors;
                pokemon_names := pokemon_names self;
                search_var := search_var self;
                listbox := listbox self; _filtered := _filtered self;
                header_var := display;
                top := Some {| enabled_var := enabled;
                               installed_var := installed;
                               uninstalled_var := uninstalled |} |}
      with
      | Some self => Completed self
      | None => OutOfSchema
      end
  end.

Definition with_current (self : t) (fname : string) : t :=
  {| files := files self; current_file := Some fname;
     spawn_editors := spawn_editors self;
     pokemon_names := pokemon_names self; search_var := search_var self;
     listbox := listbox self; _filtered := _filtered self;
     header_var := header_var self; top := top self |}.

(** [sel] is [self.listbox.curselection()]: nothing, or one index of the
    list box. *)
Definition _on_select (self : t) (sel : option nat) (dir : directory)
  : result :=
  match sel with
  | None => Completed self
  | Some idx =>
      match nth_error (_filtered self) idx with
      | None => Failed self    (* IndexError *)
      | Some (fname, display) =>
          if match current_file self with
             | Some c => String.eqb fname c
             | None => false
             end
          then Completed self
          else _load_editor (with_current self fname) dir fname display
      end
  end.

Definition with_editors (self : t) (editors : list Exe.SpawnEditor.t) : t :=
  {| files := files self; current_file := current_file self;
     spawn_editors := editors;
     pokemon_names := pokemon_names self; search_var := search_var self;
     listbox := listbox self; _filtered := _filtered self;
     header_var := header_var self; top := top self |}.

Fixpoint remove_nth {A} (i : nat) (l : list A) : list A :=
  match l, i with
  | [], _ => []
  | _ :: r, O => r
  | x :: r, S j => x :: remove_nth j r
  end.

(** The user edits the entries of the top-level fields. *)
Definition with_top (self : t) (vars : top_fields) : t :=
  {| files := files self; current_file := current_file self;
     spawn_editors := spawn_editors self;
     pokemon_names := pokemon_names self; search_var := search_var self;
     listbox := listbox self; _filtered := _filtered self;
     header_var := header_var self; top := Some vars |}.

(** "Delete this spawn" on the [i]-th editor. *)
Definition _delete_spawn (self : t) (i : nat) : t :=
  with_editors self (remove_nth i (spawn_editors self)).

(** [not self.current_file] holds of [None] and of the empty name. *)
Definition _add_spawn (self : t) : option t :=
  match current_file self with
  | None => Some self
  | Some file =>
      if negb (Py.str_truthy file) then Some self
      else
        editor <~ Exe.SpawnEditor._build
                    (new_spawn file (length (spawn_editors self))) ;;
        Some (with_editors self (spawn_editors self ++ [editor]))
  end.

(** [None] where an attribute is not there yet or [get_data] raises. *)
Definition _collect_data (self : t) : option dict :=
  vars <~ top self ;;
  match mapM Exe.SpawnEditor.get_data (spawn_editors self) with
  | Ok spawns =>
      Some [("enabled", JBool (enabled_var vars));
            ("neededInstalledMods",
             JList (map JStr (mods_of (installed_var vars))));
            ("neededUninstalledMods",
             JList (map JStr (mods_of (uninstalled_var vars))));
            ("spawns", JList (map JObj spawns))]
  | Raise _ => None
  end.

(** The directory after "Save"; [None] where [_collect_data] fails. *)
Definition _save (self : t) (dir : directory) : option directory :=
  match current_file self with
  | None => Some dir
  | Some file =>
      if negb (Py.str_truthy file) then Some dir
      else
        data <~ _collect_data self ;;
        Some (save_spawn_data dir file data)
  end.

End Methods.

End CobblemonSpawnEditor.

End ExeMain.

(** ** [app.py]: [_clear_editor_state] and [main] *)

Module AppMain.
Import Files App.

(** [del st.session_state[k]] for the keys the predicate picks. *)
Definition del_keys (drop : string -> bool) (ss : session) : session :=
  let cut {A} (f : string -> option A) :=
    fun k => if drop k then None else f k in
  {| text_state := cut (text_state ss); check_state := cut (check_state ss);
     int_state := cut (int_state ss); float_state := cut (float_state ss);
     multi_state := cut (multi_state ss); count_state := cut (count_state ss);
     clicked := fun k => if drop k then false else clicked ss k |}.

Definition KEEP_KEYS := ["search"; "pokemon_select"].

Definition _clear_editor_state (file_key : string) (ss : session) : session :=
  del_keys (fun k => negb (Py.mem k KEEP_KEYS)
                     && (Str.startswith k file_key
                         || String.eqb k "_prev_file")) ss.

Definition set_check (ss : session) (key : string) (v : bool) : session :=
  {| text_state := text_state ss;
     check_state := fun k => if String.eqb k key then Some v
                             else check_state ss k;
     int_state := int_state ss; float_state := float_state ss;
     multi_state := multi_state ss; count_state := count_state ss;
     clicked := clicked ss |}.

(** What a run that reaches the end of the script shows. *)
Inductive page : Type :=
| NoFiles                                   (* "No spawn files found." *)
| NoSelection
| Restore                                   (* "Restore to default" pressed *)
| Editing (selected_file fk : string) (data : dict).

Local Open Scope app_scope.

(** Lines 463-466. *)
Definition filtered (files : list (string * string)) (search : string)
  : list (string * string) :=
  if Py.str_truthy search then
    filter (fun '(fname, display) =>
              Str.contains (Str.lower search) (Str.lower display)
              || Str.contains (Str.lower search) (Str.lower fname)) files
  else files.

(** [{display: fname for fname, display in filtered}]. *)
Definition options (filtered : list (string * string))
  : list (string * string) :=
  fold_left (fun o '(fname, display) => Str.set o display fname) filtered [].

Section Main.
Context `{PyFloat}.
(** What [glob] finds in the spawn directory, and the directory. *)
Variable fnames : list string.
Variable dir : directory.

(** Lines 519-523: the state is [updated_spawns]. *)
Fixpoint render_spawns (names : list string) (fk : string)
  (spawns : list json) (i : nat) (updated_spawns : list json)
  : M (list json) :=
  match spawns with
  | [] => ret updated_spawns
  | spawn :: rest =>
      spawn <- lift (as_dict spawn) ;;
      r <- render_spawn names spawn (index_key (fk ++ "_s") i) ;;
      let '(result, deleted) := r in
      render_spawns names fk rest (S i)
        (match result with
         | Some d => if deleted then updated_spawns
                     else updated_spawns ++ [JObj d]
         | None => updated_spawns
         end)
  end.

(** [main] from line 454 to line 525. A stored choice of the select box
    that is not among its options is outside the model. *)
Definition editor : M page :=
  let files := load_pokemon_files fnames in
  match files with
  | [] => ret NoFiles
  | _ =>
      search <- reads (fun ss => text_input ss "search" "") ;;
      let filtered := filtered files search in
      let options := options filtered in
      selected_display <- reads (fun ss =>
        selectbox ss "pokemon_select" (map fst options) 0) ;;
      match selected_display with
      | None | Some EmptyString => ret NoSelection
      | Some selected_display =>
          selected_file <- lift (Py.assoc selected_display options) ;;
          restore <- reads (fun ss => button ss "Restore to default") ;;
          if restore then ret Restore
          else
            let fk := Str.replace "." "_" selected_file in
            data <- lift (v <~ load_spawn_data dir selected_file ;;
                          as_dict v) ;;
            let enabled_key := (fk ++ "_enabled")%string in
            stored <- reads (fun ss => check_state ss enabled_key) ;;
            match stored with
            | Some _ => ret tt
            | None =>
                v <- lift (as_bool (Py.get_or data "enabled" (JBool true))) ;;
                modify (fun ss => set_check ss enabled_key v)
            end ;;;
            enabled <- reads (fun ss => checkbox ss enabled_key false) ;;
            let data := Py.set data "enabled" (JBool enabled) in
            value <- lift (mods_text data "neededInstalledMods") ;;
            installed <- reads (fun ss =>
              text_input ss (fk ++ "_installed_mods") value) ;;
            let data :=
              Py.set data "neededInstalledMods"
                (JList (map JStr (mods_of installed))) in
            value <- lift (mods_text data "neededUninstalledMods") ;;
            uninstalled <- reads (fun ss =>
              text_input ss (fk ++ "_uninstalled_mods") value) ;;
            let data :=
              Py.set data "neededUninstalledMods"
                (JList (map JStr (mods_of uninstalled))) in
            spawns <- lift (as_list (Py.get_or data "spawns" (JList []))) ;;
            updated_spawns <-
              render_spawns (load_pokemon_names fnames) fk spawns 0 [] ;;
            let data := Py.set data "spawns" (JList updated_spawns) in
            ret (Editing selected_file fk data)
      end
  end.

(** How a run of the script ends. *)
Inductive outcome : Type :=
| Shown (p : page) (ss : session)             (* the end of the script *)
| Reran (dir : directory) (ss : session)      (* [st.rerun()] *)
| Reset (ss : session)                        (* [reset()], then [st.rerun()] *)
| Outside.            (* an exception, or a value outside the schema *)

(** ["spawns"] of the data the editor ends with is a list. *)
Definition spawns_of (data : dict) : list json :=
  match Py.get data "spawns" with Some (JList l) => l | _ => [] end.

(** [isdir] is [os.path.isdir(SPAWN_DIR)]. *)
Definition main (isdir : bool) (ss : session) : outcome :=
  if negb isdir then Reset ss
  else
    match editor ss with
    | Done (Editing selected_file fk data) ss =>
        if button ss (fk ++ "_add_spawn") then
          let spawns := spawns_of data in
          let data :=
            Py.set data "spawns"
              (JList (spawns ++
                      [JObj (new_spawn selected_file (length spawns))])) in
          Reran (save_spawn_data dir selected_file data)
                (_clear_editor_state fk ss)
        else if button ss (fk ++ "_save") then
          Reran (save_spawn_data dir selected_file data)
                (_clear_editor_state fk ss)
        else Shown (Editing selected_file fk data) ss
    | Done Restore ss => Reset ss
    | Done p ss => Shown p ss
    | Rerun ss => Reran dir ss
    | OutOfSchema => Outside
    end.

End Main.

End AppMain.
(** ** Vocabulary for the statements about the rest of the program *)

Module Shape.

(** The character does not occur in the text. *)
Fixpoint lacks (c : ascii) (s : string) : bool :=
  match s with
  | EmptyString => true
  | String a r => negb (Ascii.eqb a c) && lacks c r
  end.

(** An entry of a mod list that the comma-separated text keeps as it is. *)
Definition clean_mod (m : string) : bool :=
  Py.str_truthy m && Py.trimmed m && lacks "," m.

(** One turn of the loop that makes the variables of a popup, [f] telling
    the options that are selected; and variables that were made so. *)
Definition tick (f : string -> bool) (vars : list (string * bool))
  (opt : string) : list (string * bool) :=
  Str.set vars opt (f opt).

Definition ticked (f : string -> bool) (vars : list (string * bool)) : Prop :=
  Forall (fun e => snd e = f (fst e)) vars.

(** A file that [create_blank_spawns] may add to [dir]: a blank one, under
    a name that is not in use, for a species whose number no file has. *)
Definition added_blank (existing : list Z) (species : list (json * string))
  (dir : Files.directory) (e : string * option json) : Prop :=
  snd e = Some (JObj GetDefault.BLANK_SPAWN) /\
  Files.exists_ dir (fst e) = false /\
  exists dex name,
    In (JInt dex, name) species /\ fst e = GetDefault.blank_name dex name /\
    existsb (Z.eqb dex) existing = false.

(** The state of a match after the text [a] was consumed. *)
Definition ate (a : string) (st : Re.state) : Re.state :=
  {| Re.groups := Re.groups st;
     Re.cur := option_map (fun g => (g ++ a)%string) (Re.cur st) |}.

(** Every character of the text is in the class. *)
Fixpoint all_in (c : Re.cls) (s : string) : bool :=
  match s with
  | EmptyString => true
  | String a r => Re.accepts c a && all_in c r
  end.

(** The text ends with [suffix]. *)
Fixpoint ends_with (suffix s : string) : bool :=
  String.eqb s suffix ||
  match s with
  | EmptyString => false
  | String _ r => ends_with suffix r
  end.

(** An entry of a drop list as the browser form writes it: an item that
    is not empty, a quantity range if it is not empty, a percentage if it
    is above zero, and then a number of the browser. *)
Definition drop_entry (v : json) : Prop :=
  exists item qr pct,
    v = JObj (Py.update [("item", JStr item)]
                [("quantityRange", option_map JStr qr);
                 ("percentage", option_map JFloat pct)]) /\
    Py.str_truthy item = true /\
    (forall q, qr = Some q -> Py.str_truthy q = true) /\
    (forall p, pct = Some p ->
               PrimFloat.ltb 0%float p = true /\ App.js_float p = true).

(** A session in which no widget holds a value of its own and no button
    is pressed. *)
Definition untouched (ss : App.session) : Prop :=
  forall k,
    App.text_state ss k = None /\ App.check_state ss k = None /\
    App.int_state ss k = None /\ App.float_state ss k = None /\
    App.multi_state ss k = None /\ App.clicked ss k = false.

(** A weight multiplier as the browser form writes it, from some record
    and some session whose two select boxes hold one of their options. *)
Definition written_multiplier `{PyFloat} (v : json) : Prop :=
  exists ss wm key_prefix d,
    v = JObj d /\
    App.render_weight_multiplier ss wm key_prefix = Some d /\
    (forall x, App.text_state ss (App.key (key_prefix ++ "_mc") "timeRange")
               = Some x -> In x TIME_RANGES) /\
    (forall x, App.text_state ss (App.key (key_prefix ++ "_mc") "moonPhase")
               = Some x -> In x MOON_PHASES).

End Shape.
(** ** Concrete directories and windows *)

Module Scenes.
Import Files ExeMain ExeMain.CobblemonSpawnEditor.

(** A spawn file with a key of its own at the top level. *)
Definition pidgey_file : dict :=
  [("enabled", JBool false);
   ("neededInstalledMods", JList [JStr "cobblemon"; JStr "mega showdown"]);
   ("comment", JStr "hand-written");
   ("spawns", JList [JObj Examples.pidgey])].

(** The second file does not hold JSON. *)
Definition dir : directory :=
  [("0016_pidgey.json", Some (JObj pidgey_file));
   ("0017_pidgeotto.json", None);
   ("0018_pidgeot.json",
    Some (JObj [("enabled", JBool true); ("neededInstalledMods", JList []);
                ("neededUninstalledMods", JList []); ("spawns", JList [])]))].

Definition fnames : list string :=
  ["0018_pidgeot.json"; "0016_pidgey.json"; "0017_pidgeotto.json"].

(** The window with the files listed, and with the first one opened. *)
Definition listed : t := Eval vm_compute in _load_files __init__ fnames.

Definition opened : t :=
  Eval vm_compute in
    match _on_select listed (Some 0) dir with
    | Completed self => self
    | _ => listed
    end.

(** The names of the files that were downloaded, the species that were
    fetched, and the directory with the blank files. *)
Definition downloaded : list string := ["0016_pidgey.json"; "README.md"].

Definition species : list (json * string) :=
  [(JInt 17, "pidgeotto"); (JInt 16, "pidgey"); (JInt 1, "bulbasaur");
   (JInt 18, "pidgeot")].

Definition with_blanks : directory :=
  Eval vm_compute in
    match GetDefault.create_blank_spawns dir downloaded species with
    | Some (d, _) => d
    | None => dir
    end.

(** A browser session in which nothing was typed and one button is
    pressed, and the directory after "Save" on the first file. *)
Definition pressing (key : string) : App.session :=
  {| App.text_state := fun _ => None; App.check_state := fun _ => None;
     App.int_state := fun _ => None; App.float_state := fun _ => None;
     App.multi_state := fun _ => None; App.count_state := fun _ => None;
     App.clicked := fun k => String.eqb k key |}.

Definition saved : directory :=
  Eval vm_compute in
    match AppMain.main fnames dir true (pressing "0016_pidgey_json_save") with
    | AppMain.Reran d _ => d
    | _ => dir
    end.

End Scenes.

(* ===================================================================== *)
(** * Python built-ins: lemmas *)
(* ===================================================================== *)

Module PyFacts.
Import Py.

Lemma get_set_same d k v : get (set d k v) k = Some v.
Proof.
  induction d as [|[k' v'] r IH]; simpl.
  - now rewrite String.eqb_refl.
  - destruct (String.eqb k k') eqn:E; simpl; rewrite ?E, ?String.eqb_refl; auto.
Qed.

Lemma get_set_other d k k' v : k' <> k -> get (set d k v) k' = get d k'.
Proof.
  intros Hne. induction d as [|[k0 v0] r IH]; simpl.
  - destruct (String.eqb_spec k' k); congruence.
  - destruct (String.eqb_spec k k0) as [->|Hk]; simpl.
    + destruct (String.eqb_spec k' k0); congruence.
    + destruct (String.eqb_spec k' k0); auto.
Qed.

Lemma get_set d k k' v :
  get (set d k v) k' = if String.eqb k' k then Some v else get d k'.
Proof.
  destruct (String.eqb_spec k' k) as [->|Hne].
  - apply get_set_same.
  - now apply get_set_other.
Qed.

Lemma mem_In x l : mem x l = true <-> In x l.
Proof.
  unfold mem. rewrite existsb_exists. split.
  - intros (y & Hin & Heq). apply String.eqb_eq in Heq. now subst.
  - intros Hin. exists x. now rewrite String.eqb_refl.
Qed.

Lemma nodupb_NoDup l : nodupb l = true -> NoDup l.
Proof.
  induction l as [|x l IH]; simpl; [constructor|].
  intros H. apply andb_true_iff in H as [Hx Hl]. constructor; auto.
  intros Hin. apply mem_In in Hin. rewrite Hin in Hx. discriminate.
Qed.

Lemma update_app d es1 es2 : update d (es1 ++ es2) = update (update d es1) es2.
Proof. unfold update. now rewrite fold_left_app. Qed.

Lemma update_cons d e es :
  update d (e :: es) =
  update (match snd e with Some v => set d (fst e) v | None => d end) es.
Proof. reflexivity. Qed.

Lemma get_update_notin d es k :
  ~ In k (map fst es) -> get (update d es) k = get d k.
Proof.
  revert d. induction es as [|[k0 ov] es IH]; intros d Hnin.
  - reflexivity.
  - simpl in Hnin. rewrite update_cons, IH by tauto. simpl.
    destruct ov; auto. apply get_set_other. intros ->. tauto.
Qed.

(** Reading a key after a run of assignments to distinct keys. *)
Lemma get_update d es k :
  NoDup (map fst es) ->
  get (update d es) k =
  match assoc k es with
  | Some (Some v) => Some v
  | _ => get d k
  end.
Proof.
  revert d. induction es as [|[k0 ov] es IH]; intros d Hnd.
  - reflexivity.
  - simpl in Hnd. inversion Hnd as [|? ? Hnin Hnd']; subst.
    rewrite update_cons. simpl.
    destruct (String.eqb_spec k k0) as [->|Hne].
    + rewrite get_update_notin by assumption.
      destruct ov; auto using get_set_same.
    + rewrite IH by assumption.
      destruct (assoc k es) as [[v|]|]; auto;
        destruct ov; auto; now apply get_set_other.
Qed.

Lemma assoc_app {A} k (l1 l2 : list (string * A)) :
  assoc k (l1 ++ l2) =
  match assoc k l1 with Some v => Some v | None => assoc k l2 end.
Proof.
  induction l1 as [|[k0 v0] l1 IH]; simpl; auto.
  destruct (String.eqb k k0); auto.
Qed.

Lemma assoc_map {A B} (f : string * A -> option B) k (l : list (string * A)) :
  assoc k (map (fun x => (fst x, f x)) l) =
  match find (fun x => String.eqb k (fst x)) l with
  | Some x => Some (f x)
  | None => None
  end.
Proof.
  induction l as [|[k0 v0] l IH]; simpl; auto.
  destruct (String.eqb k k0); auto.
Qed.

Lemma assoc_None {A} k (l : list (string * A)) :
  ~ In k (map fst l) -> assoc k l = None.
Proof.
  induction l as [|[k0 v0] l IH]; simpl; auto.
  intros Hnin. destruct (String.eqb_spec k k0) as [->|]; [tauto|].
  apply IH. tauto.
Qed.

Lemma assoc_In {A} k v (l : list (string * A)) :
  NoDup (map fst l) -> In (k, v) l -> assoc k l = Some v.
Proof.
  induction l as [|[k0 v0] l IH]; simpl; [tauto|].
  intros Hnd [Heq|Hin]; inversion Hnd; subst.
  - inversion Heq; subst. now rewrite String.eqb_refl.
  - destruct (String.eqb_spec k k0) as [->|]; auto.
    exfalso. apply (in_map fst) in Hin. auto.
Qed.

(** ** strip *)

Local Open Scope string_scope.

Lemma length_lstrip s : String.length (lstrip s) <= String.length s.
Proof.
  induction s as [|c r IH]; simpl; auto.
  destruct (is_space c); simpl; lia.
Qed.

Lemma lstrip_fixed s :
  lstrip s = s -> s = EmptyString \/ exists c r, s = String c r /\ is_space c = false.
Proof.
  destruct s as [|c r]; simpl; auto.
  destruct (is_space c) eqn:E; intros Heq.
  - pose proof (length_lstrip r) as Hl. rewrite Heq in Hl. simpl in Hl. lia.
  - right. eauto.
Qed.

Lemma rstrip_app_space s c :
  is_space c = true -> rstrip (s ++ String c EmptyString) = rstrip s.
Proof.
  intros Hc. induction s as [|a r IH]; simpl.
  - now rewrite Hc.
  - now rewrite IH.
Qed.

Lemma rstrip_app_fixed a b :
  b <> EmptyString -> rstrip b = b -> rstrip (a ++ b) = a ++ b.
Proof.
  intros Hb Hfix. induction a as [|c r IH]; simpl; auto.
  rewrite IH. destruct (r ++ b) eqn:E; auto.
  destruct r; simpl in E; congruence.
Qed.

Lemma trimmed_spec s : trimmed s = true <-> lstrip s = s /\ rstrip s = s.
Proof.
  unfold trimmed. rewrite andb_true_iff, !String.eqb_eq. tauto.
Qed.

Lemma strip_trimmed s : trimmed s = true -> strip s = s.
Proof.
  intros H. apply trimmed_spec in H as [Hl Hr]. unfold strip. congruence.
Qed.

Lemma clean_line_spec s :
  clean_line s = true <->
  s <> EmptyString /\ lstrip s = s /\ rstrip s = s /\ no_nl s = true.
Proof.
  unfold clean_line. rewrite !andb_true_iff, trimmed_spec.
  destruct s; simpl; intuition congruence.
Qed.

Lemma rstrip_app_NL s : rstrip (s ++ NL) = rstrip s.
Proof. now apply rstrip_app_space. Qed.

(** ** split and join *)

Lemma split_nl_nonempty s : split_nl s <> [].
Proof.
  destruct s as [|c r]; simpl; [discriminate|].
  destruct (Ascii.eqb c nl); [discriminate|].
  destruct (split_nl r); discriminate.
Qed.

Lemma split_nl_line e : no_nl e = true -> split_nl e = [e].
Proof.
  induction e as [|c r IH]; simpl; auto.
  intros H. apply andb_true_iff in H as [Hc Hr].
  apply negb_true_iff in Hc. rewrite Hc, IH; auto.
Qed.

Lemma split_nl_app e rest :
  no_nl e = true -> split_nl (e ++ NL ++ rest) = e :: split_nl rest.
Proof.
  change (NL ++ rest) with (String nl rest).
  induction e as [|c r IH]; simpl; auto.
  intros H. apply andb_true_iff in H as [Hc Hr].
  apply negb_true_iff in Hc. rewrite Hc, IH; auto.
Qed.

Lemma join_cons2 sep x y l :
  join sep (x :: y :: l) = x ++ sep ++ join sep (y :: l).
Proof. reflexivity. Qed.

Lemma split_join l :
  l <> [] -> Forall (fun e => no_nl e = true) l -> split_nl (join NL l) = l.
Proof.
  induction l as [|x [|y l] IH]; intros Hne Hall.
  - congruence.
  - simpl. inversion Hall; subst. now apply split_nl_line.
  - rewrite join_cons2. inversion Hall as [|? ? Hx Hrest]; subst.
    rewrite split_nl_app by assumption. f_equal. apply IH; [discriminate|assumption].
Qed.

Lemma join_nonempty x l : x <> EmptyString -> join NL (x :: l) <> EmptyString.
Proof.
  destruct l; simpl; auto. destruct x; simpl; congruence.
Qed.

Lemma rstrip_join l :
  Forall (fun e => e <> EmptyString /\ rstrip e = e) l ->
  rstrip (join NL l) = join NL l.
Proof.
  induction l as [|x [|y l] IH]; intros Hall.
  - reflexivity.
  - simpl. inversion Hall; subst. tauto.
  - rewrite join_cons2. inversion Hall as [|? ? Hx Hrest]; subst.
    assert (Hj : join NL (y :: l) <> EmptyString).
    { apply join_nonempty. inversion Hrest; subst. tauto. }
    specialize (IH Hrest).
    remember (join NL (y :: l)) as J eqn:EJ. clear EJ.
    apply rstrip_app_fixed; [discriminate|].
    change (NL ++ J) with (String nl J).
    simpl. rewrite IH. destruct J; congruence.
Qed.

Lemma lstrip_join x l :
  x <> EmptyString -> lstrip x = x -> lstrip (join NL (x :: l)) = join NL (x :: l).
Proof.
  intros Hne Hfix. apply lstrip_fixed in Hfix as [->|(c & r & -> & Hc)]; [congruence|].
  destruct l; simpl; now rewrite Hc.
Qed.

Lemma clean_lines_strip l :
  Forall (fun e => clean_line e = true) l ->
  map strip (filter (fun line => str_truthy (strip line)) l) = l.
Proof.
  induction 1 as [|x l Hx _ IH]; simpl; auto.
  apply clean_line_spec in Hx as (Hne & Hl & Hr & _).
  assert (Hs : strip x = x) by (unfold strip; congruence).
  rewrite Hs. destruct x; [congruence|]. simpl. rewrite Hs. now f_equal.
Qed.

(** Text made of clean lines is read back line for line. *)
Lemma stripped_lines_join l :
  Forall (fun e => clean_line e = true) l -> stripped_lines (join NL l) = l.
Proof.
  intros Hall. unfold stripped_lines. destruct l as [|x l]; [reflexivity|].
  rewrite split_join.
  - now apply clean_lines_strip.
  - discriminate.
  - eapply Forall_impl; [|exact Hall]. intros e He.
    now apply clean_line_spec in He.
Qed.

(** What [strip] leaves of a text widget's content. *)
Lemma strip_text_join l :
  Forall (fun e => clean_line e = true) l ->
  strip (join NL l ++ NL) = join NL l.
Proof.
  intros Hall. destruct l as [|x l]; [reflexivity|].
  assert (Hx : clean_line x = true) by (now inversion Hall).
  apply clean_line_spec in Hx as (Hne & Hl & Hr & _).
  unfold strip.
  assert (Hls : lstrip (join NL (x :: l) ++ NL) = join NL (x :: l) ++ NL).
  { pose proof (lstrip_join x l Hne Hl) as Hj.
    apply lstrip_fixed in Hj as [Hj|(c & r & Hj & Hc)].
    - exfalso. revert Hj. now apply join_nonempty.
    - rewrite Hj. simpl. now rewrite Hc. }
  rewrite Hls, rstrip_app_NL.
  apply rstrip_join. eapply Forall_impl; [|exact Hall].
  intros e He. apply clean_line_spec in He. tauto.
Qed.

(** ** int and str *)

Lemma no_space_strip s : no_space s = true -> strip s = s.
Proof.
  intros H. unfold strip.
  assert (Hl : lstrip s = s).
  { destruct s as [|c r]; simpl in *; auto.
    apply andb_true_iff in H as [Hc _]. apply negb_true_iff in Hc. now rewrite Hc. }
  rewrite Hl. clear Hl. induction s as [|c r IH]; simpl in *; auto.
  apply andb_true_iff in H as [Hc Hr]. apply negb_true_iff in Hc.
  rewrite IH, Hc by assumption. now destruct r.
Qed.

Lemma is_digit_not_space c : is_digit c = true -> is_space c = false.
Proof.
  unfold is_digit, is_space. intros H.
  apply andb_true_iff in H as [H1 H2].
  apply Nat.leb_le in H1. apply Nat.leb_le in H2.
  apply orb_false_iff. split; apply andb_false_iff.
  - right. apply Nat.leb_gt. lia.
  - right. apply Nat.leb_gt. lia.
Qed.

Lemma all_digits_no_space s : all_digits s = true -> no_space s = true.
Proof.
  induction s as [|c r IH]; simpl; auto.
  intros H. apply andb_true_iff in H as [Hc Hr].
  now rewrite (is_digit_not_space c Hc), IH.
Qed.

Lemma all_digits_string_of_uint d :
  all_digits (NilEmpty.string_of_uint d) = true.
Proof. induction d; simpl; auto. Qed.

Lemma digits_of_all_digits s b :
  all_digits s = true -> s <> EmptyString \/ b = true -> digits_of s b = Some s.
Proof.
  revert b. induction s as [|c r IH]; simpl; intros b Hd Hne.
  - destruct Hne as [Hne| ->]; congruence.
  - apply andb_true_iff in Hd as [Hc Hr]. rewrite Hc, IH; auto.
Qed.

Lemma string_of_uint_nonempty d :
  d <> Decimal.Nil -> NilEmpty.string_of_uint d <> EmptyString.
Proof. destruct d; simpl; congruence. Qed.

Lemma unsigned_of_string_of_uint d :
  d <> Decimal.Nil ->
  unsigned_of (NilEmpty.string_of_uint d) = Some (Z.of_uint d).
Proof.
  intros Hd. unfold unsigned_of.
  rewrite digits_of_all_digits.
  - now rewrite NilEmpty.usu.
  - apply all_digits_string_of_uint.
  - left. now apply string_of_uint_nonempty.
Qed.

Lemma of_uint_to_uint p : Z.of_uint (Pos.to_uint p) = Zpos p.
Proof. unfold Z.of_uint. now rewrite DecimalPos.Unsigned.of_to. Qed.

Lemma str_int_pos p : str_int (Zpos p) = NilEmpty.string_of_uint (Pos.to_uint p).
Proof.
  unfold str_int. simpl. unfold NilZero.string_of_uint.
  pose proof (DecimalPos.Unsigned.to_uint_nonnil p).
  destruct (Pos.to_uint p); congruence.
Qed.

Lemma str_int_neg p :
  str_int (Zneg p) = String "-" (NilEmpty.string_of_uint (Pos.to_uint p)).
Proof.
  unfold str_int. simpl. unfold NilZero.string_of_uint.
  pose proof (DecimalPos.Unsigned.to_uint_nonnil p).
  destruct (Pos.to_uint p); congruence.
Qed.

Lemma no_space_str_int n : no_space (str_int n) = true.
Proof.
  destruct n as [|p|p].
  - reflexivity.
  - rewrite str_int_pos. apply all_digits_no_space, all_digits_string_of_uint.
  - rewrite str_int_neg. simpl.
    apply all_digits_no_space, all_digits_string_of_uint.
Qed.

Lemma strip_str_int n : strip (str_int n) = str_int n.
Proof. apply no_space_strip, no_space_str_int. Qed.

Lemma int_space_is_space c : is_int_space c = true -> is_space c = true.
Proof.
  unfold is_int_space, is_space. intros H.
  apply orb_true_iff in H as [H|H].
  - rewrite H. reflexivity.
  - apply Nat.eqb_eq in H. rewrite H. reflexivity.
Qed.

Lemma not_space_not_int_space c : is_space c = false -> is_int_space c = false.
Proof.
  intros H. destruct (is_int_space c) eqn:E; [|reflexivity].
  apply int_space_is_space in E. congruence.
Qed.

(** [int] finds nothing to skip on a text without white space. *)
Lemma no_space_skip s : no_space s = true -> rskip (lskip s) = s.
Proof.
  intros H.
  assert (Hl : lskip s = s).
  { destruct s as [|c r]; simpl in *; auto.
    apply andb_true_iff in H as [Hc _]. apply negb_true_iff in Hc.
    now rewrite (not_space_not_int_space _ Hc). }
  rewrite Hl. clear Hl. induction s as [|c r IH]; simpl in *; auto.
  apply andb_true_iff in H as [Hc Hr]. apply negb_true_iff in Hc.
  rewrite IH, (not_space_not_int_space _ Hc) by assumption. now destruct r.
Qed.

Lemma str_int_truthy n : str_truthy (str_int n) = true.
Proof.
  destruct n as [|p|p]; [reflexivity| |now rewrite str_int_neg].
  rewrite str_int_pos.
  pose proof (string_of_uint_nonempty _ (DecimalPos.Unsigned.to_uint_nonnil p)).
  destruct (NilEmpty.string_of_uint (Pos.to_uint p)); [congruence|reflexivity].
Qed.

Lemma is_digit_not_sign c :
  is_digit c = true -> Ascii.eqb c "+" = false /\ Ascii.eqb c "-" = false.
Proof.
  intros H. split; destruct (Ascii.eqb_spec c "+"), (Ascii.eqb_spec c "-");
    subst; try discriminate; auto.
Qed.

(** [int(str(n)) == n]. *)
Lemma int_str_int n : int_ (str_int n) = Some n.
Proof.
  unfold int_. rewrite (no_space_skip _ (no_space_str_int n)).
  destruct n as [|p|p].
  - reflexivity.
  - rewrite str_int_pos.
    pose proof (unsigned_of_string_of_uint _ (DecimalPos.Unsigned.to_uint_nonnil p)) as Hu.
    pose proof (all_digits_string_of_uint (Pos.to_uint p)) as Hd.
    pose proof (string_of_uint_nonempty _ (DecimalPos.Unsigned.to_uint_nonnil p)) as Hne.
    destruct (NilEmpty.string_of_uint (Pos.to_uint p)) as [|c r]; [congruence|].
    simpl in Hd. apply andb_true_iff in Hd as [Hc _].
    destruct (is_digit_not_sign c Hc) as [-> ->].
    now rewrite Hu, of_uint_to_uint.
  - rewrite str_int_neg. simpl.
    rewrite (unsigned_of_string_of_uint _ (DecimalPos.Unsigned.to_uint_nonnil p)).
    simpl. now rewrite of_uint_to_uint.
Qed.

End PyFacts.

(* ===================================================================== *)
(** * The exception and option monads: lemmas *)
(* ===================================================================== *)

Lemma Ok_inj {A} (a b : A) : Ok a = Ok b -> a = b.
Proof. congruence. Qed.

Lemma foldM_update {A} (step : dict -> A -> exc dict)
  (entry : A -> string * option json) :
  (forall d x, step d x = Ok (Py.update d [entry x])) ->
  forall l d, foldM step l d = Ok (Py.update d (map entry l)).
Proof.
  intros Hstep. induction l as [|x l IH]; intros d; simpl; auto.
  rewrite Hstep. simpl. rewrite IH. reflexivity.
Qed.

Lemma mapM_total {A B} (f : A -> exc B) l :
  (forall x, exists y, f x = Ok y) -> exists ys, mapM f l = Ok ys.
Proof.
  intros Hf. induction l as [|x l [ys IH]]; simpl; eauto.
  destruct (Hf x) as [y ->]. simpl. rewrite IH. simpl. eauto.
Qed.

Lemma traverse_map {A B} (f : A -> option B) (g : A -> B) l :
  (forall x, In x l -> f x = Some (g x)) -> traverse f l = Some (map g l).
Proof.
  induction l as [|x l IH]; intros Hf; simpl; auto.
  rewrite (Hf x) by (simpl; auto).
  rewrite IH by (intros; apply Hf; simpl; auto). reflexivity.
Qed.

Lemma traverse_as_str l : traverse as_str (map JStr l) = Some l.
Proof. induction l as [|x l IH]; simpl; auto. now rewrite IH. Qed.

Lemma traverse_as_str_inv l ss :
  traverse as_str l = Some ss -> l = map JStr ss.
Proof.
  revert ss. induction l as [|x l IH]; simpl; intros ss.
  - now intros [= <-].
  - destruct x; try discriminate. simpl.
    destruct (traverse as_str l) eqn:E; [|discriminate].
    intros [= <-]. simpl. f_equal. now apply IH.
Qed.

Lemma forallb_is_str l :
  forallb Raw.is_str l = true -> exists ss, l = map JStr ss.
Proof.
  induction l as [|x l IH]; simpl.
  - now exists [].
  - intros H. apply andb_true_iff in H as [Hx Hl].
    destruct x; try discriminate. destruct (IH Hl) as [ss ->].
    now exists (s :: ss).
Qed.

(* ===================================================================== *)
(** * The condition editor of [exe.py]: lemmas *)
(* ===================================================================== *)

Module ExeFacts.
Import Exe.ConditionEditor ExeEntries.

Lemma collect_bool_entry d x : collect_bool d x = Ok (Py.update d [bool_entry x]).
Proof. destruct x as [f []]; reflexivity. Qed.

Lemma collect_int_entry d x : collect_int d x = Ok (Py.update d [int_entry x]).
Proof.
  destruct x as [f [var had]]. unfold collect_int, int_entry, int_result. simpl.
  destruct (Py.str_truthy (Py.strip var)); [|reflexivity].
  destruct (Py.int_ (Py.strip var)) as [val|]; simpl; [|reflexivity].
  destruct (had || negb (val =? 0)%Z); reflexivity.
Qed.

Lemma collect_list_entry d x : collect_list d x = Ok (Py.update d [list_entry x]).
Proof.
  destruct x as [f txt]. unfold collect_list, list_entry, list_result. simpl.
  destruct (Py.stripped_lines _); reflexivity.
Qed.

Lemma collect_str_entry d x : collect_str d x = Ok (Py.update d [str_entry x]).
Proof.
  destruct x as [f var]. unfold collect_str, str_entry, text_entry. simpl.
  destruct (Py.str_truthy _); reflexivity.
Qed.

(** [get_data] never raises, and assigns exactly [entries]. *)
Lemma get_data_entries self : get_data self = Ok (Py.update [] (entries self)).
Proof.
  unfold get_data, entries.
  rewrite (foldM_update _ _ collect_bool_entry). simpl bind.
  rewrite (foldM_update _ _ collect_int_entry). simpl bind.
  rewrite (foldM_update _ _ collect_list_entry). simpl bind.
  rewrite (foldM_update _ _ collect_str_entry). simpl bind.
  rewrite !PyFacts.update_app. do 5 f_equal.
  unfold text_entry. destruct (Py.str_truthy (time_var self)),
    (Py.str_truthy (moon_var self)); reflexivity.
Qed.

Lemma keys_entries self : wf self -> map fst (entries self) = CONDITION_KEYS.
Proof.
  intros (Hb & Hi & Hl & Hs). unfold entries, CONDITION_KEYS.
  rewrite !map_app, !map_map.
  change (["timeRange"; "moonPhase"] ++ map fst (bool_vars self)
          ++ map fst (int_vars self) ++ map fst (list_texts self)
          ++ map fst (str_vars self) = CONDITION_KEYS).
  now rewrite Hb, Hi, Hl, Hs.
Qed.

Lemma NoDup_CONDITION_KEYS : NoDup CONDITION_KEYS.
Proof. apply PyFacts.nodupb_NoDup. reflexivity. Qed.

(** Reading one key of the collected condition. *)
Lemma lookup_entry self k ov :
  wf self -> In (k, ov) (entries self) ->
  Py.get (Py.update [] (entries self)) k = ov.
Proof.
  intros Hwf Hin.
  assert (Hnd : NoDup (map fst (entries self))).
  { rewrite keys_entries by assumption. apply NoDup_CONDITION_KEYS. }
  rewrite PyFacts.get_update by assumption.
  rewrite (PyFacts.assoc_In k ov) by assumption. now destruct ov.
Qed.

Lemma lookup_absent self k :
  wf self -> ~ In k CONDITION_KEYS ->
  Py.get (Py.update [] (entries self)) k = None.
Proof.
  intros Hwf Hnin. rewrite PyFacts.get_update_notin; [reflexivity|].
  now rewrite keys_entries.
Qed.

Lemma lookup_time self :
  wf self ->
  Py.get (Py.update [] (entries self)) "timeRange" =
  snd (text_entry "timeRange" (time_var self)).
Proof. intros Hwf. apply lookup_entry; [assumption|]. unfold entries. simpl. auto. Qed.

Lemma lookup_moon self :
  wf self ->
  Py.get (Py.update [] (entries self)) "moonPhase" =
  snd (text_entry "moonPhase" (moon_var self)).
Proof. intros Hwf. apply lookup_entry; [assumption|]. unfold entries. simpl. auto. Qed.

Lemma lookup_bool self k b :
  wf self -> In (k, b) (bool_vars self) ->
  Py.get (Py.update [] (entries self)) k = if b then Some (JBool true) else None.
Proof.
  intros Hwf Hin. apply lookup_entry; [assumption|]. unfold entries.
  apply in_or_app. right. apply in_or_app. left.
  apply in_map_iff. now exists (k, b).
Qed.

Lemma lookup_int self k var had :
  wf self -> In (k, (var, had)) (int_vars self) ->
  Py.get (Py.update [] (entries self)) k = int_result var had.
Proof.
  intros Hwf Hin. apply lookup_entry; [assumption|]. unfold entries.
  do 2 (apply in_or_app; right). apply in_or_app. left.
  apply in_map_iff. now exists (k, (var, had)).
Qed.

Lemma lookup_list self k txt :
  wf self -> In (k, txt) (list_texts self) ->
  Py.get (Py.update [] (entries self)) k = list_result txt.
Proof.
  intros Hwf Hin. apply lookup_entry; [assumption|]. unfold entries.
  do 3 (apply in_or_app; right). apply in_or_app. left.
  apply in_map_iff. now exists (k, txt).
Qed.

Lemma lookup_str self k var :
  wf self -> In (k, var) (str_vars self) ->
  Py.get (Py.update [] (entries self)) k = snd (text_entry k (Py.strip var)).
Proof.
  intros Hwf Hin. apply lookup_entry; [assumption|]. unfold entries.
  do 4 (apply in_or_app; right).
  apply in_map_iff. now exists (k, var).
Qed.

(** ** Building an editor from a well-typed condition *)

Section RoundTrip.
Context `{PyFloat}.
Import ExeShape.
Import Exe.

Lemma lines_map_JStr ss : lines (Some (JList (map JStr ss))) = ss.
Proof. simpl. induction ss as [|x ss IH]; simpl; congruence. Qed.

Lemma wf_shape raw : wf (shape raw).
Proof. repeat split. Qed.

Lemma build_well_typed raw :
  Raw.well_typed raw = true -> _build raw = Some (shape raw).
Proof.
  unfold Raw.well_typed. rewrite !andb_true_iff, !forallb_forall.
  intros (((((Ht & Hm) & Hb) & Hi) & Hl) & Hs).
  unfold _build, Py.get_or.
  assert (Et : StringVar match Py.get raw "timeRange" with
                         | Some v => v | None => JStr "" end
               = Some (sv (Py.get raw "timeRange"))).
  { destruct (Py.get raw "timeRange") as [[]|]; try discriminate; reflexivity. }
  rewrite Et.
  assert (Em : Py.str match Py.get raw "moonPhase" with
                      | Some v => v | None => JStr "" end
               = Some (mv (Py.get raw "moonPhase"))).
  { destruct (Py.get raw "moonPhase") as [[| [] | | | | |]|];
      try discriminate; reflexivity. }
  rewrite Em.
  rewrite (traverse_map _ (fun f => (f, bv (Py.get raw f)))).
  2:{ intros f Hf. specialize (Hb f Hf).
      destruct (Py.get raw f) as [[]|]; try discriminate; reflexivity. }
  rewrite (traverse_map _ (fun f => (f, iv (Py.get raw f)))).
  2:{ intros f Hf. specialize (Hi f Hf).
      destruct (Py.get raw f) as [[]|]; try discriminate; reflexivity. }
  rewrite (traverse_map _ (fun f => (f, lv (Py.get raw f)))).
  2:{ intros f Hf. specialize (Hl f Hf). unfold lv.
      destruct (Py.get raw f) as [[]|]; try discriminate; try reflexivity.
      apply forallb_is_str in Hl as [ss ->]. rewrite lines_map_JStr.
      unfold list_text. destruct ss; [reflexivity|].
      simpl Py.truthy. cbn iota. unfold as_list.
      now rewrite traverse_as_str. }
  rewrite (traverse_map _ (fun f => (f, sv (Py.get raw f)))).
  2:{ intros f Hf. specialize (Hs f Hf).
      destruct (Py.get raw f) as [[]|]; try discriminate; reflexivity. }
  reflexivity.
Qed.

(** ** One field, collected and built again *)

Lemma again_text s :
  StringVar match (if Py.str_truthy s then Some (JStr s) else None) with
            | Some v => v | None => JStr "" end = Some s.
Proof. destruct s; reflexivity. Qed.

Lemma again_moon s :
  Py.str match (if Py.str_truthy s then Some (JStr s) else None) with
         | Some v => v | None => JStr "" end = Some s.
Proof. destruct s; reflexivity. Qed.

Lemma again_bool (b : bool) :
  BooleanVar match (if b then Some (JBool true) else None) with
             | Some v => v | None => JBool false end = Some b.
Proof. destruct b; reflexivity. Qed.

Lemma int_result_explicit n : int_result (Py.str_int n) true = Some (JInt n).
Proof.
  unfold int_result.
  now rewrite PyFacts.strip_str_int, PyFacts.str_int_truthy, PyFacts.int_str_int.
Qed.

Lemma again_int v :
  Raw.int_ok v = true ->
  int_var (int_result (fst (iv v)) (snd (iv v))) = Some (iv v).
Proof.
  destruct v as [[]|]; try discriminate; intros _; simpl; auto.
  now rewrite int_result_explicit.
Qed.

Lemma clean_lines_of l :
  forallb Raw.is_clean_line l = true ->
  exists ss, l = map JStr ss /\ Forall (fun e => Py.clean_line e = true) ss.
Proof.
  induction l as [|x l IH]; simpl.
  - exists []. auto.
  - intros Hx. apply andb_true_iff in Hx as [Hx Hl].
    destruct x; try discriminate. destruct (IH Hl) as (ss & -> & Hall).
    exists (s :: ss). auto.
Qed.

Lemma list_result_join ss :
  Forall (fun e => Py.clean_line e = true) ss ->
  list_result (Py.join Py.NL ss) =
  match ss with [] => None | _ => Some (JList (map JStr ss)) end.
Proof.
  intros Hall. unfold list_result, Exe.Text_get.
  rewrite PyFacts.strip_text_join, PyFacts.stripped_lines_join by assumption.
  now destruct ss.
Qed.

Lemma again_list v :
  Raw.lines_ok v = true ->
  list_text match list_result (lv v) with
            | Some x => x | None => JList [] end = Some (lv v).
Proof.
  destruct v as [[]|]; try discriminate; try (intros _; reflexivity).
  intros Hl. apply clean_lines_of in Hl as (ss & -> & Hall).
  unfold lv. rewrite lines_map_JStr, list_result_join by assumption.
  destruct ss as [|x ss]; [reflexivity|].
  unfold list_text. simpl Py.truthy. cbn iota. unfold as_list.
  now rewrite traverse_as_str.
Qed.

Lemma again_str k v :
  Raw.trimmed_ok v = true ->
  StringVar match snd (text_entry k (Py.strip (sv v))) with
            | Some x => x | None => JStr "" end = Some (sv v).
Proof.
  destruct v as [[]|]; try discriminate; try (intros _; reflexivity).
  intros Ht. simpl. rewrite PyFacts.strip_trimmed by assumption.
  apply again_text.
Qed.

(** Collecting a well-typed, clean condition and building the editor from
    the result gives the editor back. *)
Lemma build_collect_build raw :
  Raw.well_typed raw = true ->
  Raw.clean_lists raw = true ->
  Raw.trimmed_strings raw = true ->
  _build (Py.update [] (entries (shape raw))) = Some (shape raw).
Proof.
  intros Hwt Hcl Hts.
  unfold Raw.well_typed in Hwt. rewrite !andb_true_iff, !forallb_forall in Hwt.
  destruct Hwt as (((((Ht & Hm) & Hb) & Hi) & Hl) & Hs).
  unfold Raw.clean_lists in Hcl. rewrite forallb_forall in Hcl.
  unfold Raw.trimmed_strings in Hts. rewrite forallb_forall in Hts.
  pose proof (wf_shape raw) as Hwf.
  set (d := Py.update [] (entries (shape raw))).
  unfold _build, Py.get_or.
  unfold d at 1. rewrite (lookup_time _ Hwf). simpl snd. rewrite again_text.
  unfold d at 1. rewrite (lookup_moon _ Hwf). simpl snd. rewrite again_moon.
  rewrite (traverse_map _ (fun f => (f, bv (Py.get raw f)))).
  2:{ intros f Hf. unfold d.
      rewrite (lookup_bool _ f (bv (Py.get raw f)) Hwf), again_bool; [reflexivity|].
      apply in_map_iff. eauto. }
  rewrite (traverse_map _ (fun f => (f, iv (Py.get raw f)))).
  2:{ intros f Hf. unfold d.
      rewrite (lookup_int _ f (fst (iv (Py.get raw f))) (snd (iv (Py.get raw f))) Hwf).
      - rewrite again_int by auto. reflexivity.
      - rewrite <- surjective_pairing. apply in_map_iff. eauto. }
  rewrite (traverse_map _ (fun f => (f, lv (Py.get raw f)))).
  2:{ intros f Hf. unfold d.
      rewrite (lookup_list _ f (lv (Py.get raw f)) Hwf).
      - rewrite again_list by auto. reflexivity.
      - apply in_map_iff. eauto. }
  rewrite (traverse_map _ (fun f => (f, sv (Py.get raw f)))).
  2:{ intros f Hf. unfold d.
      rewrite (lookup_str _ f (sv (Py.get raw f)) Hwf).
      - rewrite again_str by auto. reflexivity.
      - apply in_map_iff. eauto. }
  reflexivity.
Qed.

End RoundTrip.

End ExeFacts.

(* ===================================================================== *)
(** * [render_condition] of [app.py]: lemmas *)
(* ===================================================================== *)

Module AppFacts.
Import App AppEntries.

Lemma foldO_update_inv {A} (step : dict -> A -> option dict)
  (entry : A -> string * option json) :
  (forall d x d', step d x = Some d' -> d' = Py.update d [entry x]) ->
  forall l d d', foldO step l d = Some d' -> d' = Py.update d (map entry l).
Proof.
  intros Hstep. induction l as [|x l IH]; simpl; intros d d'.
  - now intros [= <-].
  - destruct (step d x) as [d1|] eqn:E; [|discriminate].
    intros Hl. apply Hstep in E. subst d1. now apply IH in Hl.
Qed.

Lemma foldO_update {A} (step : dict -> A -> option dict)
  (entry : A -> string * option json) l :
  (forall x, In x l -> forall d, step d x = Some (Py.update d [entry x])) ->
  forall d, foldO step l d = Some (Py.update d (map entry l)).
Proof.
  induction l as [|x l IH]; intros Hstep d; simpl; auto.
  rewrite (Hstep x) by (simpl; auto).
  rewrite IH by (intros; apply Hstep; simpl; auto). reflexivity.
Qed.

(** ** The number widgets *)

Lemma in_range_fresh : in_range fresh.
Proof. split; intros k v; discriminate. Qed.

Lemma number_input_int_ok ss k value :
  in_range ss -> js_int value = true ->
  exists v, number_input_int ss k value = Some v /\ js_int v = true.
Proof.
  intros [Hr _] Hv. unfold number_input_int. rewrite Hv.
  destruct (int_state ss k) as [v|] eqn:E; [|eauto].
  rewrite (Hr _ _ E). eauto.
Qed.

Lemma number_input_float_ok ss k value :
  in_range ss -> js_float value = true ->
  exists v, number_input_float ss k value = Some v /\ js_float v = true.
Proof.
  intros [_ Hr] Hv. unfold number_input_float. rewrite Hv.
  destruct (float_state ss k) as [v|] eqn:E; [|eauto].
  rewrite (Hr _ _ E). eauto.
Qed.

Lemma number_input_int_fresh k value :
  js_int value = true -> number_input_int fresh k value = Some value.
Proof. intros Hv. unfold number_input_int. now rewrite Hv. Qed.

Lemma number_input_float_fresh k value :
  js_float value = true -> number_input_float fresh k value = Some value.
Proof. intros Hv. unfold number_input_float. now rewrite Hv. Qed.

(** What a number widget returns is a number of the browser. *)
Lemma number_input_int_safe ss k value v :
  number_input_int ss k value = Some v -> js_int v = true.
Proof.
  unfold number_input_int. destruct (js_int value) eqn:Ev; [|discriminate].
  destruct (int_state ss k) as [s|].
  - destruct (js_int s) eqn:Es; [|discriminate]. now intros [= <-].
  - now intros [= <-].
Qed.

Lemma number_input_float_safe ss k value v :
  number_input_float ss k value = Some v -> js_float v = true.
Proof.
  unfold number_input_float. destruct (js_float value) eqn:Ev; [|discriminate].
  destruct (float_state ss k) as [s|].
  - destruct (js_float s) eqn:Es; [|discriminate]. now intros [= <-].
  - now intros [= <-].
Qed.

Section Condition.
Context `{PyFloat}.
Variable ss : session.
Variable cond : dict.
Variable key_prefix : string.

Lemma render_bool_entry d f d' :
  render_bool ss cond key_prefix d f = Some d' ->
  d' = Py.update d [bool_entry ss cond key_prefix f].
Proof.
  unfold render_bool, bool_entry.
  destruct (as_bool _) as [value|]; [|discriminate].
  destruct (checkbox _ _ _); now intros [= <-].
Qed.

Lemma render_int_entry d f d' :
  render_int ss cond key_prefix d f = Some d' ->
  d' = Py.update d [int_entry ss cond key_prefix f].
Proof.
  unfold render_int, int_entry, int_widget.
  destruct (int_value _) as [[value had]|]; [|discriminate].
  destruct (number_input_int _ _ _) as [val|]; [|discriminate].
  cbv zeta. destruct (had || _); now intros [= <-].
Qed.

Lemma render_list_entry d f d' :
  render_list ss cond key_prefix d f = Some d' ->
  d' = Py.update d [list_entry ss cond key_prefix f].
Proof.
  unfold render_list, list_entry.
  destruct (list_value _) as [value|]; [|discriminate].
  destruct (Py.stripped_lines _); now intros [= <-].
Qed.

Lemma render_str_entry d f d' :
  render_str ss cond key_prefix d f = Some d' ->
  d' = Py.update d [str_entry ss cond key_prefix f].
Proof.
  unfold render_str, str_entry.
  destruct (as_str _) as [current|]; [|discriminate].
  cbv zeta. destruct (Py.str_truthy _); now intros [= <-].
Qed.

(** A run of [render_condition] assigns exactly [entries]. *)
Lemma render_condition_entries d :
  render_condition ss cond key_prefix = Some d ->
  d = Py.update [] (entries ss cond key_prefix).
Proof.
  unfold render_condition, entries, time_entry, moon_entry.
  destruct (moon_index cond) as [index|]; [|discriminate].
  match goal with
  | |- context [foldO (render_bool _ _ _) _ ?d0] => set (D0 := d0)
  end.
  destruct (foldO _ CONDITION_BOOL_FIELDS D0) as [d1|] eqn:E1; [|discriminate].
  destruct (foldO _ CONDITION_INT_FIELDS d1) as [d2|] eqn:E2; [|discriminate].
  destruct (foldO _ CONDITION_LIST_FIELDS d2) as [d3|] eqn:E3; [|discriminate].
  destruct (foldO _ CONDITION_STRING_FIELDS d3) as [d4|] eqn:E4; [|discriminate].
  intros [= <-].
  apply (foldO_update_inv _ _ render_bool_entry) in E1.
  apply (foldO_update_inv _ _ render_int_entry) in E2.
  apply (foldO_update_inv _ _ render_list_entry) in E3.
  apply (foldO_update_inv _ _ render_str_entry) in E4.
  rewrite !PyFacts.update_app. subst d4 d3 d2 d1. do 4 f_equal.
  unfold D0, select_entry.
  destruct (Py.truthy (opt_str (selectbox ss _ TIME_RANGES _)));
    destruct (Py.truthy (opt_str (selectbox ss _ MOON_PHASES _))); reflexivity.
Qed.

Lemma keys_rendered : map fst (entries ss cond key_prefix) = CONDITION_KEYS.
Proof. reflexivity. Qed.

Lemma rendered_entry k ov :
  In (k, ov) (entries ss cond key_prefix) ->
  Py.get (Py.update [] (entries ss cond key_prefix)) k = ov.
Proof.
  intros Hin.
  assert (Hnd : NoDup (map fst (entries ss cond key_prefix))).
  { rewrite keys_rendered. apply ExeFacts.NoDup_CONDITION_KEYS. }
  rewrite PyFacts.get_update by assumption.
  rewrite (PyFacts.assoc_In k ov) by assumption. now destruct ov.
Qed.

Lemma rendered_time :
  Py.get (Py.update [] (entries ss cond key_prefix)) "timeRange"
  = snd (time_entry ss cond key_prefix).
Proof. apply rendered_entry. unfold entries. simpl. auto. Qed.

Lemma rendered_moon :
  Py.get (Py.update [] (entries ss cond key_prefix)) "moonPhase"
  = snd (moon_entry ss cond key_prefix).
Proof. apply rendered_entry. unfold entries. simpl. auto. Qed.

Lemma rendered_bool f :
  In f CONDITION_BOOL_FIELDS ->
  Py.get (Py.update [] (entries ss cond key_prefix)) f
  = snd (bool_entry ss cond key_prefix f).
Proof.
  intros Hin. apply rendered_entry. unfold entries.
  apply in_or_app. right. apply in_or_app. left.
  apply in_map_iff. now exists f.
Qed.

Lemma rendered_int f :
  In f CONDITION_INT_FIELDS ->
  Py.get (Py.update [] (entries ss cond key_prefix)) f
  = snd (int_entry ss cond key_prefix f).
Proof.
  intros Hin. apply rendered_entry. unfold entries.
  do 2 (apply in_or_app; right). apply in_or_app. left.
  apply in_map_iff. now exists f.
Qed.

Lemma rendered_list f :
  In f CONDITION_LIST_FIELDS ->
  Py.get (Py.update [] (entries ss cond key_prefix)) f
  = snd (list_entry ss cond key_prefix f).
Proof.
  intros Hin. apply rendered_entry. unfold entries.
  do 3 (apply in_or_app; right). apply in_or_app. left.
  apply in_map_iff. now exists f.
Qed.

Lemma rendered_str f :
  In f CONDITION_STRING_FIELDS ->
  Py.get (Py.update [] (entries ss cond key_prefix)) f
  = snd (str_entry ss cond key_prefix f).
Proof.
  intros Hin. apply rendered_entry. unfold entries.
  do 4 (apply in_or_app; right).
  apply in_map_iff. now exists f.
Qed.

Lemma foldO_In {A S} (step : S -> A -> option S) x l s s' :
  foldO step l s = Some s' -> In x l -> exists s0 s1, step s0 x = Some s1.
Proof.
  revert s. induction l as [|y l IH]; intros s Hl Hin; [destruct Hin|].
  cbn [foldO] in Hl. destruct (step s y) as [s1|] eqn:E; [|discriminate].
  destruct Hin as [->|Hin]; eauto.
Qed.

(** In a run that returns, the widget of every numeric field returned. *)
Lemma render_condition_int d f :
  In f CONDITION_INT_FIELDS ->
  render_condition ss cond key_prefix = Some d ->
  exists value had_value int_val,
    int_value (Py.get cond f) = Some (value, had_value) /\
    number_input_int ss (key key_prefix f) value = Some int_val /\
    Py.get d f =
    if had_value || negb (int_val =? 0)%Z then Some (JInt int_val) else None.
Proof.
  intros Hin Hr. pose proof Hr as Hd.
  apply render_condition_entries in Hd. subst d.
  rewrite rendered_int by assumption.
  unfold render_condition in Hr.
  destruct (moon_index cond); [|discriminate].
  destruct (foldO _ CONDITION_BOOL_FIELDS _) as [d1|]; [|discriminate].
  destruct (foldO _ CONDITION_INT_FIELDS d1) as [d2|] eqn:E2; [|discriminate].
  destruct (foldO_In _ f _ _ _ E2 Hin) as (s0 & s1 & Hs).
  unfold render_int in Hs. unfold int_entry, int_widget.
  destruct (int_value (Py.get cond f)) as [[value had]|]; [|discriminate].
  cbv iota beta.
  destruct (number_input_int ss (key key_prefix f) value) as [val|] eqn:En;
    [|discriminate].
  exists value, had, val. cbn [snd].
  split; [reflexivity|]. split; [exact En|reflexivity].
Qed.

End Condition.

(** ** Well-typed conditions render without fault *)

Section Total.
Context `{PyFloat}.
Variable ss : session.
Variable cond : dict.
Variable key_prefix : string.

Lemma render_bool_ok d f :
  Raw.bool_ok (Py.get cond f) = true ->
  render_bool ss cond key_prefix d f
  = Some (Py.update d [bool_entry ss cond key_prefix f]).
Proof.
  unfold render_bool, bool_entry, Py.get_or.
  destruct (Py.get cond f) as [[]|]; try discriminate; intros _; simpl;
    destruct (checkbox _ _ _); reflexivity.
Qed.

Lemma render_int_ok d f :
  in_range ss ->
  Raw.int_ok (Py.get cond f) = true ->
  Raw.safe_int (Py.get cond f) = true ->
  render_int ss cond key_prefix d f
  = Some (Py.update d [int_entry ss cond key_prefix f]).
Proof.
  intros Hr. unfold render_int, int_entry, int_widget, Raw.safe_int.
  destruct (Py.get cond f) as [[| |n| | | |]|]; try discriminate;
    intros _ Hs; cbn [int_value].
  - destruct (number_input_int_ok ss (key key_prefix f) n Hr Hs)
      as (v & -> & _).
    cbv zeta. cbn [orb snd]. reflexivity.
  - destruct (number_input_int_ok ss (key key_prefix f) 0 Hr eq_refl)
      as (v & -> & _).
    cbv zeta. cbn [orb snd]. destruct (negb (v =? 0)%Z); reflexivity.
Qed.

Lemma list_value_ok v :
  Raw.list_ok v = true ->
  list_value (match v with Some x => x | None => JList [] end)
  = Some (ExeShape.lv v).
Proof.
  destruct v as [[]|]; try discriminate; try (intros _; reflexivity).
  intros Hl. apply forallb_is_str in Hl as [l' ->].
  unfold ExeShape.lv. rewrite ExeFacts.lines_map_JStr.
  unfold list_value, as_list. now rewrite traverse_as_str.
Qed.

Lemma render_list_ok d f :
  Raw.list_ok (Py.get cond f) = true ->
  render_list ss cond key_prefix d f
  = Some (Py.update d [list_entry ss cond key_prefix f]).
Proof.
  intros Hl. unfold render_list, list_entry, Py.get_or.
  rewrite list_value_ok by assumption.
  destruct (Py.stripped_lines _); reflexivity.
Qed.

Lemma render_str_ok d f :
  Raw.str_ok (Py.get cond f) = true ->
  render_str ss cond key_prefix d f
  = Some (Py.update d [str_entry ss cond key_prefix f]).
Proof.
  unfold render_str, str_entry, Py.get_or.
  destruct (Py.get cond f) as [[]|]; try discriminate; intros _; simpl;
    destruct (Py.str_truthy _); reflexivity.
Qed.

Lemma moon_index_ok :
  Raw.moon_ok (Py.get cond "moonPhase") = true ->
  moon_index cond
  = Some (index_or_0 (JStr (ExeShape.mv (Py.get cond "moonPhase"))) MOON_PHASES).
Proof.
  unfold moon_index, Py.get_or.
  destruct (Py.get cond "moonPhase") as [[| [] | | | | |]|];
    try discriminate; reflexivity.
Qed.

Lemma render_condition_total :
  in_range ss ->
  Raw.well_typed cond = true ->
  Raw.safe_ints cond = true ->
  render_condition ss cond key_prefix
  = Some (Py.update [] (entries ss cond key_prefix)).
Proof.
  intros Hr. unfold Raw.well_typed, Raw.safe_ints.
  rewrite !andb_true_iff, !forallb_forall.
  intros (((((Ht & Hm) & Hb) & Hi) & Hl) & Hs) Hsafe.
  unfold render_condition, entries, time_entry, moon_entry.
  rewrite (moon_index_ok Hm).
  rewrite (foldO_update _ (bool_entry ss cond key_prefix))
    by (intros; apply render_bool_ok; auto).
  rewrite (foldO_update _ (int_entry ss cond key_prefix))
    by (intros; apply render_int_ok; auto).
  rewrite (foldO_update _ (list_entry ss cond key_prefix))
    by (intros; apply render_list_ok; auto).
  rewrite (foldO_update _ (str_entry ss cond key_prefix))
    by (intros; apply render_str_ok; auto).
  rewrite !PyFacts.update_app. do 5 f_equal.
  unfold select_entry.
  destruct (Py.truthy (opt_str (selectbox ss _ TIME_RANGES _)));
    destruct (Py.truthy (opt_str (selectbox ss _ MOON_PHASES _))); reflexivity.
Qed.

(** An integer the browser does not hold makes [st.number_input] raise. *)
Lemma render_int_unsafe d f n :
  Py.get cond f = Some (JInt n) -> js_int n = false ->
  render_int ss cond key_prefix d f = None.
Proof.
  intros Hg Hn. unfold render_int. rewrite Hg. cbn [int_value].
  unfold number_input_int. now rewrite Hn.
Qed.

Lemma foldO_None {A S} (step : S -> A -> option S) x l :
  In x l -> (forall s, step s x = None) ->
  forall s, foldO step l s = None.
Proof.
  intros Hin Hx. induction l as [|y l IH]; [destruct Hin|].
  intros s. cbn [foldO]. destruct Hin as [->|Hin].
  - now rewrite Hx.
  - destruct (step s y); [now apply IH|reflexivity].
Qed.

Lemma render_condition_unsafe :
  Raw.well_typed cond = true ->
  Raw.safe_ints cond = false ->
  render_condition ss cond key_prefix = None.
Proof.
  intros _ Hs. unfold Raw.safe_ints in Hs.
  assert (Hex : exists f n, In f CONDITION_INT_FIELDS /\
                            Py.get cond f = Some (JInt n) /\ js_int n = false).
  { induction CONDITION_INT_FIELDS as [|f l IH]; [discriminate|].
    cbn [forallb] in Hs. apply andb_false_iff in Hs as [Hs|Hs].
    - unfold Raw.safe_int in Hs.
      destruct (Py.get cond f) as [[| |n| | | |]|] eqn:E; try discriminate.
      exists f, n. cbn [In]. auto.
    - destruct (IH Hs) as (g & n & Hin & Hg & Hn).
      exists g, n. cbn [In]. auto. }
  destruct Hex as (f & n & Hin & Hg & Hn).
  unfold render_condition.
  destruct (moon_index cond); [|reflexivity].
  destruct (foldO _ CONDITION_BOOL_FIELDS _); [|reflexivity].
  rewrite (foldO_None _ f _ Hin); [reflexivity|].
  intros s. now apply (render_int_unsafe s f n).
Qed.

End Total.

(** ** What a fresh session shows, collected and shown again *)

Section RoundTrip.
Context `{PyFloat}.
Variable key_prefix : string.

Lemma nth_error_index s l :
  Py.mem s l = true -> nth_error l (Py.index s l) = Some s.
Proof.
  induction l as [|y l IH]; simpl; [discriminate|].
  destruct (String.eqb_spec s y) as [->|Hne]; simpl; auto.
Qed.

Lemma select_pick options s :
  options <> [] ->
  nth_error options (index_or_0 (JStr s) options) = Some (pick options s).
Proof.
  intros Hne. unfold index_or_0, pick.
  destruct (Py.mem s options) eqn:E.
  - now apply nth_error_index.
  - destruct options; [congruence|reflexivity].
Qed.

Lemma mem_pick options s :
  options <> [] -> Py.mem (pick options s) options = true.
Proof.
  intros Hne. unfold pick. destruct (Py.mem s options) eqn:E; auto.
  destruct options as [|x l]; [congruence|]. simpl.
  now rewrite String.eqb_refl.
Qed.

Lemma pick_pick options s :
  options <> [] -> pick options (pick options s) = pick options s.
Proof.
  intros Hne. unfold pick at 1. now rewrite mem_pick.
Qed.

Lemma widgets_well_typed raw :
  Raw.well_typed raw = true ->
  Raw.safe_ints raw = true ->
  widgets_of fresh raw key_prefix = Some (shape raw).
Proof.
  intros Hwt Hsafe. pose proof Hwt as Hwt'.
  unfold Raw.safe_ints in Hsafe. rewrite forallb_forall in Hsafe.
  unfold Raw.well_typed in Hwt'. rewrite !andb_true_iff, !forallb_forall in Hwt'.
  destruct Hwt' as (((((Ht & Hm) & Hb) & Hi) & Hl) & Hs).
  unfold widgets_of. rewrite (moon_index_ok _ Hm).
  rewrite (traverse_map _ (fun f => (f, ExeShape.bv (Py.get raw f)))).
  2:{ intros f Hf. specialize (Hb f Hf). unfold Py.get_or.
      destruct (Py.get raw f) as [[]|]; try discriminate; reflexivity. }
  rewrite (traverse_map _ (fun f => (f, match Py.get raw f with
                                        | Some (JInt n) => (n, true)
                                        | _ => (0%Z, false)
                                        end))).
  2:{ intros f Hf. specialize (Hi f Hf). specialize (Hsafe f Hf).
      unfold Raw.safe_int in Hsafe.
      destruct (Py.get raw f) as [[]|]; try discriminate; cbn [int_value];
        rewrite number_input_int_fresh by auto; reflexivity. }
  rewrite (traverse_map _ (fun f => (f, ExeShape.lv (Py.get raw f)))).
  2:{ intros f Hf. specialize (Hl f Hf). unfold Py.get_or.
      now rewrite list_value_ok. }
  rewrite (traverse_map _ (fun f => (f, ExeShape.sv (Py.get raw f)))).
  2:{ intros f Hf. specialize (Hs f Hf). unfold Py.get_or.
      destruct (Py.get raw f) as [[]|]; try discriminate; reflexivity. }
  unfold shape. f_equal. f_equal.
  - unfold selectbox, time_index, Py.get_or. simpl text_state. cbv iota.
    destruct (Py.get raw "timeRange") as [[]|] eqn:E; try discriminate;
      try reflexivity.
    now rewrite select_pick.
  - unfold selectbox. simpl text_state. cbv iota. now rewrite select_pick.
Qed.

Lemma again_select options field s :
  options <> [] -> hd "" options = "" ->
  nth_error options
    (index_or_0
       match snd (select_entry field (Some (pick options s))) with
       | Some v => v | None => JStr "" end options)
  = Some (pick options s).
Proof.
  intros Hne Hhd. unfold select_entry.
  destruct (pick options s) eqn:E.
  - simpl. destruct options as [|x l]; [congruence|]. simpl in Hhd. subst x.
    reflexivity.
  - cbn [snd Py.truthy opt_str Py.str_truthy]. rewrite <- E.
    rewrite select_pick by assumption. f_equal. now apply pick_pick.
Qed.

Lemma time_entry_fresh raw :
  Raw.str_ok (Py.get raw "timeRange") = true ->
  time_entry fresh raw key_prefix
  = select_entry "timeRange"
      (Some (pick TIME_RANGES (ExeShape.sv (Py.get raw "timeRange")))).
Proof.
  intros Ht. unfold time_entry. f_equal.
  unfold selectbox, time_index, Py.get_or. simpl text_state. cbv iota.
  destruct (Py.get raw "timeRange") as [[]|]; try discriminate; try reflexivity.
  now rewrite select_pick.
Qed.

Lemma moon_entry_fresh raw :
  Raw.moon_ok (Py.get raw "moonPhase") = true ->
  moon_entry fresh raw key_prefix
  = select_entry "moonPhase"
      (Some (pick MOON_PHASES (ExeShape.mv (Py.get raw "moonPhase")))).
Proof.
  intros Hm. unfold moon_entry. rewrite (moon_index_ok _ Hm). f_equal.
  unfold selectbox. simpl text_state. cbv iota. now rewrite select_pick.
Qed.

Lemma reshow_bool raw f :
  Raw.bool_ok (Py.get raw f) = true ->
  as_bool match snd (bool_entry fresh raw key_prefix f) with
          | Some v => v | None => JBool false end
  = Some (ExeShape.bv (Py.get raw f)).
Proof.
  unfold bool_entry, Py.get_or.
  destruct (Py.get raw f) as [[| [] | | | | |]|]; try discriminate; reflexivity.
Qed.

Lemma reshow_int raw f :
  Raw.int_ok (Py.get raw f) = true ->
  Raw.safe_int (Py.get raw f) = true ->
  int_value (snd (int_entry fresh raw key_prefix f))
  = Some match Py.get raw f with
         | Some (JInt n) => (n, true)
         | _ => (0%Z, false)
         end.
Proof.
  unfold int_entry, int_widget, Raw.safe_int.
  destruct (Py.get raw f) as [[]|]; try discriminate; intros _ Hs;
    cbn [int_value]; rewrite number_input_int_fresh by auto; reflexivity.
Qed.

Lemma reshow_list raw f :
  Raw.lines_ok (Py.get raw f) = true ->
  list_value match snd (list_entry fresh raw key_prefix f) with
             | Some v => v | None => JList [] end
  = Some (ExeShape.lv (Py.get raw f)).
Proof.
  unfold list_entry, Py.get_or.
  destruct (Py.get raw f) as [[]|]; try discriminate; try (intros _; reflexivity).
  intros Hl. apply ExeFacts.clean_lines_of in Hl as (l' & -> & Hall).
  assert (Hv : list_value (JList (map JStr l')) = Some (Py.join Py.NL l')).
  { unfold list_value, as_list. now rewrite traverse_as_str. }
  rewrite Hv. unfold text_area, text_input. simpl text_state. cbv iota.
  rewrite PyFacts.stripped_lines_join by assumption.
  unfold ExeShape.lv. rewrite ExeFacts.lines_map_JStr.
  destruct l'; [reflexivity|]. simpl snd. cbv iota. exact Hv.
Qed.

Lemma reshow_str raw f :
  Raw.str_ok (Py.get raw f) = true ->
  as_str match snd (str_entry fresh raw key_prefix f) with
         | Some v => v | None => JStr "" end
  = Some (ExeShape.sv (Py.get raw f)).
Proof.
  unfold str_entry, Py.get_or.
  destruct (Py.get raw f) as [[| | | |[]| |]|]; try discriminate; reflexivity.
Qed.

(** Rendering a well-typed condition with clean list entries in a fresh
    session, and showing the result in a fresh session, shows the same. *)
Lemma show_render_show raw :
  Raw.well_typed raw = true ->
  Raw.safe_ints raw = true ->
  Raw.clean_lists raw = true ->
  widgets_of fresh (Py.update [] (entries fresh raw key_prefix)) key_prefix
  = Some (shape raw).
Proof.
  intros Hwt Hsafe Hcl.
  unfold Raw.safe_ints in Hsafe. rewrite forallb_forall in Hsafe.
  unfold Raw.well_typed in Hwt. rewrite !andb_true_iff, !forallb_forall in Hwt.
  destruct Hwt as (((((Ht & Hm) & Hb) & Hi) & Hl) & Hs).
  unfold Raw.clean_lists in Hcl. rewrite forallb_forall in Hcl.
  set (d := Py.update [] (entries fresh raw key_prefix)).
  assert (Etime : selectbox fresh (key key_prefix "timeRange") TIME_RANGES
                    (time_index d)
                  = Some (pick TIME_RANGES (ExeShape.sv (Py.get raw "timeRange")))).
  { unfold selectbox, time_index, Py.get_or, d. simpl text_state. cbv iota.
    rewrite rendered_time, time_entry_fresh by assumption.
    now apply again_select. }
  assert (Emoon : moon_index d
                  = Some (index_or_0
                            (JStr (pick MOON_PHASES
                                     (ExeShape.mv (Py.get raw "moonPhase"))))
                            MOON_PHASES)).
  { unfold moon_index, Py.get_or, d.
    rewrite rendered_moon, moon_entry_fresh by assumption.
    unfold select_entry. simpl snd.
    destruct (pick MOON_PHASES _) eqn:E; reflexivity. }
  unfold widgets_of. rewrite Emoon, Etime.
  rewrite (traverse_map _ (fun f => (f, ExeShape.bv (Py.get raw f)))).
  2:{ intros f Hf. unfold Py.get_or, d.
      rewrite rendered_bool, reshow_bool by auto. reflexivity. }
  rewrite (traverse_map _ (fun f => (f, match Py.get raw f with
                                        | Some (JInt n) => (n, true)
                                        | _ => (0%Z, false)
                                        end))).
  2:{ intros f Hf. unfold d. specialize (Hsafe f Hf).
      rewrite rendered_int, reshow_int by auto.
      unfold Raw.safe_int in Hsafe.
      destruct (Py.get raw f) as [[]|];
        rewrite number_input_int_fresh by auto; reflexivity. }
  rewrite (traverse_map _ (fun f => (f, ExeShape.lv (Py.get raw f)))).
  2:{ intros f Hf. unfold Py.get_or, d.
      rewrite rendered_list, reshow_list by auto. reflexivity. }
  rewrite (traverse_map _ (fun f => (f, ExeShape.sv (Py.get raw f)))).
  2:{ intros f Hf. unfold Py.get_or, d.
      rewrite rendered_str, reshow_str by auto. reflexivity. }
  unfold shape. f_equal. f_equal.
  unfold selectbox. simpl text_state. cbv iota.
  rewrite select_pick by discriminate. f_equal. apply pick_pick. discriminate.
Qed.

End RoundTrip.

End AppFacts.

(* ===================================================================== *)
(** * Blank forms and built editors: lemmas *)
(* ===================================================================== *)

Lemma traverse_inv {A B} (step : A -> option B) l r :
  traverse step l = Some r -> Forall2 (fun x y => step x = Some y) l r.
Proof.
  revert r. induction l as [|x l IH]; simpl; intros r.
  - intros [= <-]. constructor.
  - destruct (step x) as [y|] eqn:E; [|discriminate].
    destruct (traverse step l) as [ys|]; [|discriminate].
    intros [= <-]. constructor; auto.
Qed.

Lemma traverse_keys {A} (F : string -> option A) l r :
  traverse (fun f => v <~ F f ;; Some (f, v)) l = Some r -> map fst r = l.
Proof.
  intros Ht. apply traverse_inv in Ht.
  induction Ht as [|x y l r Hxy _ IH]; simpl; auto.
  destruct (F x); [|discriminate]. injection Hxy as <-. simpl. now f_equal.
Qed.

Lemma update_all_None d es :
  Forall (fun e => snd e = None) es -> Py.update d es = d.
Proof.
  induction 1 as [|[k ov] es Hov _ IH]; [reflexivity|].
  rewrite PyFacts.update_cons. simpl in *. now subst ov.
Qed.

Lemma foldO_id {A S} (step : S -> A -> option S) l :
  (forall x, In x l -> forall s, step s x = Some s) ->
  forall s, App.foldO step l s = Some s.
Proof.
  induction l as [|x l IH]; intros Hstep s; simpl; auto.
  rewrite (Hstep x) by (simpl; auto). apply IH.
  intros; apply Hstep; simpl; auto.
Qed.

Lemma Forall2_In_l {A B} (R : A -> B -> Prop) l r x :
  Forall2 R l r -> In x l -> exists y, In y r /\ R x y.
Proof.
  induction 1 as [|a b l r Hab _ IH]; simpl; [tauto|].
  intros [->|Hin]; eauto. destruct (IH Hin) as (y & Hy & HR). eauto.
Qed.

Module BlankFacts.
Import Exe.ConditionEditor.

(** The editor [_build] makes has one variable per field of the schema. *)
Lemma build_wf `{PyFloat} cond e : _build cond = Some e -> ExeEntries.wf e.
Proof.
  unfold _build.
  destruct (Exe.StringVar _) as [time|]; [|discriminate].
  destruct (Py.str _) as [moon|]; [|discriminate].
  destruct (traverse _ CONDITION_BOOL_FIELDS) as [bools|] eqn:Eb; [|discriminate].
  destruct (traverse _ CONDITION_INT_FIELDS) as [ints|] eqn:Ei; [|discriminate].
  destruct (traverse _ CONDITION_LIST_FIELDS) as [lists|] eqn:El; [|discriminate].
  destruct (traverse _ CONDITION_STRING_FIELDS) as [strs|] eqn:Es; [|discriminate].
  intros [= <-]. unfold ExeEntries.wf. simpl.
  apply traverse_keys in Eb, Ei, El, Es. auto.
Qed.

Lemma int_result_zero v :
  Blank.int_zero v -> ExeEntries.int_result (fst v) (snd v) = None.
Proof.
  destruct v as [var had]. intros [Hhad Hz]. simpl in *. subst had.
  unfold ExeEntries.int_result. destruct Hz as [->|Hz]; [reflexivity|].
  rewrite Hz. simpl. now destruct (Py.str_truthy _).
Qed.

Lemma blank_editor self : Blank.editor self -> get_data self = Ok [].
Proof.
  intros (Ht & Hm & Hb & Hi & Hl & Hs).
  rewrite ExeFacts.get_data_entries. f_equal. apply update_all_None.
  unfold ExeEntries.entries. rewrite Ht, Hm.
  repeat (apply Forall_app; split).
  - repeat constructor.
  - apply Forall_map. eapply Forall_impl; [|exact Hb].
    intros [f b] Hx. simpl in *. now subst b.
  - apply Forall_map. eapply Forall_impl; [|exact Hi].
    intros [f v] Hx. simpl in *. now apply int_result_zero.
  - apply Forall_map. eapply Forall_impl; [|exact Hl].
    intros [f t] Hx. simpl in *. now subst t.
  - apply Forall_map. eapply Forall_impl; [|exact Hs].
    intros [f t] Hx. simpl in *. now subst t.
Qed.

Lemma blank_widgets `{PyFloat} ss cond key_prefix w :
  App.widgets_of ss cond key_prefix = Some w -> Blank.widgets w ->
  App.render_condition ss cond key_prefix = Some [].
Proof.
  unfold App.widgets_of.
  destruct (App.moon_index cond) as [index|] eqn:Em; [|discriminate].
  destruct (traverse _ CONDITION_BOOL_FIELDS) as [bools|] eqn:Eb; [|discriminate].
  destruct (traverse _ CONDITION_INT_FIELDS) as [ints|] eqn:Ei; [|discriminate].
  destruct (traverse _ CONDITION_LIST_FIELDS) as [lists|] eqn:El; [|discriminate].
  destruct (traverse _ CONDITION_STRING_FIELDS) as [strs|] eqn:Es; [|discriminate].
  apply traverse_inv in Eb, Ei, El, Es.
  intros [= <-] (Ht & Hm & Hb & Hi & Hl & Hs).
  simpl in Ht, Hm, Hb, Hi, Hl, Hs.
  unfold App.render_condition. rewrite Em, Ht, Hm.
  cbn [App.opt_str Py.truthy Py.str_truthy].
  rewrite foldO_id.
  2:{ intros f Hf d. destruct (Forall2_In_l _ _ _ _ Eb Hf) as (y & Hy & HR).
      rewrite Forall_forall in Hb. specialize (Hb y Hy).
      unfold App.render_bool.
      destruct (App.as_bool _) as [value|]; [|discriminate].
      injection HR as <-. simpl in Hb. now rewrite Hb. }
  rewrite foldO_id.
  2:{ intros f Hf d. destruct (Forall2_In_l _ _ _ _ Ei Hf) as (y & Hy & HR).
      rewrite Forall_forall in Hi. specialize (Hi y Hy).
      unfold App.render_int.
      destruct (App.int_value _) as [[value had]|]; [|discriminate].
      destruct (App.number_input_int _ _ _) as [val|]; [|discriminate].
      injection HR as <-. simpl in Hi. injection Hi as -> ->. reflexivity. }
  rewrite foldO_id.
  2:{ intros f Hf d. destruct (Forall2_In_l _ _ _ _ El Hf) as (y & Hy & HR).
      rewrite Forall_forall in Hl. specialize (Hl y Hy).
      unfold App.render_list.
      destruct (App.list_value _) as [value|]; [|discriminate].
      injection HR as <-. simpl in Hl. now rewrite Hl. }
  rewrite foldO_id.
  2:{ intros f Hf d. destruct (Forall2_In_l _ _ _ _ Es Hf) as (y & Hy & HR).
      rewrite Forall_forall in Hs. specialize (Hs y Hy).
      unfold App.render_str.
      destruct (as_str _) as [value|]; [|discriminate].
      injection HR as <-. simpl in Hs. now rewrite Hs. }
  reflexivity.
Qed.

End BlankFacts.

(* ===================================================================== *)
(** * The record editors of [exe.py]: lemmas *)
(* ===================================================================== *)

Module ExeSpawnFacts.
Import Exe.

Section Facts.
Context `{PyFloat}.

Lemma try_float_set t (r : dict) k dflt :
  try_except
    (bind (of_option (float_ t)) (fun w => Ok (Py.set r k (JFloat w))))
    (Ok (Py.set r k (JFloat dflt)))
  = Ok (Py.set r k (JFloat (float_or dflt t))).
Proof. unfold float_or. destruct (float_ t); reflexivity. Qed.

Lemma try_int_set t (r : dict) k dflt :
  try_except
    (bind (of_option (Py.int_ t)) (fun n => Ok (Py.set r k (JInt n))))
    (Ok (Py.set r k (JInt dflt)))
  = Ok (Py.set r k (JInt (int_or dflt t))).
Proof. unfold int_or. destruct (Py.int_ t); reflexivity. Qed.

Lemma try_float t dflt :
  try_except (of_option (float_ t)) (Ok dflt) = Ok (float_or dflt t).
Proof. unfold float_or. destruct (float_ t); reflexivity. Qed.

Lemma try_int t dflt :
  try_except (of_option (Py.int_ t)) (Ok dflt) = Ok (int_or dflt t).
Proof. unfold int_or. destruct (Py.int_ t); reflexivity. Qed.

(** ** Herd members and weight multipliers *)

Lemma herd_get_data self :
  HerdPokemonEditor.get_data self = Ok (ExeHerd.encoded self).
Proof.
  unfold HerdPokemonEditor.get_data, ExeHerd.encoded.
  rewrite try_float_set. cbn [bind].
  destruct (Py.int_ (HerdPokemonEditor.max_times_var self)) as [mt|];
    cbn [of_option bind try_except];
    try destruct (mt >? 0)%Z;
    destruct (Py.str_truthy (Py.strip (HerdPokemonEditor.offset_var self)));
    reflexivity.
Qed.

Lemma herd_get_data_total self :
  exists d, HerdPokemonEditor.get_data self = Ok d.
Proof. rewrite herd_get_data. eauto. Qed.

Lemma wm_get_data self :
  WeightMultiplierEditor.get_data self
  = Ok [("multiplier",
         JFloat (float_or 1.0%float (WeightMultiplierEditor.mult_var self)));
        ("condition",
         JObj (Py.update []
                 (ExeEntries.entries (WeightMultiplierEditor.cond_editor self))))].
Proof.
  unfold WeightMultiplierEditor.get_data.
  rewrite try_float. simpl bind.
  now rewrite ExeFacts.get_data_entries.
Qed.

Lemma wm_get_data_total self :
  exists d, WeightMultiplierEditor.get_data self = Ok d.
Proof. rewrite wm_get_data. eauto. Qed.

(** ** Drops *)

Lemma collect_entry_encoded entries wd :
  DropsEditor.collect_entry entries wd = Ok (entries ++ ExeDrops.encoded wd).
Proof.
  unfold DropsEditor.collect_entry, ExeDrops.encoded.
  destruct (Py.str_truthy (Py.strip (DropsEditor.item wd))); simpl.
  2:{ now rewrite app_nil_r. }
  destruct (Py.str_truthy (Py.strip (DropsEditor.qr wd)));
    destruct (float_ (DropsEditor.pct wd)) as [pct|]; simpl;
    try destruct (PrimFloat.ltb 0 pct); reflexivity.
Qed.

Lemma fold_collect_entry ws entries :
  foldM DropsEditor.collect_entry ws entries
  = Ok (entries ++ flat_map ExeDrops.encoded ws).
Proof.
  revert entries. induction ws as [|wd ws IH]; intros entries; simpl.
  - now rewrite app_nil_r.
  - rewrite collect_entry_encoded. simpl. rewrite IH. now rewrite <- app_assoc.
Qed.

Lemma drops_get_data self :
  DropsEditor.get_data self =
  Ok (if negb (DropsEditor.enabled_var self) then None
      else Some [("amount", JInt (int_or 1 (DropsEditor.amount_var self)));
                 ("entries",
                  JList (flat_map ExeDrops.encoded
                           (DropsEditor.entry_widgets self)))]).
Proof.
  unfold DropsEditor.get_data.
  destruct (negb (DropsEditor.enabled_var self)); [reflexivity|].
  rewrite try_int. simpl bind. now rewrite fold_collect_entry.
Qed.

Lemma encoded_items ws :
  map ExeDrops.item_of (flat_map ExeDrops.encoded ws)
  = map (fun wd => Some (JStr (Py.strip (DropsEditor.item wd))))
        (filter (fun wd => Py.str_truthy (Py.strip (DropsEditor.item wd))) ws).
Proof.
  induction ws as [|wd ws IH]; [reflexivity|].
  cbn [flat_map filter]. unfold ExeDrops.encoded at 1. cbv zeta.
  destruct (Py.str_truthy (Py.strip (DropsEditor.item wd))) eqn:E.
  - cbn [app map]. rewrite IH. f_equal. unfold ExeDrops.item_of.
    rewrite PyFacts.get_update_notin; [reflexivity|].
    simpl. intros [Heq|[Heq|[]]]; discriminate.
  - cbn [app]. exact IH.
Qed.

(** ** The spawn editor *)

Lemma get_data_spec self :
  exists herd wm_data,
    mapM WeightMultiplierEditor.get_data (SpawnEditor.wm_editors self)
    = Ok wm_data /\
    mapM HerdPokemonEditor.get_data (SpawnEditor.herd_editors self) = Ok herd /\
    SpawnEditor.get_data self =
    Ok (Py.update (ExeSpawn.base self)
          (ExeSpawn.entries self
             (float_or 1.0%float (SpawnEditor.weight_var self))
             (int_or 5 (SpawnEditor.herd_size_var self))
             (float_or 1.5%float (SpawnEditor.herd_dist_var self))
             herd wm_data
             (Py.update [] (ExeEntries.entries (SpawnEditor.cond_editor self)))
             (Py.update [] (ExeEntries.entries (SpawnEditor.anti_editor self)))
             (if negb (DropsEditor.enabled_var (SpawnEditor.drops_editor self))
              then None
              else Some [("amount",
                          JInt (int_or 1 (DropsEditor.amount_var
                                            (SpawnEditor.drops_editor self))));
                         ("entries",
                          JList (flat_map ExeDrops.encoded
                                   (DropsEditor.entry_widgets
                                      (SpawnEditor.drops_editor self))))]))).
Proof.
  destruct (mapM_total WeightMultiplierEditor.get_data
              (SpawnEditor.wm_editors self) wm_get_data_total) as [wm_data Hwm].
  destruct (mapM_total HerdPokemonEditor.get_data
              (SpawnEditor.herd_editors self) herd_get_data_total) as [herd Hh].
  exists herd, wm_data. split; [assumption|]. split; [assumption|].
  unfold SpawnEditor.get_data, ExeSpawn.entries, ExeSpawn.base, ExeSpawn.is_herd.
  rewrite try_float_set. cbn [bind].
  destruct (String.eqb (SpawnEditor.type_var self) "pokemon-herd");
    cbn [negb].
  - rewrite try_int_set. cbn [bind]. rewrite try_float_set. cbn [bind].
    rewrite Hh. cbn [bind]. rewrite Hwm. cbn [bind].
    rewrite !ExeFacts.get_data_entries. cbn [bind].
    rewrite drops_get_data. cbn [bind].
    destruct (SpawnEditor.presets_list self), wm_data,
      (Py.update [] (ExeEntries.entries (SpawnEditor.cond_editor self))),
      (Py.update [] (ExeEntries.entries (SpawnEditor.anti_editor self))),
      (negb (DropsEditor.enabled_var (SpawnEditor.drops_editor self)));
      reflexivity.
  - rewrite Hwm. cbn [bind].
    rewrite !ExeFacts.get_data_entries. cbn [bind].
    rewrite drops_get_data. cbn [bind].
    destruct (SpawnEditor.presets_list self), wm_data,
      (Py.update [] (ExeEntries.entries (SpawnEditor.cond_editor self))),
      (Py.update [] (ExeEntries.entries (SpawnEditor.anti_editor self))),
      (negb (DropsEditor.enabled_var (SpawnEditor.drops_editor self)));
      reflexivity.
Qed.

Lemma NoDup_entries self weight size dist herd wm_data cond anti drops :
  NoDup (map fst (ExeSpawn.entries self weight size dist herd wm_data
                    cond anti drops)).
Proof.
  unfold ExeSpawn.entries. destruct (ExeSpawn.is_herd self);
    apply PyFacts.nodupb_NoDup; reflexivity.
Qed.

(** Reading a key of the collected spawn. *)
Lemma lookup self weight size dist herd wm_data cond anti drops k :
  Py.get (Py.update (ExeSpawn.base self)
            (ExeSpawn.entries self weight size dist herd wm_data
               cond anti drops)) k
  = match Py.assoc k (ExeSpawn.entries self weight size dist herd wm_data
                        cond anti drops) with
    | Some (Some v) => Some v
    | _ => Py.get (ExeSpawn.base self) k
    end.
Proof. apply PyFacts.get_update, NoDup_entries. Qed.

End Facts.

End ExeSpawnFacts.

(* ===================================================================== *)
(** * [render_spawn] of [app.py]: lemmas *)
(* ===================================================================== *)

Module AppSpawnFacts.
Import App.

Lemma bind_reads {A B} (f : session -> A) (k : A -> M B) ss :
  bindM (reads f) k ss = k (f ss) ss.
Proof. reflexivity. Qed.

Lemma bind_lift {A B} (o : option A) (k : A -> M B) ss :
  bindM (lift o) k ss
  = match o with Some a => k a ss | None => OutOfSchema end.
Proof. unfold bindM, lift. now destruct o. Qed.

Lemma bind_read_opt {A B} (f : session -> option A) (k : A -> M B) ss :
  bindM (fun ss => lift (f ss) ss) k ss
  = match f ss with Some a => k a ss | None => OutOfSchema end.
Proof. unfold bindM, lift. now destruct (f ss). Qed.

Lemma bind_ret {A B} (a : A) (k : A -> M B) ss : bindM (ret a) k ss = k a ss.
Proof. reflexivity. Qed.

Lemma bind_inv {A B} (c : M A) (k : A -> M B) ss r ss' :
  bindM c k ss = Done r ss' ->
  exists a s1, c ss = Done a s1 /\ k a s1 = Done r ss'.
Proof.
  unfold bindM. destruct (c ss) as [a s1| |]; try discriminate. eauto.
Qed.

Section Facts.
Context `{PyFloat}.

Lemma herd_fields_inv names spawn key_prefix result ss r ss' :
  herd_fields names spawn key_prefix result ss = Done r ss' ->
  exists size dist herd,
    r = Py.set (Py.set (Py.set result "maxHerdSize" (JInt size))
                  "minDistanceBetweenSpawns" (JFloat dist))
          "herdablePokemon" (JList herd).
Proof.
  unfold herd_fields. rewrite bind_lift.
  destruct (n <~ int_of _ ;; _) as [size0|]; [|discriminate].
  rewrite bind_read_opt.
  destruct (number_input_int _ _ _) as [size|]; [|discriminate].
  rewrite bind_lift.
  destruct (float_of _) as [dist0|]; [|discriminate].
  rewrite bind_read_opt.
  destruct (number_input_float _ _ _) as [dist|]; [|discriminate].
  rewrite bind_lift.
  destruct (as_list _) as [herd_list|]; [|discriminate].
  intros Hr. apply bind_inv in Hr as (herd & s1 & _ & Hr).
  injection Hr as <- _. eauto.
Qed.

(** A run of [render_spawn] that returns a spawn returns [finish] of the
    assignments [entries], for the values its widgets and sub-forms gave. *)
Lemma render_spawn_inv names spawn key_prefix ss d del ss' :
  render_spawn names spawn key_prefix ss = Done (Some d, del) ss' ->
  exists id pokemon sel pos bucket level weight size dist herd
         wm_list wms c cond a anti drops s1 s2,
    let type := selectbox ss (key_prefix ++ "_type") SPAWN_TYPES
                  (index_or_0 (Py.get_or spawn "type" (JStr "pokemon"))
                     SPAWN_TYPES) in
    as_list (weight_multipliers spawn) = Some wm_list /\
    render_slots render_weight_multiplier wm_list default_weight_multiplier
      (key_prefix ++ "_wms") (key_prefix ++ "_wm_count")
      (key_prefix ++ "_add_wms") s1 = Done wms s2 /\
    as_dict (Py.get_or spawn "condition" (JObj [])) = Some c /\
    render_condition s2 c (key_prefix ++ "_cond") = Some cond /\
    as_dict (Py.get_or spawn "anticondition" (JObj [])) = Some a /\
    render_condition s2 a (key_prefix ++ "_anti") = Some anti /\
    d = AppSpawn.finish
          (Py.update []
             (AppSpawn.entries id type pokemon sel pos bucket level weight
                size dist herd wms cond anti drops)).
Proof.
  unfold render_spawn. rewrite bind_reads.
  destruct (checkbox ss _ false); [discriminate|].
  rewrite bind_lift. destruct (as_str _) as [id0|]; [|discriminate].
  rewrite !bind_reads.
  set (type := selectbox ss (key_prefix ++ "_type") SPAWN_TYPES _).
  set (is_herd := match type with
                  | Some t => String.eqb t "pokemon-herd" | None => false
                  end).
  intros Hr. apply bind_inv in Hr as (r1 & s0 & Hpoke & Hr).
  assert (Hs0 : s0 = ss /\
                exists pokemon,
                  r1 = Py.update []
                         [("id", Some (JStr (text_input ss (key_prefix ++ "_id") id0)));
                          ("type", Some (opt_str type));
                          ("pokemon", if negb is_herd then Some (JStr pokemon)
                                      else None)]).
  { destruct is_herd; cbn [negb] in Hpoke.
    - injection Hpoke as <- <-. split; [reflexivity|]. exists "". reflexivity.
    - rewrite bind_lift in Hpoke.
      destruct (as_str _) as [p0|]; [|discriminate].
      rewrite bind_reads in Hpoke. injection Hpoke as <- <-.
      split; [reflexivity|]. eexists. reflexivity. }
  destruct Hs0 as (-> & pokemon & ->). clear Hpoke.
  rewrite bind_lift in Hr.
  destruct (l <~ as_list _ ;; traverse as_str l) as [presets|]; [|discriminate].
  rewrite !bind_reads, bind_lift in Hr.
  destruct (as_str _) as [level0|] in Hr; [|discriminate].
  rewrite bind_reads, bind_lift in Hr.
  destruct (float_of _) as [weight0|] in Hr; [|discriminate].
  rewrite bind_read_opt in Hr.
  destruct (number_input_float ss _ weight0) as [weight|] in Hr;
    [|discriminate].
  apply bind_inv in Hr as (r2 & s1 & Hherd & Hr).
  rewrite bind_lift in Hr.
  destruct (as_list (weight_multipliers spawn)) as [wm_list|] eqn:Ewm;
    [|discriminate].
  apply bind_inv in Hr as (wms & s2 & Hwms & Hr).
  rewrite bind_lift in Hr.
  destruct (as_dict (Py.get_or spawn "condition" _)) as [c|] eqn:Ec;
    [|discriminate].
  rewrite bind_read_opt in Hr.
  destruct (render_condition s2 c _) as [cond|] eqn:Econd; [|discriminate].
  rewrite bind_lift in Hr.
  destruct (as_dict (Py.get_or spawn "anticondition" _)) as [a|] eqn:Ea;
    [|discriminate].
  rewrite bind_read_opt in Hr.
  destruct (render_condition s2 a _) as [anti|] eqn:Eanti; [|discriminate].
  apply bind_inv in Hr as (drops & s3 & _ & Hr).
  assert (Hd : exists size dist herd,
             r2 = Py.update []
                    (firstn 11 (AppSpawn.entries
                       (text_input ss (key_prefix ++ "_id") id0) type pokemon
                       (multiselect ss (key_prefix ++ "_presets") presets)
                       (selectbox ss (key_prefix ++ "_pos") POSITION_TYPES
                          (index_or_0 (Py.get_or spawn "spawnablePositionType"
                                         (JStr "grounded")) POSITION_TYPES))
                       (selectbox ss (key_prefix ++ "_bucket") BUCKETS
                          (index_or_0 (Py.get_or spawn "bucket" (JStr "common"))
                             BUCKETS))
                       (text_input ss (key_prefix ++ "_level") level0)
                       weight size dist herd [] [] [] None))).
  { unfold AppSpawn.entries, AppSpawn.is_herd. fold is_herd.
    destruct is_herd; cbn [negb] in *.
    - apply herd_fields_inv in Hherd as (size & dist & herd & ->).
      exists size, dist, herd. reflexivity.
    - injection Hherd as <- _. exists 0%Z, 0%float, []. reflexivity. }
  destruct Hd as (size & dist & herd & ->).
  exists (text_input ss (key_prefix ++ "_id") id0), pokemon,
    (multiselect ss (key_prefix ++ "_presets") presets),
    (selectbox ss (key_prefix ++ "_pos") POSITION_TYPES
       (index_or_0 (Py.get_or spawn "spawnablePositionType" (JStr "grounded"))
          POSITION_TYPES)),
    (selectbox ss (key_prefix ++ "_bucket") BUCKETS
       (index_or_0 (Py.get_or spawn "bucket" (JStr "common")) BUCKETS)),
    (text_input ss (key_prefix ++ "_level") level0), weight,
    size, dist, herd, wm_list, wms, c, cond, a, anti, drops, s1, s2.
  cbv zeta. fold type.
  repeat (split; [first [assumption|reflexivity]|]).
  injection Hr as <- _ _.
  unfold AppSpawn.entries, AppSpawn.is_herd. fold is_herd.
  destruct is_herd, wms, drops; reflexivity.
Qed.

End Facts.

End AppSpawnFacts.

(* ===================================================================== *)
(** * Drops and weight multipliers: lemmas *)
(* ===================================================================== *)

Lemma mapM_length {A B} (f : A -> exc B) l r :
  mapM f l = Ok r -> length r = length l.
Proof.
  revert r. induction l as [|x l IH]; simpl; intros r.
  - now intros [= <-].
  - destruct (f x) as [y|]; [|discriminate]. simpl.
    destruct (mapM f l) as [ys|]; [|discriminate]. simpl.
    intros [= <-]. simpl. f_equal. now apply IH.
Qed.

Module DropsFacts.

(** A weight multiplier of the schema is rendered, in every session whose
    numbers are the browser's. *)
Lemma render_weight_multiplier_total `{PyFloat} ss wm key_prefix :
  App.in_range ss -> Raw.multiplier_ok wm = true ->
  exists mult c cond,
    as_dict (Py.get_or wm "condition" (JObj [])) = Some c /\
    App.render_condition ss c (key_prefix ++ "_mc") = Some cond /\
    App.render_weight_multiplier ss wm key_prefix
    = Some [("multiplier", JFloat mult); ("condition", JObj cond)].
Proof.
  intros Hr Hok. unfold Raw.multiplier_ok in Hok.
  apply andb_true_iff in Hok as [Hm Hc].
  unfold App.render_weight_multiplier.
  destruct (App.float_of _) as [value|]; [|discriminate].
  destruct (AppFacts.number_input_float_ok ss (key_prefix ++ "_mult") value
              Hr Hm) as (mult & -> & _).
  destruct (Py.get_or wm "condition" (JObj [])) as [| | | | | |c];
    try discriminate.
  apply andb_true_iff in Hc as [Hwt Hs].
  cbn [as_dict].
  rewrite (AppFacts.render_condition_total ss c _ Hr Hwt Hs).
  exists mult, c. eexists. split; [reflexivity|].
  split; [now apply AppFacts.render_condition_total|reflexivity].
Qed.

Lemma encoded_has_item `{PyFloat} ws :
  Forall (fun e => ExeDrops.has_item e = true) (flat_map ExeDrops.encoded ws).
Proof.
  induction ws as [|wd ws IH]; [constructor|].
  cbn [flat_map]. apply Forall_app. split; [|exact IH].
  unfold ExeDrops.encoded. cbv zeta.
  destruct (Py.str_truthy (Py.strip (Exe.DropsEditor.item wd))) eqn:E;
    constructor; [|constructor].
  unfold ExeDrops.has_item, ExeDrops.item_of.
  rewrite PyFacts.get_update_notin; [simpl; exact E|].
  simpl. intros [Heq|[Heq|[]]]; discriminate.
Qed.

(** One turn of the loop of [render_drops] adds nothing, or one entry that
    has an item. *)
Lemma render_entry_step ss file_entries key_prefix updated to_delete ei acc :
  App.render_entry ss file_entries key_prefix (updated, to_delete) ei = Some acc ->
  fst acc = updated \/
  exists e, fst acc = updated ++ [e] /\ ExeDrops.has_item e = true.
Proof.
  unfold App.render_entry.
  destruct (App.item_at _ _ _) as [entry|]; [|discriminate].
  destruct (as_str (Py.get_or entry "item" _)) as [item0|]; [|discriminate].
  destruct (as_str (Py.get_or entry "quantityRange" _)) as [qr0|]; [|discriminate].
  destruct (App.float_of _) as [pct0|]; [|discriminate].
  destruct (App.number_input_float _ _ _) as [pct|]; [|discriminate].
  destruct (App.checkbox _ _ _); [intros [= <-]; auto|].
  destruct (Py.str_truthy (App.text_input ss _ item0)) eqn:E;
    intros [= <-]; [|auto].
  right. eexists. split; [reflexivity|].
  unfold ExeDrops.has_item, ExeDrops.item_of.
  destruct (Py.str_truthy (App.text_input ss _ qr0));
    destruct (PrimFloat.ltb _ _); simpl; exact E.
Qed.

Lemma render_entries_have_items ss file_entries key_prefix l acc acc' :
  App.foldO (App.render_entry ss file_entries key_prefix) l acc = Some acc' ->
  Forall (fun e => ExeDrops.has_item e = true) (fst acc) ->
  Forall (fun e => ExeDrops.has_item e = true) (fst acc').
Proof.
  revert acc. induction l as [|ei l IH]; simpl; intros [updated to_delete].
  - now intros [= <-].
  - destruct (App.render_entry _ _ _ _ ei) as [acc1|] eqn:E; [|discriminate].
    intros Hl Hall. apply (IH acc1 Hl).
    apply render_entry_step in E as [->|(e & -> & He)]; auto.
    apply Forall_app. auto.
Qed.

Lemma render_drops_inv drops key_prefix ss d ss' :
  App.render_drops drops key_prefix ss = App.Done (Some d) ss' ->
  exists amount entries,
    d = [("amount", JInt amount); ("entries", JList entries)] /\
    Forall (fun e => ExeDrops.has_item e = true) entries.
Proof.
  unfold App.render_drops. rewrite AppSpawnFacts.bind_reads.
  destruct (negb _); [discriminate|].
  rewrite AppSpawnFacts.bind_lift.
  destruct (match drops with
            | Some JNull | None => Some App.default_drops
            | Some v => as_dict v
            end) as [dr|]; [|discriminate].
  rewrite AppSpawnFacts.bind_lift.
  destruct (as_list _) as [file_entries|]; [|discriminate].
  intros Hr. apply AppSpawnFacts.bind_inv in Hr as (n & s1 & _ & Hr).
  rewrite AppSpawnFacts.bind_lift in Hr.
  destruct (a <~ App.int_of _ ;; _) as [amount0|]; [|discriminate].
  rewrite AppSpawnFacts.bind_read_opt in Hr.
  destruct (App.number_input_int _ _ _) as [amount|] in Hr; [|discriminate].
  rewrite AppSpawnFacts.bind_read_opt in Hr.
  destruct (App.foldO _ _ _) as [[updated to_delete]|] eqn:El; [|discriminate].
  apply render_entries_have_items in El; [|constructor].
  destruct to_delete.
  - rewrite AppSpawnFacts.bind_reads in Hr.
    destruct (App.button _ _); [discriminate|].
    injection Hr as <- _. eauto.
  - discriminate.
Qed.

End DropsFacts.

(* ===================================================================== *)
(** * The condition codec *)
(* ===================================================================== *)

Section ConditionCodec.
Import Exe.ConditionEditor.




(** C6 (as stated, refuted): in the desktop editor a field the record had
    an explicit value for is left out once its entry is emptied. *)
Lemma cleared_explicit_field_dropped :
  exists e,
    _build Examples.minY_five = Some e /\
    In ("minY", ("5", true)) (int_vars e) /\
    In ("minY", ("", true)) (int_vars (type_int e "minY" "")) /\
    get_data (type_int e "minY" "") = Ok [] /\
    Py.has_key [] "minY" = false.
Proof.
  eexists.
  split; [vm_compute; reflexivity|].
  split; [vm_compute; tauto|].
  split; [vm_compute; tauto|].
  split; vm_compute; reflexivity.
Qed.

Lemma int_result_spec var had_value :
  ExeEntries.int_result var had_value =
  match Py.int_ (Py.strip var) with
  | Some val =>
      if had_value || negb (val =? 0)%Z then Some (JInt val) else None
  | None => None
  end.
Proof.
  unfold ExeEntries.int_result.
  destruct (Py.strip var) eqn:E; reflexivity.
Qed.

(** C6 (amended): for every integer field of a condition, the browser form
    writes the field exactly when the record had a value for it or the
    number shown is not zero; the desktop editor writes it exactly when
    the entry's text parses as an integer and the record had a value for
    the field or that integer is not zero, so an entry left empty or unreadable
    drops the field.  In both, a field absent from the record and set
    back to zero is omitted and a field that was zero in the record is
    kept as zero. *)
Theorem int_field_presence `{PyFloat} :
  (forall ss cond key_prefix d f value had_value,
      In f CONDITION_INT_FIELDS ->
      App.render_condition ss cond key_prefix = Some d ->
      App.int_value (Py.get cond f) = Some (value, had_value) ->
      exists int_val,
        App.number_input_int ss (App.key key_prefix f) value = Some int_val /\
        Py.get d f =
        if had_value || negb (int_val =? 0)%Z then Some (JInt int_val)
        else None)
  /\
  (forall self d f var had_value,
      ExeEntries.wf self ->
      In (f, (var, had_value)) (int_vars self) ->
      get_data self = Ok d ->
      Py.get d f =
      match Py.int_ (Py.strip var) with
      | Some val =>
          if had_value || negb (val =? 0)%Z then Some (JInt val) else None
      | None => None
      end).
Proof.
  split.
  - intros ss cond key_prefix d f value had_value Hf Hr Hv.
    destruct (AppFacts.render_condition_int _ _ _ _ _ Hf Hr)
      as (value' & had' & int_val & Hv' & Hn & Hg).
    rewrite Hv in Hv'. injection Hv' as <- <-.
    exists int_val. split; [exact Hn|exact Hg].
  - intros self d f var had_value Hwf Hin Hd.
    assert (Hd' : d = Py.update [] (ExeEntries.entries self))
      by (pose proof (ExeFacts.get_data_entries self); congruence).
    subst d.
    rewrite (ExeFacts.lookup_int _ _ _ _ Hwf Hin). apply int_result_spec.
Qed.

Lemma int_field_presence_witness :
  (In "minY" CONDITION_INT_FIELDS /\
   App.render_condition App.fresh Examples.minY_five "k"
   = Some [("minY", JInt 5)] /\
   App.int_value (Py.get Examples.minY_five "minY") = Some (5%Z, true) /\
   Py.get [("minY", JInt 5)] "minY" = Some (JInt 5))
  /\
  (ExeEntries.wf (ExeShape.shape Examples.minY_five) /\
   In ("minY", ("5", true)) (int_vars (ExeShape.shape Examples.minY_five)) /\
   get_data (ExeShape.shape Examples.minY_five) = Ok [("minY", JInt 5)] /\
   Py.get [("minY", JInt 5)] "minY" = Some (JInt 5)).
Proof.
  assert (Hin : In "minY" CONDITION_INT_FIELDS) by (vm_compute; tauto).
  assert (Hin' : In ("minY", ("5", true))
                    (int_vars (ExeShape.shape Examples.minY_five)))
    by (vm_compute; tauto).
  assert (Hr : App.render_condition App.fresh Examples.minY_five "k"
               = Some [("minY", JInt 5)]) by (vm_compute; reflexivity).
  assert (Hv : App.int_value (Py.get Examples.minY_five "minY")
               = Some (5%Z, true)) by (vm_compute; reflexivity).
  assert (Hd : get_data (ExeShape.shape Examples.minY_five)
               = Ok [("minY", JInt 5)]) by (vm_compute; reflexivity).
  destruct int_field_presence as [Happ Hexe].
  split.
  - split; [exact Hin|]. split; [exact Hr|]. split; [exact Hv|].
    destruct (Happ App.fresh Examples.minY_five "k" _ "minY" 5%Z true
                Hin Hr Hv) as (int_val & Hn & Hg).
    injection Hn as <-. exact Hg.
  - split; [apply ExeFacts.wf_shape|]. split; [exact Hin'|].
    split; [exact Hd|].
    exact (Hexe (ExeShape.shape Examples.minY_five) _ "minY" "5" true
             (ExeFacts.wf_shape _) Hin' Hd).
Defined.

(** C9 (as stated, refuted): the desktop editor turns the numeric moon
    phase [3] into the text ["3"], but neither that text nor the time
    range ["brunch"] falls back to the empty choice: both stay in the
    variables and are written back. *)
Lemma unknown_enum_kept_by_editor :
  exists e d,
    _build Examples.odd_enums = Some e /\
    moon_var e = "3" /\ Py.mem (moon_var e) MOON_PHASES = false /\
    time_var e = "brunch" /\ Py.mem (time_var e) TIME_RANGES = false /\
    get_data e = Ok d /\
    Py.get d "moonPhase" = Some (JStr "3") /\
    Py.get d "timeRange" = Some (JStr "brunch").
Proof.
  eexists. eexists.
  split; [vm_compute; reflexivity|].
  repeat split; vm_compute; reflexivity.
Qed.

(** C9 (amended): decoding takes the string form of [moonPhase] in both
    front-ends.  The browser form then shows that string, or the time
    range, only when it belongs to the vocabulary and the empty choice
    otherwise.  The desktop editor keeps the string as it is, in
    the vocabulary or not, and writes every non-empty one back. *)
Theorem enum_decoding `{PyFloat} :
  (forall cond key_prefix w,
      App.widgets_of App.fresh cond key_prefix = Some w ->
      exists moon,
        Py.str (Py.get_or cond "moonPhase" (JStr "")) = Some moon /\
        App.moon_val w = Some (if Py.mem moon MOON_PHASES then moon else "") /\
        App.time_val w =
        Some match Py.get_or cond "timeRange" (JStr "") with
             | JStr t => if Py.mem t TIME_RANGES then t else ""
             | _ => ""
             end)
  /\
  (forall cond e d,
      _build cond = Some e ->
      get_data e = Ok d ->
      Py.str (Py.get_or cond "moonPhase" (JStr "")) = Some (moon_var e) /\
      Exe.StringVar (Py.get_or cond "timeRange" (JStr "")) = Some (time_var e) /\
      Py.get d "moonPhase" =
      (if Py.str_truthy (moon_var e) then Some (JStr (moon_var e)) else None) /\
      Py.get d "timeRange" =
      (if Py.str_truthy (time_var e) then Some (JStr (time_var e)) else None)).
Proof.
  split.
  - intros cond key_prefix w. unfold App.widgets_of, App.moon_index.
    destruct (Py.str _) as [moon|]; [|discriminate].
    destruct (traverse _ CONDITION_BOOL_FIELDS); [|discriminate].
    destruct (traverse _ CONDITION_INT_FIELDS); [|discriminate].
    destruct (traverse _ CONDITION_LIST_FIELDS); [|discriminate].
    destruct (traverse _ CONDITION_STRING_FIELDS); [|discriminate].
    intros [= <-]. exists moon. split; [reflexivity|].
    cbn [App.moon_val App.time_val]. unfold App.selectbox.
    cbn [App.text_state App.fresh]. split.
    + refine (AppFacts.select_pick MOON_PHASES moon _). discriminate.
    + unfold App.time_index. destruct (Py.get_or cond "timeRange" _);
        try reflexivity.
      refine (AppFacts.select_pick TIME_RANGES s _). discriminate.
  - intros cond e d Hb Hd. pose proof (BlankFacts.build_wf _ _ Hb) as Hwf.
    assert (Hd' : d = Py.update [] (ExeEntries.entries e))
      by (pose proof (ExeFacts.get_data_entries e); congruence).
    subst d.
    rewrite (ExeFacts.lookup_moon _ Hwf), (ExeFacts.lookup_time _ Hwf).
    unfold _build in Hb.
    destruct (Exe.StringVar _) as [time|]; [|discriminate].
    destruct (Py.str _) as [moon|]; [|discriminate].
    destruct (traverse _ CONDITION_BOOL_FIELDS); [|discriminate].
    destruct (traverse _ CONDITION_INT_FIELDS); [|discriminate].
    destruct (traverse _ CONDITION_LIST_FIELDS); [|discriminate].
    destruct (traverse _ CONDITION_STRING_FIELDS); [|discriminate].
    injection Hb as <-. simpl. auto.
Qed.

Lemma enum_decoding_witness :
  (exists w,
      App.widgets_of App.fresh Examples.odd_enums "k" = Some w /\
      App.moon_val w = Some "" /\ App.time_val w = Some "")
  /\
  (exists e d,
      _build Examples.odd_enums = Some e /\ get_data e = Ok d /\
      Py.str (JInt 3) = Some (moon_var e) /\
      Py.get d "moonPhase" = Some (JStr "3")).
Proof.
  destruct enum_decoding as [Happ Hexe]. split.
  - eexists. split; [reflexivity|].
    destruct (Happ Examples.odd_enums "k" _ eq_refl) as (moon & Hm & Hmv & Htv).
    injection Hm as <-. split; [exact Hmv|exact Htv].
  - eexists. eexists. split; [reflexivity|]. split; [reflexivity|].
    destruct (Hexe Examples.odd_enums _ _ eq_refl eq_refl) as (Hm & _ & Hd & _).
    split; [exact Hm|exact Hd].
Defined.

End ConditionCodec.

(* ===================================================================== *)
(** * The spawn record codec *)
(* ===================================================================== *)

Section SpawnCodec.
Import Exe.

Lemma has_key_get d k : Py.has_key d k = false <-> Py.get d k = None.
Proof. unfold Py.has_key. destruct (Py.get d k); split; congruence. Qed.

(** C3 (as stated, refuted): a zero that the record spells out is kept.
    The condition [{"minY": 0}] shows nothing but zero, false and empty
    values in either form, yet it is collected as [{"minY": 0}], not as the
    empty object, and the spawn that holds it keeps its [condition] key. *)
Lemma explicit_zero_kept :
  (exists e,
      ConditionEditor._build Examples.minY_zero = Some e /\
      ConditionEditor.time_var e = "" /\ ConditionEditor.moon_var e = "" /\
      Forall (fun x => snd x = false) (ConditionEditor.bool_vars e) /\
      Forall (fun x => int_or 0 (fst (snd x)) = 0%Z)
             (ConditionEditor.int_vars e) /\
      Forall (fun x => snd x = "") (ConditionEditor.list_texts e) /\
      Forall (fun x => snd x = "") (ConditionEditor.str_vars e) /\
      ConditionEditor.get_data e = Ok [("minY", JInt 0)])
  /\
  (exists w,
      App.widgets_of App.fresh Examples.minY_zero "k" = Some w /\
      App.time_val w = Some "" /\ App.moon_val w = Some "" /\
      Forall (fun x => snd x = false) (App.bool_vals w) /\
      Forall (fun x => fst (snd x) = 0%Z) (App.int_vals w) /\
      Forall (fun x => snd x = "") (App.list_vals w) /\
      Forall (fun x => snd x = "") (App.str_vals w) /\
      App.render_condition App.fresh Examples.minY_zero "k"
      = Some [("minY", JInt 0)])
  /\
  (exists self d,
      SpawnEditor._build Examples.zero_condition = Some self /\
      SpawnEditor.get_data self = Ok d /\
      Py.get d "condition" = Some (JObj [("minY", JInt 0)]))
  /\
  (exists d ss',
      App.render_spawn [] Examples.zero_condition "k" App.fresh
      = App.Done (Some d, false) ss' /\
      Py.get d "condition" = Some (JObj [("minY", JInt 0)])).
Proof.
  split; [|split; [|split]].
  - eexists. split; [vm_compute; reflexivity|].
    split; [reflexivity|]. split; [reflexivity|].
    split; [repeat constructor|].
    split; [repeat (apply Forall_cons; [vm_compute; reflexivity|]);
            apply Forall_nil|].
    split; [repeat constructor|]. split; [repeat constructor|].
    vm_compute; reflexivity.
  - eexists. split; [vm_compute; reflexivity|].
    split; [reflexivity|]. split; [reflexivity|].
    split; [repeat constructor|]. split; [repeat constructor|].
    split; [repeat constructor|]. split; [repeat constructor|].
    vm_compute; reflexivity.
  - eexists. eexists. split; [vm_compute; reflexivity|].
    split; vm_compute; reflexivity.
  - eexists. eexists. split; vm_compute; reflexivity.
Qed.



(** ** Weight multipliers *)

Ltac step_option :=
  lazymatch goal with
  | |- match ?x with Some _ => _ | None => _ end = Some _ -> _ =>
      destruct x eqn:?; [|discriminate]
  end.

Lemma build_wm_editors `{PyFloat} spawn self :
  SpawnEditor._build spawn = Some self ->
  exists l,
    as_list (SpawnEditor.weight_multipliers spawn) = Some l /\
    traverse SpawnEditor._add_weight_multiplier l
    = Some (SpawnEditor.wm_editors self).
Proof.
  unfold SpawnEditor._build. cbv zeta.
  do 11 step_option.
  destruct (as_list (SpawnEditor.weight_multipliers spawn)) as [wl|] eqn:El;
    [|discriminate].
  destruct (traverse SpawnEditor._add_weight_multiplier wl) as [ws|] eqn:Et;
    [|discriminate].
  do 3 step_option.
  intros [= <-]. exists wl. auto.
Qed.

Lemma singular_as_list (weight_multipliers : dict -> json) spawn single :
  (forall spawn,
      weight_multipliers spawn =
      let single := Py.get_or spawn "weightMultiplier" JNull in
      let wms := Py.get_or spawn "weightMultipliers" (JList []) in
      if Py.truthy single && negb (Py.truthy wms) then JList [single] else wms) ->
  Py.get spawn "weightMultiplier" = Some single ->
  Py.truthy single = true ->
  Py.truthy (Py.get_or spawn "weightMultipliers" (JList [])) = false ->
  weight_multipliers spawn = JList [single].
Proof.
  intros Hdef Hs Hm Hp. rewrite Hdef. cbv zeta. rewrite Hp.
  unfold Py.get_or at 1 2. rewrite Hs, Hm. reflexivity.
Qed.

Lemma singular_ignored (weight_multipliers : dict -> json) spawn :
  (forall spawn,
      weight_multipliers spawn =
      let single := Py.get_or spawn "weightMultiplier" JNull in
      let wms := Py.get_or spawn "weightMultipliers" (JList []) in
      if Py.truthy single && negb (Py.truthy wms) then JList [single] else wms) ->
  Py.truthy (Py.get_or spawn "weightMultiplier" JNull) = false ->
  weight_multipliers spawn = Py.get_or spawn "weightMultipliers" (JList []).
Proof. intros Hdef Hs. rewrite Hdef. cbv zeta. now rewrite Hs. Qed.

(** C4 (as stated, refuted): a singular [weightMultiplier] that is present
    but empty is not read as a one-element list.  Both front-ends test the
    value, not the key: with [{}] for it and no [weightMultipliers] they
    read no multiplier at all, the desktop editor makes no multiplier
    editor and the browser form writes no [weightMultipliers]. *)
Lemma empty_singular_dropped :
  Py.get Examples.empty_singular "weightMultiplier" = Some (JObj []) /\
  Py.get Examples.empty_singular "weightMultipliers" = None /\
  SpawnEditor.weight_multipliers Examples.empty_singular = JList [] /\
  App.weight_multipliers Examples.empty_singular = JList [] /\
  (exists self,
      SpawnEditor._build Examples.empty_singular = Some self /\
      SpawnEditor.wm_editors self = []) /\
  (exists d ss',
      App.render_spawn ["pidgey"] Examples.empty_singular "k" App.fresh
      = App.Done (Some d, false) ss' /\
      Py.has_key d "weightMultipliers" = false).
Proof.
  do 4 (split; [reflexivity|]). split.
  - eexists. split; [vm_compute; reflexivity|reflexivity].
  - eexists. eexists. split; vm_compute; reflexivity.
Qed.





(** ** Numeric entries *)

(** C7: collecting an editor never raises, whatever text its numeric
    entries hold.  What is collected is the record of the other entries
    with, for each numeric entry, the number its text reads as, or the
    default where the text does not parse: 1.0 for the weight of a spawn
    and of a herd member, 1.0 for a multiplier, 1 for the drop amount (and
    5 and 1.5 for the size and the distance of a herd).  So a text that
    does not parse changes nothing but its own key. *)
Theorem malformed_numbers_fall_back `{PyFloat} :
  (forall text dflt, float_ text = None -> float_or dflt text = dflt)
  /\
  (forall text dflt, Py.int_ text = None -> int_or dflt text = dflt)
  /\
  (forall self,
      exists herd wm_data cond anti drops,
        mapM HerdPokemonEditor.get_data (SpawnEditor.herd_editors self)
        = Ok herd /\
        mapM WeightMultiplierEditor.get_data (SpawnEditor.wm_editors self)
        = Ok wm_data /\
        ConditionEditor.get_data (SpawnEditor.cond_editor self) = Ok cond /\
        ConditionEditor.get_data (SpawnEditor.anti_editor self) = Ok anti /\
        DropsEditor.get_data (SpawnEditor.drops_editor self) = Ok drops /\
        SpawnEditor.get_data self
        = Ok (Py.update (ExeSpawn.base self)
                (ExeSpawn.entries self
                   (float_or 1.0 (SpawnEditor.weight_var self))
                   (int_or 5 (SpawnEditor.herd_size_var self))
                   (float_or 1.5 (SpawnEditor.herd_dist_var self))
                   herd wm_data cond anti drops)) /\
        (forall d, SpawnEditor.get_data self = Ok d ->
                   float_ (SpawnEditor.weight_var self) = None ->
                   Py.get d "weight" = Some (JFloat 1.0)))
  /\
  (forall self,
      exists cond,
        ConditionEditor.get_data (WeightMultiplierEditor.cond_editor self)
        = Ok cond /\
        WeightMultiplierEditor.get_data self
        = Ok [("multiplier",
               JFloat (float_or 1.0 (WeightMultiplierEditor.mult_var self)));
              ("condition", JObj cond)])
  /\
  (forall self,
      DropsEditor.get_data self
      = Ok (if negb (DropsEditor.enabled_var self) then None
            else Some [("amount",
                        JInt (int_or 1 (DropsEditor.amount_var self)));
                       ("entries",
                        JList (flat_map ExeDrops.encoded
                                 (DropsEditor.entry_widgets self)))]))
  /\
  (forall self,
      HerdPokemonEditor.get_data self = Ok (ExeHerd.encoded self) /\
      Py.get (ExeHerd.encoded self) "weight"
      = Some (JFloat (float_or 1.0 (HerdPokemonEditor.weight_var self))))
  /\
  (forall self,
      ConditionEditor.get_data self
      = Ok (Py.update [] (ExeEntries.entries self))).
Proof.
  split; [|split; [|split; [|split; [|split; [|split]]]]].
  - intros text dflt Hf. unfold float_or. now rewrite Hf.
  - intros text dflt Hi. unfold int_or. now rewrite Hi.
  - intros self.
    destruct (ExeSpawnFacts.get_data_spec self) as (herd & wm_data & Hwm & Hh & Hs).
    exists herd, wm_data. eexists. eexists. eexists.
    split; [exact Hh|]. split; [exact Hwm|].
    split; [apply ExeFacts.get_data_entries|].
    split; [apply ExeFacts.get_data_entries|].
    split; [apply ExeSpawnFacts.drops_get_data|].
    split; [exact Hs|].
    intros d Hd Hw. rewrite Hs in Hd. apply Ok_inj in Hd. subst d.
    rewrite ExeSpawnFacts.lookup. unfold ExeSpawn.entries, float_or.
    rewrite Hw. destruct (ExeSpawn.is_herd self); reflexivity.
  - intros self. eexists. split; [apply ExeFacts.get_data_entries|].
    apply ExeSpawnFacts.wm_get_data.
  - intros self. apply ExeSpawnFacts.drops_get_data.
  - intros self. split; [apply ExeSpawnFacts.herd_get_data|].
    unfold ExeHerd.encoded.
    destruct (Py.int_ (HerdPokemonEditor.max_times_var self)) as [mt|];
      try destruct (mt >? 0)%Z;
      destruct (Py.str_truthy (Py.strip (HerdPokemonEditor.offset_var self)));
      reflexivity.
  - intros self. apply ExeFacts.get_data_entries.
Qed.

Lemma malformed_numbers_fall_back_witness :
  float_ (SpawnEditor.weight_var Examples.bad_weight) = None /\
  float_ (WeightMultiplierEditor.mult_var Examples.times_two) = None /\
  Py.int_ (DropsEditor.amount_var (SpawnEditor.drops_editor Examples.bad_weight))
  = None /\
  Py.int_ (DropsEditor.amount_var Examples.separator_amount) = None /\
  SpawnEditor.get_data Examples.bad_weight
  = Ok [("id", JStr "pidgey-1"); ("type", JStr "pokemon");
        ("pokemon", JStr "pidgey"); ("spawnablePositionType", JStr "grounded");
        ("bucket", JStr "common"); ("level", JStr "1-10");
        ("weight", JFloat 1.0);
        ("drops",
         JObj [("amount", JInt 1);
               ("entries",
                JList [JObj [("item", JStr "minecraft:feather");
                             ("percentage", JFloat 2.5)]])])] /\
  WeightMultiplierEditor.get_data Examples.times_two
  = Ok [("multiplier", JFloat 1.0); ("condition", JObj [])] /\
  DropsEditor.get_data Examples.separator_amount
  = Ok (Some [("amount", JInt 1); ("entries", JList [])]).
Proof.
  assert (H1 : float_ (SpawnEditor.weight_var Examples.bad_weight) = None)
    by (vm_compute; reflexivity).
  assert (H2 : float_ (WeightMultiplierEditor.mult_var Examples.times_two) = None)
    by (vm_compute; reflexivity).
  assert (H3 : Py.int_ (DropsEditor.amount_var
                          (SpawnEditor.drops_editor Examples.bad_weight)) = None)
    by (vm_compute; reflexivity).
  assert (H4 : Py.int_ (DropsEditor.amount_var Examples.separator_amount) = None)
    by (vm_compute; reflexivity).
  destruct malformed_numbers_fall_back as (Hf & Hi & Hs & Hm & Hd & _ & _).
  repeat (split; [assumption|]).
  split; [|split].
  - destruct (Hs Examples.bad_weight)
      as (herd & wm_data & cond & anti & drops & Hh & Hw & Hc & Ha & Hdr & Hg & _).
    rewrite Hg. rewrite (Hf _ _ H1).
    assert (Eh : herd = []) by (cbn in Hh; congruence).
    assert (Ew : wm_data = []) by (cbn in Hw; congruence).
    rewrite (Hd (SpawnEditor.drops_editor Examples.bad_weight)) in Hdr.
    rewrite (Hi _ _ H3) in Hdr.
    assert (Ec : ConditionEditor.get_data Examples.blank_condition = Ok [])
      by (vm_compute; reflexivity).
    change (SpawnEditor.cond_editor Examples.bad_weight)
      with Examples.blank_condition in Hc.
    change (SpawnEditor.anti_editor Examples.bad_weight)
      with Examples.blank_condition in Ha.
    rewrite Ec in Hc, Ha.
    injection Hc as <-. injection Ha as <-. injection Hdr as <-.
    subst herd wm_data. vm_compute. reflexivity.
  - destruct (Hm Examples.times_two) as (cond & Hc & Hg).
    rewrite Hg, (Hf _ _ H2).
    assert (Ec : ConditionEditor.get_data Examples.blank_condition = Ok [])
      by (vm_compute; reflexivity).
    change (WeightMultiplierEditor.cond_editor Examples.times_two)
      with Examples.blank_condition in Hc.
    rewrite Ec in Hc. injection Hc as <-. reflexivity.
  - rewrite (Hd Examples.separator_amount), (Hi _ _ H4). reflexivity.
Defined.

(** ** The type discriminator *)

(** C8: whatever the editor held before, once the type is ["pokemon-herd"]
    the encoded spawn has neither [pokemon] nor [level], and once it is any
    other type (["pokemon"], ["npc"]) it has none of [levelRange],
    [maxHerdSize], [minDistanceBetweenSpawns] and [herdablePokemon]; in the
    desktop editor and in the browser form. *)
Theorem variant_fields `{PyFloat} :
  (forall self type d,
      SpawnEditor.get_data (SpawnEditor.select_type self type) = Ok d ->
      Py.get d "type" = Some (JStr type) /\
      (type = "pokemon-herd" ->
       Py.has_key d "pokemon" = false /\ Py.has_key d "level" = false) /\
      (type <> "pokemon-herd" ->
       Py.has_key d "levelRange" = false /\
       Py.has_key d "maxHerdSize" = false /\
       Py.has_key d "minDistanceBetweenSpawns" = false /\
       Py.has_key d "herdablePokemon" = false))
  /\
  (forall names spawn key_prefix ss d del ss',
      App.render_spawn names spawn key_prefix ss = App.Done (Some d, del) ss' ->
      exists type,
        Py.get d "type" = Some (App.opt_str type) /\
        (type = Some "pokemon-herd" ->
         Py.has_key d "pokemon" = false /\ Py.has_key d "level" = false) /\
        (type <> Some "pokemon-herd" ->
         Py.has_key d "levelRange" = false /\
         Py.has_key d "maxHerdSize" = false /\
         Py.has_key d "minDistanceBetweenSpawns" = false /\
         Py.has_key d "herdablePokemon" = false)).
Proof.
  split.
  - intros self type d Hd.
    destruct (ExeSpawnFacts.get_data_spec (SpawnEditor.select_type self type))
      as (herd & wm_data & _ & _ & Hs).
    rewrite Hs in Hd. apply Ok_inj in Hd. subst d.
    unfold Py.has_key. rewrite !ExeSpawnFacts.lookup.
    unfold ExeSpawn.entries, ExeSpawn.is_herd, ExeSpawn.base.
    cbn [SpawnEditor.type_var SpawnEditor.select_type].
    destruct (String.eqb_spec type "pokemon-herd") as [->|Hne].
    + split; [reflexivity|]. split; [intros _; split; reflexivity|].
      intros Hne. congruence.
    + split; [reflexivity|]. split; [intros Heq; congruence|].
      intros _. repeat split; reflexivity.
  - intros names spawn key_prefix ss d del ss' Hr.
    apply AppSpawnFacts.render_spawn_inv in Hr
      as (id & pokemon & sel & pos & bucket & level & weight & size & dist
          & herd & wm_list & wms & c & cond & a & anti & drops & s1 & s2 & Hr).
    cbv zeta in Hr. destruct Hr as (_ & _ & _ & _ & _ & _ & ->).
    match goal with
    | |- context [AppSpawn.entries _ ?t] => set (type := t)
    end.
    exists type. unfold Py.has_key, AppSpawn.entries.
    assert (Hh : AppSpawn.is_herd type = true <-> type = Some "pokemon-herd").
    { unfold AppSpawn.is_herd. destruct type as [t|]; [|split; discriminate].
      rewrite String.eqb_eq. split; congruence. }
    destruct (AppSpawn.is_herd type) eqn:E.
    + split; [destruct wms, drops, cond, anti, sel; reflexivity|].
      split; [intros _; split;
              destruct wms, drops, cond, anti, sel; reflexivity|].
      intros Hne. exfalso. apply Hne, Hh. reflexivity.
    + split; [destruct wms, drops, cond, anti, sel; reflexivity|].
      split; [intros Heq; apply Hh in Heq; discriminate|].
      intros _. repeat split; destruct wms, drops, cond, anti, sel; reflexivity.
Qed.

Lemma variant_fields_witness :
  SpawnEditor.get_data (SpawnEditor.select_type Examples.bad_weight "pokemon-herd")
  = Ok Examples.bad_weight_as_herd /\
  Py.has_key Examples.bad_weight_as_herd "pokemon" = false /\
  Py.has_key Examples.bad_weight_as_herd "level" = false /\
  exists ss',
    App.render_spawn ["pidgey"] Examples.pidgey "k" Examples.herd_selected
    = App.Done (Some Examples.pidgey_as_herd, false) ss' /\
    Py.has_key Examples.pidgey_as_herd "pokemon" = false /\
    Py.has_key Examples.pidgey_as_herd "level" = false.
Proof.
  assert (Hd : SpawnEditor.get_data
                 (SpawnEditor.select_type Examples.bad_weight "pokemon-herd")
               = Ok Examples.bad_weight_as_herd) by (vm_compute; reflexivity).
  destruct variant_fields as (Hexe & Happ).
  destruct (Hexe _ _ _ Hd) as (_ & Hherd & _).
  split; [exact Hd|].
  destruct (Hherd eq_refl) as [Hp Hl]. split; [exact Hp|]. split; [exact Hl|].
  eexists.
  match goal with
  | |- ?G /\ _ => assert (Hr : G) by (vm_compute; reflexivity)
  end.
  split; [exact Hr|].
  destruct (Happ _ _ _ _ _ _ _ Hr) as (type & Ht & Hh & _).
  apply Hh. destruct type as [t|]; [|discriminate Ht].
  injection Ht as <-. reflexivity.
Defined.

(** ** Drops *)

(** C10: the encoded [entries] of a drops editor are those of its rows
    whose item, stripped, is not empty, in order, whatever the other two
    entries of a row hold; and every encoded entry, of the desktop editor
    or of the browser form, has a non-empty [item]. *)
Theorem itemless_entries_dropped `{PyFloat} :
  (forall self d,
      DropsEditor.get_data self = Ok (Some d) ->
      exists entries,
        Py.get d "entries" = Some (JList entries) /\
        map ExeDrops.item_of entries
        = map (fun wd => Some (JStr (Py.strip (DropsEditor.item wd))))
            (filter (fun wd => Py.str_truthy (Py.strip (DropsEditor.item wd)))
               (DropsEditor.entry_widgets self)) /\
        Forall (fun e => ExeDrops.has_item e = true) entries)
  /\
  (forall drops key_prefix ss d ss',
      App.render_drops drops key_prefix ss = App.Done (Some d) ss' ->
      exists entries,
        Py.get d "entries" = Some (JList entries) /\
        Forall (fun e => ExeDrops.has_item e = true) entries)
  /\
  (forall ss file_entries key_prefix updated to_delete ei acc,
      App.render_entry ss file_entries key_prefix (updated, to_delete) ei
      = Some acc ->
      fst acc = updated \/
      exists e, fst acc = updated ++ [e] /\ ExeDrops.has_item e = true).
Proof.
  split; [|split].
  - intros self d Hd. rewrite ExeSpawnFacts.drops_get_data in Hd.
    apply Ok_inj in Hd.
    destruct (negb (DropsEditor.enabled_var self)); [discriminate|].
    injection Hd as <-. eexists. split; [reflexivity|].
    split; [apply ExeSpawnFacts.encoded_items|apply DropsFacts.encoded_has_item].
  - intros drops key_prefix ss d ss' Hr.
    apply DropsFacts.render_drops_inv in Hr as (amount & entries & -> & Hall).
    exists entries. auto.
  - exact DropsFacts.render_entry_step.
Qed.

Lemma itemless_entries_dropped_witness :
  DropsEditor.get_data (SpawnEditor.drops_editor Examples.bad_weight)
  = Ok (Some Examples.bad_weight_drops) /\
  App.render_drops (Some Examples.with_drops) "k" App.fresh
  = App.Done (Some Examples.with_drops_rendered)
      (App.set_count App.fresh "k_entry_count" 2) /\
  (exists entries,
      Py.get Examples.bad_weight_drops "entries" = Some (JList entries) /\
      Forall (fun e => ExeDrops.has_item e = true) entries) /\
  (exists entries,
      Py.get Examples.with_drops_rendered "entries" = Some (JList entries) /\
      Forall (fun e => ExeDrops.has_item e = true) entries).
Proof.
  assert (H1 : DropsEditor.get_data (SpawnEditor.drops_editor Examples.bad_weight)
               = Ok (Some Examples.bad_weight_drops)) by (vm_compute; reflexivity).
  assert (H2 : App.render_drops (Some Examples.with_drops) "k" App.fresh
               = App.Done (Some Examples.with_drops_rendered)
                   (App.set_count App.fresh "k_entry_count" 2))
    by reflexivity.
  destruct itemless_entries_dropped as (Hexe & Happ & _).
  split; [exact H1|]. split; [exact H2|]. split.
  - destruct (Hexe _ _ H1) as (entries & Hg & _ & Hall). exists entries. auto.
  - exact (Happ _ _ _ _ _ H2).
Defined.

End SpawnCodec.

(* ===================================================================== *)
(** * Starting the desktop front-end *)
(* ===================================================================== *)

Section Startup.
Import Imports.


Ltac case_installed e :=
  repeat match goal with
         | |- context [installed e ?m] =>
             destruct (installed e m) eqn:?; cbn [exec]
         end.

(** How loading [exe.py] ends, whatever the machine. *)
Lemma load_exe_outcome e is_main :
  load_exe e is_main =
  match first_missing e (EXE_HEAD ++ GET_DEFAULT_HEAD) with
  | Some m => ImportError m None
  | None =>
      if installed e "requests"
      then ImportError "get_default_pokemons" (Some "set_blank")
      else SystemExit 1
  end.
Proof.
  unfold load_exe, exe, load_get_default_pokemons, get_default_pokemons,
    first_missing, EXE_HEAD, GET_DEFAULT_HEAD.
  cbn [exec String.eqb Ascii.eqb Bool.eqb app find].
  repeat match goal with
         | |- context [installed e ?m] =>
             destruct (installed e m) eqn:?;
             cbn [exec find negb String.eqb Ascii.eqb Bool.eqb]
         end;
    reflexivity.
Qed.



End Startup.

(* ===================================================================== *)
(** * Facts about the rest of the program *)
(* ===================================================================== *)

Module StrFacts.
Import Str Shape.
Local Open Scope string_scope.

Lemma split_lacks sep s : lacks sep s = true -> split sep s = [s].
Proof.
  induction s as [|c r IH]; simpl; auto.
  intros H. apply andb_true_iff in H as [Hc Hr].
  apply negb_true_iff in Hc. rewrite Hc, IH; auto.
Qed.

Lemma split_app sep a b :
  lacks sep a = true -> split sep (a ++ String sep b) = a :: split sep b.
Proof.
  induction a as [|c r IH]; simpl.
  - intros _. now rewrite Ascii.eqb_refl.
  - intros H. apply andb_true_iff in H as [Hc Hr].
    apply negb_true_iff in Hc. rewrite Hc, IH; auto.
Qed.

Lemma split_other sep c r :
  Ascii.eqb c sep = false ->
  split sep (String c r) =
  match split sep r with
  | h :: t => String c h :: t
  | [] => [String c EmptyString]
  end.
Proof. intros E. simpl. now rewrite E. Qed.

Lemma split_pieces sep s : Forall (fun e => lacks sep e = true) (split sep s).
Proof.
  induction s as [|c r IH]; simpl.
  - repeat constructor.
  - destruct (Ascii.eqb c sep) eqn:E.
    + constructor; auto.
    + destruct (split sep r) as [|h t]; inversion IH; subst;
        constructor; simpl; auto; rewrite E; simpl; auto.
Qed.

Lemma lacks_lstrip c s : lacks c s = true -> lacks c (Py.lstrip s) = true.
Proof.
  induction s as [|a r IH]; simpl; auto.
  intros H. destruct (Py.is_space a); simpl; auto.
  apply andb_true_iff in H as [_ Hr]. auto.
Qed.

Lemma lacks_rstrip c s : lacks c s = true -> lacks c (Py.rstrip s) = true.
Proof.
  induction s as [|a r IH]; simpl; auto.
  intros H. apply andb_true_iff in H as [Ha Hr]. specialize (IH Hr).
  destruct (Py.rstrip r) eqn:E.
  - destruct (Py.is_space a); simpl; auto. now rewrite Ha.
  - simpl in *. now rewrite Ha, IH.
Qed.

Lemma lacks_strip c s : lacks c s = true -> lacks c (Py.strip s) = true.
Proof. intros H. unfold Py.strip. now apply lacks_rstrip, lacks_lstrip. Qed.

Lemma lstrip_lstrip s : Py.lstrip (Py.lstrip s) = Py.lstrip s.
Proof.
  induction s as [|a r IH]; simpl; auto.
  destruct (Py.is_space a) eqn:E; auto. simpl. now rewrite E.
Qed.

Lemma rstrip_cons a r :
  Py.rstrip (String a r) =
  match Py.rstrip r with
  | EmptyString => if Py.is_space a then EmptyString else String a EmptyString
  | r' => String a r'
  end.
Proof. reflexivity. Qed.

Lemma rstrip_rstrip s : Py.rstrip (Py.rstrip s) = Py.rstrip s.
Proof.
  induction s as [|a r IH]; [reflexivity|].
  rewrite rstrip_cons. destruct (Py.rstrip r) as [|b t] eqn:E.
  - destruct (Py.is_space a) eqn:Ea; [reflexivity|].
    rewrite rstrip_cons. simpl. now rewrite Ea.
  - rewrite rstrip_cons, IH. reflexivity.
Qed.

(** What is left of a line's head is not white space. *)
Lemma lstrip_head s c r : Py.lstrip s = String c r -> Py.is_space c = false.
Proof.
  induction s as [|a t IH]; simpl; [discriminate|].
  destruct (Py.is_space a) eqn:E; auto. intros Heq. now inversion Heq; subst.
Qed.

Lemma rstrip_head c r :
  Py.is_space c = false -> exists t, Py.rstrip (String c r) = String c t.
Proof.
  intros Hc. simpl. destruct (Py.rstrip r); rewrite ?Hc; eauto.
Qed.

Lemma strip_strip s : Py.strip (Py.strip s) = Py.strip s.
Proof.
  unfold Py.strip. destruct (Py.lstrip s) as [|c r] eqn:E; [reflexivity|].
  pose proof (lstrip_head _ _ _ E) as Hc.
  destruct (rstrip_head c r Hc) as [t Ht]. rewrite Ht.
  assert (Hl : Py.lstrip (String c t) = String c t) by (simpl; now rewrite Hc).
  rewrite Hl, <- Ht. apply rstrip_rstrip.
Qed.

Lemma trimmed_strip s : Py.trimmed (Py.strip s) = true.
Proof.
  apply PyFacts.trimmed_spec. split.
  - unfold Py.strip. destruct (Py.lstrip s) as [|c r] eqn:E; [reflexivity|].
    pose proof (lstrip_head _ _ _ E) as Hc.
    destruct (rstrip_head c r Hc) as [t Ht]. rewrite Ht. simpl. now rewrite Hc.
  - unfold Py.strip. apply rstrip_rstrip.
Qed.

Lemma assoc_set_same {A} (d : list (string * A)) k v :
  Py.assoc k (set d k v) = Some v.
Proof.
  induction d as [|[k' v'] r IH]; simpl.
  - now rewrite String.eqb_refl.
  - destruct (String.eqb k k') eqn:E; simpl; rewrite ?E, ?String.eqb_refl; auto.
Qed.

Lemma assoc_set_other {A} (d : list (string * A)) k k' v :
  k' <> k -> Py.assoc k' (set d k v) = Py.assoc k' d.
Proof.
  intros Hne. induction d as [|[k0 v0] r IH]; simpl.
  - destruct (String.eqb_spec k' k); congruence.
  - destruct (String.eqb_spec k k0) as [->|Hk]; simpl.
    + destruct (String.eqb_spec k' k0); congruence.
    + destruct (String.eqb_spec k' k0); auto.
Qed.

End StrFacts.
Module ModsFacts.
Import Str Shape Files.
Local Open Scope string_scope.

Lemma clean_mod_spec m :
  clean_mod m = true <->
  m <> EmptyString /\ Py.strip m = m /\ Py.trimmed m = true /\
  lacks "," m = true.
Proof.
  unfold clean_mod. rewrite !andb_true_iff. split.
  - intros [[Hne Ht] Hl]. repeat split; auto.
    + destruct m; [discriminate|congruence].
    + now apply PyFacts.strip_trimmed.
  - intros (Hne & _ & Ht & Hl). repeat split; auto. now destruct m.
Qed.

Lemma strip_padded m : clean_mod m = true -> Py.strip (String " " m) = m.
Proof.
  intros H. apply clean_mod_spec in H as (_ & Hs & _). exact Hs.
Qed.

Lemma split_join_comma x l :
  Forall (fun e => lacks "," e = true) (x :: l) ->
  split "," (Py.join ", " (x :: l)) = x :: map (String " ") l.
Proof.
  revert x. induction l as [|y l IH]; intros x Hall.
  - inversion Hall; subst. now apply StrFacts.split_lacks.
  - rewrite PyFacts.join_cons2. inversion Hall as [|? ? Hx Hrest]; subst.
    change (x ++ ", " ++ Py.join ", " (y :: l))
      with (x ++ String "," (String " " (Py.join ", " (y :: l)))).
    rewrite StrFacts.split_app by assumption.
    f_equal. rewrite StrFacts.split_other by reflexivity.
    rewrite (IH y Hrest). reflexivity.
Qed.

Lemma keep_clean l :
  Forall (fun e => clean_mod e = true) l ->
  map Py.strip (filter (fun m => Py.str_truthy (Py.strip m))
                       (map (String " ") l)) = l.
Proof.
  induction 1 as [|x l Hx _ IH]; [reflexivity|].
  cbn [map filter]. rewrite (strip_padded x Hx).
  apply clean_mod_spec in Hx as Hx'. destruct Hx' as (Hne & _).
  destruct x; [congruence|]. cbn [Py.str_truthy map].
  rewrite (strip_padded _ Hx). now f_equal.
Qed.

Lemma mods_of_join l :
  Forall (fun e => clean_mod e = true) l -> mods_of (Py.join ", " l) = l.
Proof.
  intros Hall. destruct l as [|x l]; [reflexivity|].
  unfold mods_of. rewrite split_join_comma.
  - inversion Hall as [|? ? Hx Hrest]; subst.
    cbn [map filter].
    apply clean_mod_spec in Hx as (Hne & Hs & _). rewrite Hs.
    destruct x; [congruence|]. cbn [Py.str_truthy map]. rewrite Hs.
    f_equal. now apply keep_clean.
  - eapply Forall_impl; [|exact Hall]. intros e He.
    now apply clean_mod_spec in He.
Qed.

Lemma mods_of_clean text :
  Forall (fun e => clean_mod e = true) (mods_of text).
Proof.
  unfold mods_of. pose proof (StrFacts.split_pieces "," text) as Hp.
  induction Hp as [|m l Hm _ IH]; [constructor|].
  cbn [filter]. destruct (Py.str_truthy (Py.strip m)) eqn:E; auto.
  cbn [map]. constructor; auto.
  unfold clean_mod. rewrite E, StrFacts.trimmed_strip. simpl.
  now apply StrFacts.lacks_strip.
Qed.

End ModsFacts.
Module SortFacts.
Import Str.

Lemma In_insert {A} (le : A -> A -> bool) x y l :
  In y (insert le x l) <-> y = x \/ In y l.
Proof.
  induction l as [|z l IH]; simpl.
  - intuition.
  - destruct (le x z); simpl; rewrite ?IH; intuition.
Qed.

Lemma In_sorted {A} (le : A -> A -> bool) x l :
  In x (sorted le l) <-> In x l.
Proof.
  induction l as [|z l IH]; simpl; [tauto|].
  rewrite In_insert, IH. intuition.
Qed.

End SortFacts.

Module FormatFacts.
Import Str.
Local Open Scope string_scope.

Lemma all_digits_app a b :
  Py.all_digits (a ++ b) = Py.all_digits a && Py.all_digits b.
Proof. induction a as [|x a IH]; simpl; auto. now rewrite IH, andb_assoc. Qed.

Lemma all_digits_zeros k : Py.all_digits (zeros k) = true.
Proof. induction k; simpl; auto. Qed.

Lemma all_digits_str_int n : (0 <= n)%Z -> Py.all_digits (Py.str_int n) = true.
Proof.
  intros Hn. destruct n as [|p|p]; [reflexivity| |lia].
  rewrite PyFacts.str_int_pos. apply PyFacts.all_digits_string_of_uint.
Qed.

Lemma str_int_nonempty n : Py.str_int n <> "".
Proof.
  pose proof (PyFacts.str_int_truthy n) as H. now destruct (Py.str_int n).
Qed.

Lemma format_nonneg n :
  (0 <= n)%Z ->
  format_04d n = zeros (4 - String.length (Py.str_int n)) ++ Py.str_int n.
Proof.
  intros Hn. unfold format_04d.
  assert (Hl : (n <? 0)%Z = false) by (apply Z.ltb_ge; lia).
  rewrite Hl, Z.abs_eq by lia. reflexivity.
Qed.

Lemma all_digits_format n :
  (0 <= n)%Z -> Py.all_digits (format_04d n) = true.
Proof.
  intros Hn. rewrite format_nonneg by assumption.
  now rewrite all_digits_app, all_digits_zeros, all_digits_str_int.
Qed.

Lemma format_nonempty n : format_04d n <> "".
Proof.
  unfold format_04d. pose proof (str_int_nonempty (Z.abs n)) as H.
  destruct (Py.str_int (Z.abs n)); [congruence|].
  destruct (if (n <? 0)%Z then "-" else ""); simpl; [|discriminate].
  destruct (zeros _); simpl; discriminate.
Qed.

(** [int] on a run of digits. *)
Lemma int_digits s :
  Py.all_digits s = true -> s <> "" -> Py.int_ s = Py.unsigned_of s.
Proof.
  intros Hd Hne. unfold Py.int_.
  rewrite PyFacts.no_space_skip by now apply PyFacts.all_digits_no_space.
  destruct s as [|c r]; [congruence|]. simpl in Hd.
  apply andb_true_iff in Hd as [Hc _].
  now destruct (PyFacts.is_digit_not_sign c Hc) as [-> ->].
Qed.

Lemma unsigned_zero s :
  Py.all_digits s = true -> s <> "" ->
  Py.unsigned_of (String "0" s) = Py.unsigned_of s.
Proof.
  intros Hd Hne. unfold Py.unsigned_of. cbn [Py.digits_of].
  change (Py.is_digit "0") with true. cbn iota.
  rewrite !PyFacts.digits_of_all_digits by auto. cbn [option_map].
  cbn [NilEmpty.uint_of_string]. destruct (NilEmpty.uint_of_string s); reflexivity.
Qed.

Lemma unsigned_zeros k s :
  Py.all_digits s = true -> s <> "" ->
  Py.unsigned_of (zeros k ++ s) = Py.unsigned_of s.
Proof.
  intros Hd Hne. induction k as [|k IH]; [reflexivity|].
  cbn [zeros append]. rewrite unsigned_zero; auto.
  - now rewrite all_digits_app, all_digits_zeros.
  - destruct (zeros k); simpl; [assumption|discriminate].
Qed.

(** [int(f"{n:04d}") == n]. *)
Lemma int_format n : (0 <= n)%Z -> Py.int_ (format_04d n) = Some n.
Proof.
  intros Hn. rewrite int_digits.
  - rewrite format_nonneg by assumption.
    rewrite unsigned_zeros.
    + rewrite <- int_digits.
      * apply PyFacts.int_str_int.
      * now apply all_digits_str_int.
      * apply str_int_nonempty.
    + now apply all_digits_str_int.
    + apply str_int_nonempty.
  - now apply all_digits_format.
  - apply format_nonempty.
Qed.

End FormatFacts.

Module ReFacts.
Import Re Shape.
Local Open Scope string_scope.

Lemma append_nil_r s : s ++ "" = s.
Proof. induction s; simpl; congruence. Qed.

Lemma append_assoc a b c : (a ++ b) ++ c = a ++ (b ++ c).
Proof. induction a; simpl; congruence. Qed.

Lemma ate_nil st : ate "" st = st.
Proof.
  destruct st as [g [c|]]; unfold ate; simpl; [|reflexivity].
  now rewrite append_nil_r.
Qed.

Lemma ate_eat x a st : ate a (eat x st) = ate (String x a) st.
Proof.
  destruct st as [g [c|]]; unfold ate, eat; simpl; [|reflexivity].
  now rewrite append_assoc.
Qed.

Lemma ate_ate a b st : ate b (ate a st) = ate (a ++ b) st.
Proof.
  destruct st as [g [c|]]; unfold ate; simpl; [|reflexivity].
  now rewrite append_assoc.
Qed.

Section Repeat.
Context {R : Type}.
Variable ok : ascii -> bool.
Variable k : string -> state -> option R.

(** A greedy run that gives a result beyond [a] gives it from the start. *)
Lemma greedy_skip a : forall b st x,
  (forall c, In c (list_ascii_of_string a) -> ok c = true) ->
  star_greedy ok k b (ate a st) = Some x ->
  star_greedy ok k (a ++ b) st = Some x.
Proof.
  induction a as [|c a IH]; intros b st x Hall Hs.
  - now rewrite ate_nil in Hs.
  - cbn [append star_greedy]. rewrite Hall by now left.
    rewrite (IH b (eat c st) x); auto.
    + intros d Hd. apply Hall. now right.
    + now rewrite ate_eat.
Qed.

Lemma greedy_stop b st :
  match b with EmptyString => True | String c _ => ok c = false end ->
  star_greedy ok k b st = k b st.
Proof. destruct b as [|c r]; simpl; auto. now intros ->. Qed.

(** A lazy run goes on as long as the continuation fails. *)
Lemma lazy_skip a : forall b st,
  (forall c, In c (list_ascii_of_string a) -> ok c = true) ->
  (forall a1 a2, a = a1 ++ a2 -> a2 <> "" -> k (a2 ++ b) (ate a1 st) = None) ->
  star_lazy ok k (a ++ b) st = star_lazy ok k b (ate a st).
Proof.
  induction a as [|c a IH]; intros b st Hall Hk.
  - now rewrite ate_nil.
  - cbn [append star_lazy].
    pose proof (Hk "" (String c a) eq_refl) as H0.
    rewrite ate_nil in H0. cbn [append] in H0. rewrite H0 by discriminate.
    rewrite Hall by now left.
    rewrite IH.
    + now rewrite ate_eat.
    + intros d Hd. apply Hall. now right.
    + intros a1 a2 -> Hne. rewrite ate_eat. apply (Hk (String c a1) a2); auto.
Qed.

Lemma lazy_stop b st x : k b st = Some x -> star_lazy ok k b st = Some x.
Proof. intros Hk. destruct b; simpl; now rewrite Hk. Qed.

End Repeat.

Lemma all_in_In c s :
  all_in c s = true ->
  forall a, In a (list_ascii_of_string s) -> accepts c a = true.
Proof.
  induction s as [|x s IH]; simpl; [tauto|].
  intros H a [<-|Hin]; apply andb_true_iff in H as [Hx Hs]; auto.
Qed.

Lemma run_plus c rest x a b st r :
  accepts c x = true -> all_in c a = true ->
  star_greedy (accepts c) (run rest) b (ate (String x a) st) = Some r ->
  run (plus c :: rest) (String x a ++ b) st = Some r.
Proof.
  intros Hx Ha Hs. cbn [run append]. rewrite Hx.
  apply greedy_skip; [now apply all_in_In|]. now rewrite ate_eat.
Qed.

Lemma run_plus_lazy c rest x a b st r :
  accepts c x = true -> all_in c a = true ->
  (forall a1 a2, a = a1 ++ a2 -> a2 <> "" ->
                 run rest (a2 ++ b) (ate (String x a1) st) = None) ->
  run rest b (ate (String x a) st) = Some r ->
  run (plus_lazy c :: rest) (String x a ++ b) st = Some r.
Proof.
  intros Hx Ha Hk Hr. cbn [run append]. rewrite Hx.
  rewrite lazy_skip.
  - apply lazy_stop. now rewrite ate_eat.
  - now apply all_in_In.
  - intros a1 a2 Heq Hne. rewrite ate_eat. now apply Hk.
Qed.


Lemma all_in_digit s : all_in digit s = Py.all_digits s.
Proof. induction s as [|a r IH]; simpl; congruence. Qed.

Lemma tail_json st :
  star_greedy (accepts dot) (run [close; lit ".json"]) ".json" st
  = Some (groups st ++ [match cur st with Some g => g | None => "" end])%list.
Proof. reflexivity. Qed.

Lemma run_open rest s st :
  run (open_ :: rest) s st = run rest s {| groups := groups st; cur := Some "" |}.
Proof. reflexivity. Qed.

Lemma run_close rest s st :
  run (close :: rest) s st
  = run rest s {| groups := (groups st ++
                             [match cur st with Some g => g | None => "" end])%list;
                  cur := None |}.
Proof. reflexivity. Qed.

Lemma eat_lit_app l : forall s st, eat_lit l (l ++ s) st = Some (s, ate l st).
Proof.
  induction l as [|c l IH]; intros s st.
  - now rewrite ate_nil.
  - cbn [append eat_lit]. rewrite Ascii.eqb_refl, IH. now rewrite ate_eat.
Qed.

Lemma run_lit l rest s st :
  run (lit l :: rest) (l ++ s) st = run rest s (ate l st).
Proof. cbn [run]. now rewrite eat_lit_app. Qed.

Lemma run_end st : run [] "" st = Some (groups st).
Proof. reflexivity. Qed.

Ltac split_digits D Hd x a Hx :=
  destruct D as [|x a]; [congruence|]; cbn [Py.all_digits] in Hd;
  apply andb_true_iff in Hd as [Hx Hd].

(** The pattern of [load_pokemon_files] on a name of the expected form. *)
Lemma match_FILE D name :
  D <> "" -> Py.all_digits D = true ->
  name <> "" -> all_in dot name = true ->
  match_ FILE (D ++ "_" ++ name ++ ".json") = Some [D; name].
Proof.
  intros HD Hd Hn Ha. unfold match_, FILE. rewrite run_open.
  split_digits D Hd x a Hx.
  apply run_plus; [exact Hx|now rewrite all_in_digit|].
  rewrite greedy_stop by reflexivity.
  rewrite run_close, run_lit, run_open.
  destruct name as [|y n]; [congruence|]. cbn [all_in] in Ha.
  apply andb_true_iff in Ha as [Hy Ha].
  apply run_plus; [exact Hy|exact Ha|].
  rewrite tail_json. reflexivity.
Qed.

Lemma match_POKE D name :
  D <> "" -> Py.all_digits D = true ->
  name <> "" -> all_in dot name = true ->
  match_ POKE (D ++ "_" ++ name ++ ".json") = Some [name].
Proof.
  intros HD Hd Hn Ha. unfold match_, POKE.
  split_digits D Hd x a Hx.
  apply run_plus; [exact Hx|now rewrite all_in_digit|].
  rewrite greedy_stop by reflexivity.
  rewrite run_lit, run_open.
  destruct name as [|y n]; [congruence|]. cbn [all_in] in Ha.
  apply andb_true_iff in Ha as [Hy Ha].
  apply run_plus; [exact Hy|exact Ha|].
  rewrite tail_json. reflexivity.
Qed.

Lemma match_DEX D rest :
  D <> "" -> Py.all_digits D = true ->
  match_ DEX (D ++ "_" ++ rest) = Some [D].
Proof.
  intros HD Hd. unfold match_, DEX. rewrite run_open.
  split_digits D Hd x a Hx.
  apply run_plus; [exact Hx|now rewrite all_in_digit|].
  rewrite greedy_stop by reflexivity.
  rewrite run_close. change ("_" ++ rest) with ("_" ++ rest).
  cbn [run eat_lit append]. reflexivity.
Qed.


Ltac compare_chars Hl :=
  repeat (cbn [run eat_lit append];
          match goal with
          | |- context [Ascii.eqb ?c ?d] =>
              tryif is_var c
              then destruct (Ascii.eqb_spec c d) as [->|?]
              else (let b := eval vm_compute in (Ascii.eqb c d) in
                    change (Ascii.eqb c d) with b)
          end);
  cbn [run eat_lit append];
  try reflexivity; try congruence;
  try (vm_compute in Hl; discriminate Hl).

(** The rest of the name pattern fails inside a name without a dot. *)
Lemma tail_none_json a2 st :
  a2 <> "" -> lacks "." a2 = true -> a2 <> "_herd" ->
  run [close; opt "_herd"; lit ".json"] (a2 ++ ".json") st = None.
Proof.
  intros Hne Hl Hh.
  destruct a2 as [|c1 [|c2 [|c3 [|c4 [|c5 [|c6 a2]]]]]]; [congruence|..];
    compare_chars Hl.
Qed.

Lemma tail_none_herd a2 st :
  a2 <> "" -> lacks "." a2 = true ->
  run [close; opt "_herd"; lit ".json"] (a2 ++ "_herd.json") st = None.
Proof.
  intros Hne Hl.
  destruct a2 as [|c1 [|c2 [|c3 [|c4 [|c5 [|c6 a2]]]]]]; [congruence|..];
    compare_chars Hl.
Qed.

Lemma lacks_app_r c a b : lacks c (a ++ b) = true -> lacks c b = true.
Proof.
  induction a as [|x a IH]; simpl; auto.
  intros H. apply andb_true_iff in H as [_ H]. auto.
Qed.

Lemma ends_with_app suffix a b :
  ends_with suffix (a ++ b) = false -> ends_with suffix b = false.
Proof.
  induction a as [|x a IH]; simpl; auto.
  intros H. apply orb_false_iff in H as [_ H]. auto.
Qed.

(** The pattern of [load_pokemon_names] on a plain file and on a herd
    file. *)
Lemma match_NAME D name :
  D <> "" -> Py.all_digits D = true ->
  name <> "" -> all_in dot name = true -> lacks "." name = true ->
  ends_with "_herd" name = false ->
  match_ NAME (D ++ "_" ++ name ++ ".json") = Some [name].
Proof.
  intros HD Hd Hn Ha Hl He. unfold match_, NAME.
  split_digits D Hd x a Hx.
  apply run_plus; [exact Hx|now rewrite all_in_digit|].
  rewrite greedy_stop by reflexivity.
  rewrite run_lit, run_open.
  destruct name as [|y n]; [congruence|]. cbn [all_in] in Ha.
  apply andb_true_iff in Ha as [Hy Ha].
  apply run_plus_lazy; [exact Hy|exact Ha| |reflexivity].
  intros a1 a2 -> Hne. apply tail_none_json; auto.
  - apply (lacks_app_r "." (String y a1)). exact Hl.
  - intros ->. apply (ends_with_app "_herd" (String y a1)) in He.
    discriminate He.
Qed.

Lemma match_NAME_herd D name :
  D <> "" -> Py.all_digits D = true ->
  name <> "" -> all_in dot name = true -> lacks "." name = true ->
  match_ NAME (D ++ "_" ++ name ++ "_herd.json") = Some [name].
Proof.
  intros HD Hd Hn Ha Hl. unfold match_, NAME.
  split_digits D Hd x a Hx.
  apply run_plus; [exact Hx|now rewrite all_in_digit|].
  rewrite greedy_stop by reflexivity.
  rewrite run_lit, run_open.
  destruct name as [|y n]; [congruence|]. cbn [all_in] in Ha.
  apply andb_true_iff in Ha as [Hy Ha].
  apply run_plus_lazy; [exact Hy|exact Ha| |reflexivity].
  intros a1 a2 -> Hne. apply tail_none_herd; auto.
  apply (lacks_app_r "." (String y a1)). exact Hl.
Qed.


End ReFacts.

Module GetDefaultFacts.
Import Files GetDefault.

Lemma exists_app dir added name :
  exists_ (dir ++ added) name = exists_ dir name || exists_ added name.
Proof.
  unfold exists_. rewrite PyFacts.assoc_app.
  destruct (Py.assoc name dir); reflexivity.
Qed.

Lemma exists_one name c name' :
  exists_ [(name, c)] name' = String.eqb name' name.
Proof. unfold exists_. simpl. now destruct (String.eqb name' name). Qed.

Lemma exists_In dir name :
  exists_ dir name = true <-> In name (map fst dir).
Proof.
  unfold exists_. induction dir as [|[k v] r IH]; simpl.
  - split; [discriminate|tauto].
  - destruct (String.eqb_spec name k) as [->|Hne].
    + split; auto.
    + rewrite IH. split; auto. intros [Heq|Hin]; [congruence|assumption].
Qed.

(** What one turn does. *)
Lemma create_one_cases E dir count dex name st :
  create_one E (dir, count) (dex, name) = Some st ->
  (st = (dir, count) /\
   (existsb (Z.eqb dex) E = true \/
    (plain (blank_name dex name) = true /\
     exists_ dir (blank_name dex name) = true))) \/
  (st = (dir ++ [(blank_name dex name, Some (JObj BLANK_SPAWN))], S count) /\
   existsb (Z.eqb dex) E = false /\
   plain (blank_name dex name) = true /\
   exists_ dir (blank_name dex name) = false).
Proof.
  unfold create_one. destruct (existsb (Z.eqb dex) E); [intros [= <-]; auto|].
  destruct (plain (blank_name dex name)); [|discriminate]. cbn [negb].
  destruct (exists_ dir (blank_name dex name)); cbn [negb];
    intros [= <-]; auto.
Qed.

(** The species [create_blank_spawns] goes through are those it was
    given. *)
Lemma numbered_In species : forall l,
  traverse numbered species = Some l ->
  forall dex name, In (dex, name) l <-> In (JInt dex, name) species.
Proof.
  induction species as [|[j nm] species IH]; intros l Hl dex name.
  - injection Hl as <-. tauto.
  - cbn [traverse] in Hl. unfold numbered at 1 in Hl. cbn [fst snd] in Hl.
    destruct j as [| |n| | | |]; try discriminate.
    destruct (traverse numbered species) as [l'|]; [|discriminate].
    injection Hl as <-. cbn [In]. rewrite (IH l' eq_refl).
    split; (intros [Heq|Hin]; [left; congruence|now right]).
Qed.

Lemma numbered_total species :
  Forall (fun sp => exists dex, fst sp = JInt dex) species ->
  exists l, traverse numbered species = Some l.
Proof.
  induction species as [|[j nm] species IH]; intros Hall; [now exists []|].
  inversion Hall as [|? ? [dex Hj] Hr]; subst. cbn [fst] in Hj. subst j.
  destruct (IH Hr) as [l Hl]. exists ((dex, nm) :: l).
  cbn [traverse]. unfold numbered at 1. cbn [fst snd]. now rewrite Hl.
Qed.

Lemma fold_added E species l : forall dir count dir' n,
  (forall dex name, In (dex, name) l -> In (JInt dex, name) species) ->
  App.foldO (create_one E) l (dir, count) = Some (dir', n) ->
  exists added,
    dir' = dir ++ added /\ n = count + length added /\
    Forall (Shape.added_blank E species dir) added /\
    NoDup (map fst added).
Proof.
  induction l as [|[dex name] l IH]; intros dir count dir' n Hincl Hf.
  - simpl in Hf. injection Hf as <- <-. exists []. rewrite app_nil_r.
    repeat split; auto; constructor.
  - cbn [App.foldO] in Hf.
    destruct (create_one E (dir, count) (dex, name)) as [st|] eqn:E1;
      [|discriminate].
    assert (Hl : forall d nm, In (d, nm) l -> In (JInt d, nm) species)
      by (intros d nm Hx; apply Hincl; now right).
    apply create_one_cases in E1 as [[-> _]|(-> & HE & Hp & Hx)].
    + now apply IH.
    + destruct (IH _ _ _ _ Hl Hf) as (added & -> & -> & Hall & Hnd).
      exists ((blank_name dex name, Some (JObj BLANK_SPAWN)) :: added).
      rewrite <- app_assoc. simpl. split; [reflexivity|]. split; [lia|].
      split.
      * constructor.
        -- split; [reflexivity|]. split; [exact Hx|].
           exists dex, name. split; [apply Hincl; now left|]. auto.
        -- eapply Forall_impl; [|exact Hall].
           intros e (Hs & He & Hw). split; [exact Hs|]. split; [|exact Hw].
           rewrite exists_app in He. now apply orb_false_iff in He as [He _].
      * constructor; auto. intros Hin.
        apply in_map_iff in Hin as (e & He & Hin).
        rewrite Forall_forall in Hall. destruct (Hall _ Hin) as (_ & Hn & _).
        rewrite exists_app, exists_one, He, String.eqb_refl in Hn.
        now rewrite orb_true_r in Hn.
Qed.

Lemma numbered_None species sp :
  In sp species -> numbered sp = None -> traverse numbered species = None.
Proof.
  induction species as [|x species IH]; intros Hin Hn; [destruct Hin|].
  cbn [traverse]. destruct Hin as [->|Hin].
  - now rewrite Hn.
  - destruct (numbered x); [|reflexivity]. now rewrite (IH Hin Hn).
Qed.

Lemma fold_grows E l : forall st st',
  App.foldO (create_one E) l st = Some st' ->
  forall name, exists_ (fst st) name = true -> exists_ (fst st') name = true.
Proof.
  induction l as [|[dex nm] l IH]; intros [dir count] st' Hf name Hx.
  - simpl in Hf. now injection Hf as <-.
  - cbn [App.foldO] in Hf.
    destruct (create_one E (dir, count) (dex, nm)) as [st|] eqn:E1;
      [|discriminate].
    apply (IH _ _ Hf).
    apply create_one_cases in E1 as [[-> _]|(-> & _)]; auto.
    simpl. rewrite exists_app. simpl in Hx. now rewrite Hx.
Qed.

Lemma fold_covers E l : forall st st',
  App.foldO (create_one E) l st = Some st' ->
  forall dex name,
    In (dex, name) l ->
    existsb (Z.eqb dex) E = true \/
    (plain (blank_name dex name) = true /\
     exists_ (fst st') (blank_name dex name) = true).
Proof.
  induction l as [|[d nm] l IH]; intros [dir count] st' Hf dex name Hin;
    [destruct Hin|].
  cbn [App.foldO] in Hf.
  destruct (create_one E (dir, count) (d, nm)) as [st|] eqn:E1;
    [|discriminate].
  destruct Hin as [Heq|Hin]; [|eapply IH; eauto].
  injection Heq as -> ->.
  apply create_one_cases in E1 as [[-> [HE|[Hp Hx]]]|(-> & _ & Hp & _)]; auto.
  - right. split; auto. eapply fold_grows; eauto.
  - right. split; auto. eapply fold_grows; eauto.
    simpl. rewrite exists_app, exists_one, String.eqb_refl.
    apply orb_true_r.
Qed.

Lemma prefix_char c a r :
  String.prefix (String c "") (String a r) = Ascii.eqb a c.
Proof.
  simpl. destruct (ascii_dec c a) as [->|Hne].
  - rewrite Ascii.eqb_refl. now destruct r.
  - destruct (Ascii.eqb_spec a c); [congruence|reflexivity].
Qed.

Lemma contains_char c s :
  Str.contains (String c "") s = negb (Shape.lacks c s).
Proof.
  induction s as [|a r IH]; [reflexivity|].
  cbn [Str.contains Shape.lacks]. rewrite IH, prefix_char.
  now destruct (Ascii.eqb a c).
Qed.

Lemma lacks_app c a b :
  Shape.lacks c (a ++ b) = Shape.lacks c a && Shape.lacks c b.
Proof.
  induction a as [|x a IH]; simpl; auto. rewrite IH. now rewrite andb_assoc.
Qed.

Lemma lacks_zeros c n : c <> "0"%char -> Shape.lacks c (Str.zeros n) = true.
Proof.
  intros Hc. induction n; [reflexivity|].
  cbn [Str.zeros Shape.lacks]. rewrite IHn.
  destruct (Ascii.eqb_spec "0"%char c); [congruence|reflexivity].
Qed.

Lemma lacks_digits c s :
  Py.is_digit c = false -> Py.all_digits s = true -> Shape.lacks c s = true.
Proof.
  intros Hc. induction s as [|a r IH]; [reflexivity|].
  cbn [Py.all_digits Shape.lacks].
  intros Ha. apply andb_true_iff in Ha as [Ha Hr]. rewrite IH by assumption.
  destruct (Ascii.eqb_spec a c); [congruence|reflexivity].
Qed.

Lemma lacks_format c n :
  Py.is_digit c = false -> c <> "-"%char ->
  Shape.lacks c (Str.format_04d n) = true.
Proof.
  intros Hd Hm. unfold Str.format_04d.
  rewrite !lacks_app, lacks_zeros.
  - rewrite (lacks_digits c (Py.str_int (Z.abs n))); auto.
    + rewrite andb_true_r. destruct (n <? 0)%Z; [|reflexivity].
      cbn [Shape.lacks].
      destruct (Ascii.eqb_spec "-"%char c); [congruence|reflexivity].
    + apply FormatFacts.all_digits_str_int. lia.
  - intros ->. discriminate.
Qed.

Lemma plain_blank_name dex name :
  plain name = true -> plain (blank_name dex name) = true.
Proof.
  unfold plain, blank_name. rewrite !contains_char, !negb_involutive.
  rewrite !lacks_app. intros Hp. apply andb_true_iff in Hp as [H1 H2].
  rewrite H1, H2, !lacks_format; try reflexivity; discriminate.
Qed.

Lemma fold_total E l : forall st,
  Forall (fun sp => plain (snd sp) = true) l ->
  exists st', App.foldO (create_one E) l st = Some st'.
Proof.
  induction l as [|[dex name] l IH]; intros [dir count] Hall; simpl; eauto.
  inversion Hall as [|? ? Hp Hl]; subst. simpl in Hp.
  unfold create_one. destruct (existsb (Z.eqb dex) E); [now apply IH|].
  rewrite (plain_blank_name dex name Hp). cbn [negb].
  destruct (exists_ dir (blank_name dex name)); cbn [negb]; now apply IH.
Qed.

Lemma foldO_fixed {A S} (step : S -> A -> option S) l s :
  (forall x, In x l -> step s x = Some s) -> App.foldO step l s = Some s.
Proof.
  induction l as [|x l IH]; intros Hs; [reflexivity|].
  cbn [App.foldO]. rewrite Hs by now left.
  apply IH. intros y Hy. apply Hs. now right.
Qed.

Lemma existsb_In dex E : existsb (Z.eqb dex) E = true <-> In dex E.
Proof.
  rewrite existsb_exists. split.
  - intros (x & Hin & Heq). apply Z.eqb_eq in Heq. now subst.
  - intros Hin. exists dex. split; auto. apply Z.eqb_refl.
Qed.

End GetDefaultFacts.

Module ExeMainFacts.
Import Files ExeMain ExeMain.CobblemonSpawnEditor.

Lemma spawn_get_data_total `{PyFloat} (e : Exe.SpawnEditor.t) :
  exists d, Exe.SpawnEditor.get_data e = Ok d.
Proof.
  destruct (ExeSpawnFacts.get_data_spec e) as (herd & wm & _ & _ & Hs).
  eauto.
Qed.

Lemma collect_data `{PyFloat} self vars :
  top self = Some vars ->
  exists spawns,
    mapM Exe.SpawnEditor.get_data (spawn_editors self) = Ok spawns /\
    _collect_data self =
    Some [("enabled", JBool (enabled_var vars));
          ("neededInstalledMods",
           JList (map JStr (mods_of (installed_var vars))));
          ("neededUninstalledMods",
           JList (map JStr (mods_of (uninstalled_var vars))));
          ("spawns", JList (map JObj spawns))].
Proof.
  intros Ht.
  destruct (mapM_total Exe.SpawnEditor.get_data (spawn_editors self)
              spawn_get_data_total) as [spawns Hs].
  exists spawns. split; [exact Hs|].
  unfold _collect_data. now rewrite Ht, Hs.
Qed.

Lemma mods_text_get data key l :
  Py.get data key = Some (JList (map JStr l)) ->
  mods_text data key = Some (Py.join ", " l).
Proof.
  intros Hg. unfold mods_text, Py.get_or. rewrite Hg. cbn [as_list].
  now rewrite traverse_as_str.
Qed.

Lemma mods_text_absent data key :
  Py.get data key = None -> mods_text data key = Some "".
Proof. intros Hg. unfold mods_text, Py.get_or. now rewrite Hg. Qed.

(** What a completed [_load_editor] leaves. *)
Lemma load_editor_inv `{PyFloat} self dir filename display self' :
  _load_editor self dir filename display = Completed self' ->
  exists data enabled installed uninstalled spawns,
    load_spawn_data dir filename = Some (JObj data) /\
    Exe.BooleanVar (Py.get_or data "enabled" (JBool true)) = Some enabled /\
    mods_text data "neededInstalledMods" = Some installed /\
    mods_text data "neededUninstalledMods" = Some uninstalled /\
    as_list (Py.get_or data "spawns" (JList [])) = Some spawns /\
    traverse (fun spawn => d <~ as_dict spawn ;; Exe.SpawnEditor._build d)
      spawns = Some (spawn_editors self') /\
    current_file self' = current_file self /\
    header_var self' = display /\
    top self' = Some {| enabled_var := enabled; installed_var := installed;
                        uninstalled_var := uninstalled |}.
Proof.
  unfold _load_editor.
  destruct (load_spawn_data dir filename) as [v|]; [|discriminate].
  destruct v as [| | | | | |data]; try discriminate. cbn [as_dict].
  destruct (Exe.BooleanVar _) as [enabled|] eqn:E1; [|discriminate].
  destruct (mods_text data "neededInstalledMods") as [installed|] eqn:E2;
    [|discriminate].
  destruct (mods_text data "neededUninstalledMods") as [uninstalled|] eqn:E3;
    [|discriminate].
  destruct (as_list _) as [spawns|] eqn:E4; [|discriminate].
  destruct (traverse _ spawns) as [editors|] eqn:Et; [|discriminate].
  intros Heq. injection Heq as <-.
  exists data, enabled, installed, uninstalled, spawns.
  repeat split; try reflexivity; assumption.
Qed.

(** The variables a popup is made with. *)
Section Popup.
Variable f : string -> bool.

Lemma tick_present vars opt :
  Shape.ticked f vars -> In opt (map fst vars) -> Shape.tick f vars opt = vars.
Proof.
  unfold Shape.tick. induction vars as [|[k v] r IH]; intros Ht Hin; [easy|].
  inversion Ht as [|? ? Hk Hr]; subst. simpl in Hk, Hin. simpl.
  destruct (String.eqb_spec opt k) as [->|Hne]; [now rewrite Hk|].
  f_equal. apply IH; auto. destruct Hin; [congruence|assumption].
Qed.

Lemma tick_absent vars opt :
  ~ In opt (map fst vars) -> Shape.tick f vars opt = vars ++ [(opt, f opt)].
Proof.
  unfold Shape.tick. induction vars as [|[k v] r IH]; intros Hin; [reflexivity|].
  simpl in *. destruct (String.eqb_spec opt k) as [->|Hne]; [tauto|].
  f_equal. apply IH. tauto.
Qed.

Lemma tick_cases vars opt :
  Shape.ticked f vars ->
  (In opt (map fst vars) /\ Shape.tick f vars opt = vars) \/
  (~ In opt (map fst vars) /\ Shape.tick f vars opt = vars ++ [(opt, f opt)]).
Proof.
  intros Ht. destruct (in_dec string_dec opt (map fst vars)) as [Hin|Hnin].
  - left. split; auto. now apply tick_present.
  - right. split; auto. now apply tick_absent.
Qed.

Lemma ticks opts : forall vars,
  Shape.ticked f vars -> NoDup (map fst vars) ->
  exists tail,
    fold_left (Shape.tick f) opts vars = vars ++ tail /\
    Shape.ticked f (vars ++ tail) /\
    NoDup (map fst (vars ++ tail)) /\
    (forall k, In k (map fst tail) <-> In k opts /\ ~ In k (map fst vars)).
Proof.
  induction opts as [|o opts IH]; intros vars Ht Hnd.
  - exists []. rewrite app_nil_r. repeat split; auto; simpl; tauto.
  - simpl. destruct (tick_cases vars o Ht) as [[Hin ->]|[Hnin ->]].
    + destruct (IH vars Ht Hnd) as (tail & -> & Ht' & Hnd' & Hk).
      exists tail. split; [reflexivity|]. split; [assumption|].
      split; [assumption|]. intros k. rewrite Hk. split.
      * tauto.
      * intros [[<-|Hi] Hn]; tauto.
    + assert (Ht1 : Shape.ticked f (vars ++ [(o, f o)])).
      { apply Forall_app. split; [assumption|repeat constructor]. }
      assert (Hnd1 : NoDup (map fst (vars ++ [(o, f o)]))).
      { rewrite map_app. simpl.
        apply NoDup_app;
          [assumption|repeat constructor; simpl; tauto
          |intros x Hx [<-|[]]; tauto]. }
      destruct (IH _ Ht1 Hnd1) as (tail & -> & Ht' & Hnd' & Hk).
      exists ((o, f o) :: tail). rewrite <- !app_assoc in *. simpl in *.
      split; [reflexivity|]. split; [assumption|]. split; [assumption|].
      intros k. rewrite Hk, map_app, in_app_iff. simpl.
      destruct (string_dec o k) as [->|Hne]; intuition congruence.
Qed.

Lemma ok_map l :
  map fst (filter snd (map (fun o => (o, f o)) l)) = filter f l.
Proof.
  induction l as [|x l IH]; [reflexivity|]. simpl.
  destruct (f x); simpl; now rewrite IH.
Qed.

Lemma ticks_fresh l : forall seen,
  NoDup (seen ++ l) ->
  fold_left (Shape.tick f) l (map (fun o => (o, f o)) seen)
  = map (fun o => (o, f o)) (seen ++ l).
Proof.
  induction l as [|x l IH]; intros seen Hnd.
  - now rewrite app_nil_r.
  - simpl. rewrite tick_absent.
    + change [(x, f x)] with (map (fun o => (o, f o)) [x]).
      rewrite <- map_app. rewrite IH; rewrite <- app_assoc; auto.
    + rewrite map_map. simpl. rewrite map_id.
      apply NoDup_remove_2 in Hnd. rewrite in_app_iff in Hnd. tauto.
Qed.

Lemma NoDup_filter_keys (p : string * bool -> bool) l :
  NoDup (map fst l) -> NoDup (map fst (filter p l)).
Proof.
  induction l as [|x l IH]; simpl; intros Hnd; [constructor|].
  inversion Hnd as [|? ? Hx Hl]; subst. destruct (p x); auto.
  simpl. constructor; auto. intros Hin. apply Hx.
  apply in_map_iff in Hin as (y & Hy & Hin). apply filter_In in Hin as [Hin _].
  apply in_map_iff. eauto.
Qed.

End Popup.

End ExeMainFacts.

Module AppMainFacts.
Import Files App AppMain AppSpawnFacts.

Lemma render_spawns_inv `{PyFloat} names fk spawns : forall i acc ss r ss',
  render_spawns names fk spawns i acc ss = Done r ss' ->
  exists l, r = acc ++ l /\ length l <= length spawns.
Proof.
  induction spawns as [|spawn rest IH]; intros i acc ss r ss' Hr.
  - injection Hr as <- _. exists []. now rewrite app_nil_r.
  - cbn [render_spawns] in Hr. rewrite bind_lift in Hr.
    destruct (as_dict spawn) as [d|]; [|discriminate].
    apply bind_inv in Hr as ([result deleted] & s1 & _ & Hr).
    apply IH in Hr as (l & -> & Hl).
    destruct result as [x|]; [destruct deleted|].
    + exists l. split; auto. simpl. lia.
    + exists (JObj x :: l). rewrite <- app_assoc. split; auto. simpl. lia.
    + exists l. split; auto. simpl. lia.
Qed.

Lemma mods_text_set d k v key :
  key <> k -> mods_text (Py.set d k v) key = mods_text d key.
Proof.
  intros Hne. unfold mods_text, Py.get_or.
  now rewrite PyFacts.get_set_other.
Qed.

(** What a run of the editor that shows a file has done. *)
Lemma editor_inv `{PyFloat} fnames dir ss file fk data' ss' :
  editor fnames dir ss = Done (Editing file fk data') ss' ->
  exists d data s1 installed uninstalled updated,
    let fl := filtered (load_pokemon_files fnames)
                (text_input ss "search" "") in
    let enabled_key := (fk ++ "_enabled")%string in
    selectbox ss "pokemon_select" (map fst (options fl)) 0 = Some d /\
    Py.assoc d (options fl) = Some file /\
    fk = Str.replace "." "_" file /\
    load_spawn_data dir file = Some (JObj data) /\
    ((check_state ss enabled_key <> None /\ s1 = ss) \/
     (exists v, check_state ss enabled_key = None /\
                as_bool (Py.get_or data "enabled" (JBool true)) = Some v /\
                s1 = set_check ss enabled_key v)) /\
    mods_text data "neededInstalledMods" = Some installed /\
    mods_text data "neededUninstalledMods" = Some uninstalled /\
    length updated
    <= length (match Py.get data "spawns" with
               | Some (JList l) => l
               | _ => []
               end) /\
    data' =
    Py.set
      (Py.set
         (Py.set
            (Py.set data "enabled" (JBool (checkbox s1 enabled_key false)))
            "neededInstalledMods"
            (JList (map JStr (mods_of
               (text_input s1 (fk ++ "_installed_mods") installed)))))
         "neededUninstalledMods"
         (JList (map JStr (mods_of
            (text_input s1 (fk ++ "_uninstalled_mods") uninstalled)))))
      "spawns" (JList updated).
Proof.
  unfold editor. destruct (load_pokemon_files fnames) as [|f0 files] eqn:Ef;
    [discriminate|].
  rewrite !bind_reads.
  set (fl := filtered (f0 :: files) (text_input ss "search" "")).
  destruct (selectbox ss "pokemon_select" (map fst (options fl)) 0)
    as [[|c0 d0]|] eqn:Esel; try discriminate.
  rewrite bind_lift.
  destruct (Py.assoc (String c0 d0) (options fl)) as [selected_file|] eqn:Ea;
    [|discriminate].
  rewrite bind_reads. destruct (button ss "Restore to default"); [discriminate|].
  rewrite bind_lift.
  destruct (load_spawn_data dir selected_file) as [v|] eqn:El; [|discriminate].
  destruct v as [| | | | | |data]; try discriminate. cbn [as_dict].
  rewrite bind_reads.
  intros Hr. apply bind_inv in Hr as (u & s1 & Hen & Hr).
  rewrite bind_reads, bind_lift in Hr.
  destruct (mods_text _ "neededInstalledMods") as [installed|] eqn:Ei in Hr;
    [|discriminate].
  rewrite bind_reads, bind_lift in Hr.
  destruct (mods_text _ "neededUninstalledMods") as [uninstalled|] eqn:Eu in Hr;
    [|discriminate].
  rewrite bind_reads, bind_lift in Hr.
  destruct (as_list _) as [spawns|] eqn:Es in Hr; [|discriminate].
  apply bind_inv in Hr as (updated & s2 & Hsp & Hr).
  injection Hr as Hf Hk Hd Hss. subst file fk data' ss'.
  apply render_spawns_inv in Hsp as (l & -> & Hl). cbn [app] in *.
  exists (String c0 d0), data, s1, installed, uninstalled, l.
  cbv zeta. do 4 (split; [first [reflexivity|assumption]|]).
  assert (Hs1 : (check_state ss (Str.replace "." "_" selected_file ++ "_enabled")
                 <> None /\ s1 = ss) \/
                (exists v,
                    check_state ss
                      (Str.replace "." "_" selected_file ++ "_enabled") = None /\
                    as_bool (Py.get_or data "enabled" (JBool true)) = Some v /\
                    s1 = set_check ss
                           (Str.replace "." "_" selected_file ++ "_enabled") v)).
  { destruct (check_state ss _) as [b|] eqn:Ec.
    - injection Hen as _ <-. left. split; [discriminate|reflexivity].
    - rewrite bind_lift in Hen. destruct (as_bool _) as [v|]; [|discriminate].
      injection Hen as _ <-. right. exists v. auto. }
  split; [exact Hs1|].
  rewrite mods_text_set in Ei by discriminate.
  rewrite !mods_text_set in Eu by discriminate.
  unfold Py.get_or in Es.
  rewrite !PyFacts.get_set_other in Es by discriminate.
  split; [exact Ei|]. split; [exact Eu|]. split; [|reflexivity].
  destruct (Py.get data "spawns") as [[| | | | |sl|]|]; simpl in Es;
    try discriminate; injection Es as <-; auto.
Qed.

(** The editor asks for a fresh download only on "Restore to default", and
    has not touched the session by then. *)
Lemma editor_restore `{PyFloat} fnames dir ss ss' :
  editor fnames dir ss = Done Restore ss' ->
  ss' = ss /\ button ss "Restore to default" = true.
Proof.
  unfold editor. destruct (load_pokemon_files fnames) as [|f0 files] eqn:Ef;
    [discriminate|].
  rewrite !bind_reads.
  set (fl := filtered (f0 :: files) (text_input ss "search" "")).
  destruct (selectbox ss "pokemon_select" (map fst (options fl)) 0)
    as [[|c0 d0]|] eqn:Esel; try discriminate.
  rewrite bind_lift.
  destruct (Py.assoc (String c0 d0) (options fl)) as [selected_file|] eqn:Ea;
    [|discriminate].
  rewrite bind_reads.
  destruct (button ss "Restore to default") eqn:Eb;
    [intros [= <-]; auto|].
  rewrite bind_lift.
  destruct (load_spawn_data dir selected_file) as [v|] eqn:El; [|discriminate].
  destruct v as [| | | | | |data]; try discriminate. cbn [as_dict].
  rewrite bind_reads.
  intros Hr. apply bind_inv in Hr as (u & s1 & Hen & Hr).
  rewrite bind_reads, bind_lift in Hr.
  destruct (mods_text _ "neededInstalledMods") as [installed|] in Hr;
    [|discriminate].
  rewrite bind_reads, bind_lift in Hr.
  destruct (mods_text _ "neededUninstalledMods") as [uninstalled|] in Hr;
    [|discriminate].
  rewrite bind_reads, bind_lift in Hr.
  destruct (as_list _) as [spawns|] in Hr; [|discriminate].
  apply bind_inv in Hr as (updated & s2 & Hsp & Hr).
  discriminate Hr.
Qed.

(** The dict comprehension keeps, for a display name, the last file. *)
Lemma options_last fl : forall d f,
  Py.assoc d (options fl) = Some f ->
  exists before after,
    fl = before ++ (f, d) :: after /\ ~ In d (map snd after).
Proof.
  unfold options. induction fl as [|[f' d'] fl IH] using rev_ind;
    intros d f Ha; [discriminate|].
  rewrite fold_left_app in Ha. cbn [fold_left] in Ha.
  destruct (string_dec d d') as [->|Hne].
  - rewrite StrFacts.assoc_set_same in Ha. injection Ha as <-.
    exists fl, []. split; [reflexivity|]. simpl. tauto.
  - rewrite StrFacts.assoc_set_other in Ha by assumption.
    destruct (IH _ _ Ha) as (before & after & -> & Hn).
    exists before, (after ++ [(f', d')]). rewrite <- app_assoc. split; auto.
    rewrite map_app, in_app_iff. simpl. intuition congruence.
Qed.

Lemma filtered_incl files search x :
  In x (filtered files search) -> In x files.
Proof.
  unfold filtered. destruct (Py.str_truthy search); auto.
  intros Hin. now apply filter_In in Hin.
Qed.

Lemma listed_display fnames f d :
  In (f, d) (load_pokemon_files fnames) -> d = display f.
Proof.
  unfold load_pokemon_files. intros Hin.
  apply in_map_iff in Hin as (x & Heq & _). now injection Heq as <- <-.
Qed.

End AppMainFacts.

Module LinesFacts.

Lemma split_nl_no_nl s : Forall (fun e => Py.no_nl e = true) (Py.split_nl s).
Proof.
  induction s as [|c r IH]; simpl.
  - repeat constructor.
  - destruct (Ascii.eqb c Py.nl) eqn:E.
    + constructor; auto.
    + destruct (Py.split_nl r) as [|h t]; inversion IH; subst;
        constructor; simpl; auto; rewrite E; simpl; auto.
Qed.

Lemma no_nl_lstrip s : Py.no_nl s = true -> Py.no_nl (Py.lstrip s) = true.
Proof.
  induction s as [|a r IH]; simpl; auto.
  intros H. destruct (Py.is_space a); simpl; auto.
  apply andb_true_iff in H as [_ Hr]. auto.
Qed.

Lemma no_nl_rstrip s : Py.no_nl s = true -> Py.no_nl (Py.rstrip s) = true.
Proof.
  induction s as [|a r IH]; [reflexivity|].
  cbn [Py.no_nl]. intros H. apply andb_true_iff in H as [Ha Hr].
  specialize (IH Hr). rewrite StrFacts.rstrip_cons.
  destruct (Py.rstrip r) eqn:E.
  - destruct (Py.is_space a); [reflexivity|]. cbn [Py.no_nl]. now rewrite Ha.
  - cbn [Py.no_nl] in *. now rewrite Ha, IH.
Qed.

(** The lines read from a text area are clean. *)
Lemma stripped_lines_clean text :
  Forall (fun e => Py.clean_line e = true) (Py.stripped_lines text).
Proof.
  unfold Py.stripped_lines. pose proof (split_nl_no_nl text) as Hp.
  induction Hp as [|m l Hm _ IH]; [constructor|].
  cbn [filter]. destruct (Py.str_truthy (Py.strip m)) eqn:E; auto.
  cbn [map]. constructor; auto.
  unfold Py.clean_line. rewrite E, StrFacts.trimmed_strip. simpl.
  unfold Py.strip. now apply no_nl_rstrip, no_nl_lstrip.
Qed.

End LinesFacts.

Module ConditionStable.
Import App AppEntries.

Lemma index_or_0_lt current options :
  options <> [] -> index_or_0 current options < length options.
Proof.
  intros Hne. destruct options as [|o options]; [congruence|].
  unfold index_or_0. destruct current as [| | | |s| |];
    try (cbn [length]; lia).
  destruct (Py.mem s (o :: options)) eqn:Hm; [|cbn [length]; lia].
  clear Hne. revert Hm. generalize (o :: options). intros l.
  induction l as [|x l IH]; simpl; [discriminate|].
  destruct (String.eqb s x); simpl; [lia|]. intros Hm. specialize (IH Hm). lia.
Qed.

(** A select box whose first option is the empty one: what it wrote is
    what it shows when read again with nothing stored. *)
Lemma select_again field options sel :
  hd_error options = Some "" ->
  (forall v, sel = Some v -> In v options) ->
  select_entry field
    (nth_error options
       (index_or_0
          (match snd (select_entry field sel) with
           | Some v => v
           | None => JStr ""
           end) options))
  = select_entry field sel.
Proof.
  intros Hhd Hv. destruct options as [|o options]; [discriminate|].
  injection Hhd as ->.
  destruct sel as [[|c v]|]; cbn [select_entry opt_str Py.truthy Py.str_truthy
                                  snd]; try reflexivity.
  assert (Hm : Py.mem (String c v) ("" :: options) = true)
    by (apply PyFacts.mem_In; now apply Hv).
  cbn [index_or_0]. rewrite Hm, AppFacts.nth_error_index by assumption.
  reflexivity.
Qed.

Section Again.
Context `{PyFloat}.
Variable ss : session.
Variable cond : dict.
Variable key_prefix key_prefix' : string.

Let E := entries ss cond key_prefix.
Let d := Py.update [] E.

Lemma again_bool_entry f :
  In f CONDITION_BOOL_FIELDS ->
  bool_entry fresh d key_prefix' f = bool_entry ss cond key_prefix f.
Proof.
  intros Hin. unfold bool_entry at 1. unfold Py.get_or, d, E.
  rewrite AppFacts.rendered_bool by assumption.
  unfold bool_entry. cbn [snd].
  destruct (as_bool (Py.get_or cond f (JBool false))) as [value|];
    [|reflexivity].
  destruct (checkbox ss _ value); reflexivity.
Qed.

Lemma again_int_entry f :
  In f CONDITION_INT_FIELDS ->
  int_entry fresh d key_prefix' f = int_entry ss cond key_prefix f.
Proof.
  intros Hin. unfold int_entry at 1, int_widget. unfold d, E.
  rewrite AppFacts.rendered_int by assumption.
  unfold int_entry, int_widget. cbn [snd].
  destruct (int_value (Py.get cond f)) as [[value had]|]; [|reflexivity].
  destruct (number_input_int ss (key key_prefix f) value) as [val|] eqn:En;
    [|reflexivity].
  apply AppFacts.number_input_int_safe in En.
  cbv iota beta. destruct (had || _) eqn:Eh; [|reflexivity].
  cbn [int_value]. rewrite AppFacts.number_input_int_fresh by assumption.
  cbn [orb]. reflexivity.
Qed.

Lemma again_list_entry f :
  In f CONDITION_LIST_FIELDS ->
  list_entry fresh d key_prefix' f = list_entry ss cond key_prefix f.
Proof.
  intros Hin. unfold list_entry at 1. unfold Py.get_or, d, E.
  rewrite AppFacts.rendered_list by assumption.
  unfold list_entry. cbn [snd].
  destruct (list_value (Py.get_or cond f (JList []))) as [value|];
    [|reflexivity].
  pose proof (LinesFacts.stripped_lines_clean
                (text_area ss (key key_prefix f) value)) as Hc.
  destruct (Py.stripped_lines _) as [|x l] eqn:El; [reflexivity|].
  unfold list_value. cbn [as_list]. rewrite traverse_as_str.
  unfold text_area, text_input. cbn [fresh text_state].
  rewrite PyFacts.stripped_lines_join by assumption. reflexivity.
Qed.

Lemma again_str_entry f :
  In f CONDITION_STRING_FIELDS ->
  str_entry fresh d key_prefix' f = str_entry ss cond key_prefix f.
Proof.
  intros Hin. unfold str_entry at 1. unfold Py.get_or, d, E.
  rewrite AppFacts.rendered_str by assumption.
  unfold str_entry. cbn [snd].
  destruct (as_str (Py.get_or cond f (JStr ""))) as [current|];
    [|reflexivity]. cbv zeta.
  destruct (Py.str_truthy (text_input ss _ current)) eqn:Et; [|reflexivity].
  cbn [as_str text_input fresh text_state]. now rewrite Et.
Qed.

Lemma again_time_entry :
  (forall v, text_state ss (key key_prefix "timeRange") = Some v ->
             In v TIME_RANGES) ->
  time_entry fresh d key_prefix' = time_entry ss cond key_prefix.
Proof.
  intros Hv. unfold time_entry at 1. unfold selectbox at 1.
  cbn [fresh text_state]. unfold time_index, Py.get_or, d, E.
  rewrite AppFacts.rendered_time. unfold time_entry.
  apply select_again; [reflexivity|].
  intros v. unfold selectbox.
  destruct (text_state ss _) as [x|] eqn:Ex.
  - intros [= <-]. now apply Hv.
  - apply nth_error_In.
Qed.

Lemma again_moon_entry :
  (forall v, text_state ss (key key_prefix "moonPhase") = Some v ->
             In v MOON_PHASES) ->
  moon_entry fresh d key_prefix' = moon_entry ss cond key_prefix.
Proof.
  intros Hv. unfold moon_entry at 1. unfold moon_index, Py.get_or, d, E.
  rewrite AppFacts.rendered_moon. unfold moon_entry.
  set (sel := match moon_index cond with
              | Some index => selectbox ss (key key_prefix "moonPhase")
                                MOON_PHASES index
              | None => None
              end).
  assert (Hsel : forall v, sel = Some v -> In v MOON_PHASES).
  { intros v. unfold sel, selectbox. destruct (moon_index cond); [|discriminate].
    destruct (text_state ss _) as [x|] eqn:Ex.
    - intros [= <-]. now apply Hv.
    - apply nth_error_In. }
  rewrite <- (select_again "moonPhase" MOON_PHASES sel eq_refl Hsel) at 2.
  destruct (snd (select_entry "moonPhase" sel)) as [v|] eqn:Es.
  - unfold select_entry in Es. cbn [snd] in Es.
    destruct (Py.truthy (opt_str sel)); [|discriminate].
    injection Es as <-. destruct sel as [s|]; cbn [opt_str Py.str];
      unfold selectbox; cbn [fresh text_state]; reflexivity.
  - cbn [Py.str]. unfold selectbox. cbn [fresh text_state]. reflexivity.
Qed.

Lemma rendered_well_typed : Raw.well_typed d = true.
Proof.
  unfold Raw.well_typed. rewrite !andb_true_iff, !forallb_forall.
  unfold d, E. rewrite AppFacts.rendered_time, AppFacts.rendered_moon.
  repeat split.
  - unfold time_entry, select_entry. cbn [snd].
    destruct (selectbox ss _ TIME_RANGES _) as [v|]; cbn [opt_str Py.truthy];
      [destruct (Py.str_truthy v)|]; reflexivity.
  - unfold moon_entry, select_entry. cbn [snd].
    destruct (match moon_index cond with Some _ => _ | None => _ end) as [v|];
      cbn [opt_str Py.truthy]; [destruct (Py.str_truthy v)|]; reflexivity.
  - intros f Hf. rewrite AppFacts.rendered_bool by assumption.
    unfold bool_entry. cbn [snd]. destruct (as_bool _); [|reflexivity].
    destruct (checkbox _ _ _); reflexivity.
  - intros f Hf. rewrite AppFacts.rendered_int by assumption.
    unfold int_entry. cbn [snd]. destruct (int_widget _ _ _ _) as [[v h]|];
      [|reflexivity].
    destruct (h || _); reflexivity.
  - intros f Hf. rewrite AppFacts.rendered_list by assumption.
    unfold list_entry. cbn [snd]. destruct (list_value _); [|reflexivity].
    destruct (Py.stripped_lines _) as [|x l]; [reflexivity|].
    cbn [Raw.list_ok]. apply forallb_forall. intros v Hv.
    apply in_map_iff in Hv as (line & <- & _). reflexivity.
  - intros f Hf. rewrite AppFacts.rendered_str by assumption.
    unfold str_entry. cbn [snd]. destruct (as_str _); [|reflexivity].
    cbv zeta. destruct (Py.str_truthy _); reflexivity.
Qed.

Lemma rendered_safe_ints : Raw.safe_ints d = true.
Proof.
  unfold Raw.safe_ints. apply forallb_forall. intros f Hf. unfold d, E.
  rewrite AppFacts.rendered_int by assumption.
  unfold int_entry, int_widget. cbn [snd].
  destruct (int_value (Py.get cond f)) as [[value had]|]; [|reflexivity].
  destruct (number_input_int ss (key key_prefix f) value) as [v|] eqn:En;
    [|reflexivity].
  cbv iota beta. destruct (had || _); [|reflexivity].
  cbn [Raw.safe_int]. now apply AppFacts.number_input_int_safe in En.
Qed.

End Again.

Lemma stable `{PyFloat} ss cond key_prefix key_prefix' d :
  render_condition ss cond key_prefix = Some d ->
  (forall v, text_state ss (key key_prefix "timeRange") = Some v ->
             In v TIME_RANGES) ->
  (forall v, text_state ss (key key_prefix "moonPhase") = Some v ->
             In v MOON_PHASES) ->
  render_condition fresh d key_prefix' = Some d.
Proof.
  intros Hr Ht Hm. apply AppFacts.render_condition_entries in Hr. subst d.
  rewrite AppFacts.render_condition_total;
    [|apply AppFacts.in_range_fresh|apply rendered_well_typed
     |apply rendered_safe_ints].
  f_equal. f_equal. unfold entries at 1 3.
  rewrite again_time_entry,
    again_moon_entry by assumption.
  f_equal. f_equal; [|f_equal; [|f_equal]]; apply map_ext_in; intros f Hf.
  - now apply again_bool_entry.
  - now apply again_int_entry.
  - now apply again_list_entry.
  - now apply again_str_entry.
Qed.

End ConditionStable.

Module StableFacts.
Import App.

Lemma index_lt s l : Py.mem s l = true -> Py.index s l < length l.
Proof.
  induction l as [|x l IH]; simpl; [discriminate|].
  destruct (String.eqb s x); simpl; [lia|]. intros Hm. specialize (IH Hm). lia.
Qed.

(** A select box with nothing stored shows again what it gave. *)
Lemma selectbox_again ss key options current :
  (forall v, text_state ss key = Some v -> In v options) ->
  let sel := selectbox ss key options (index_or_0 current options) in
  nth_error options (index_or_0 (opt_str sel) options) = sel.
Proof.
  intros Hv sel. subst sel. unfold selectbox.
  destruct (text_state ss key) as [v|] eqn:E.
  - cbn [opt_str index_or_0].
    assert (Hm : Py.mem v options = true)
      by (apply PyFacts.mem_In; now apply Hv).
    rewrite Hm. now apply AppFacts.nth_error_index.
  - destruct (nth_error options (index_or_0 current options)) as [x|] eqn:En.
    + cbn [opt_str index_or_0].
      assert (Hm : Py.mem x options = true).
      { apply PyFacts.mem_In. eapply nth_error_In; eauto. }
      rewrite Hm. now apply AppFacts.nth_error_index.
    + cbn [opt_str index_or_0].
      destruct options as [|o options]; [reflexivity|].
      apply nth_error_None in En. exfalso.
      assert (Hlt : index_or_0 current (o :: options) < length (o :: options)).
      { unfold index_or_0. destruct current as [| | | |s| |];
          try (cbn [length]; lia).
        destruct (Py.mem s (o :: options)) eqn:Hm; [|cbn [length]; lia].
        now apply index_lt. }
      lia.
Qed.

Lemma herd_member_stable names ss hp key_prefix key_prefix' d :
  render_herd_pokemon names ss hp key_prefix = Some d ->
  (forall v, text_state ss (key_prefix ++ "_poke") = Some v -> In v names) ->
  render_herd_pokemon names fresh d key_prefix' = Some d.
Proof.
  intros Hr Hv. unfold render_herd_pokemon in Hr.
  destruct (as_str (Py.get_or hp "levelRange" _)) as [lr|]; [|discriminate].
  destruct (float_of _) as [w|]; [|discriminate].
  destruct (number_input_float ss _ w) as [weight|] eqn:Ew; [|discriminate].
  destruct (as_bool _) as [leader|]; [|discriminate].
  destruct (if Py.truthy _ then _ else _) as [mt0|]; [|discriminate].
  destruct (number_input_int ss _ mt0) as [mt|] eqn:Emt0; [|discriminate].
  destruct (as_str (Py.get_or hp "levelRangeOffset" _)) as [lro|];
    [|discriminate].
  apply AppFacts.number_input_float_safe in Ew.
  apply AppFacts.number_input_int_safe in Emt0.
  pose proof (selectbox_again ss (key_prefix ++ "_poke") names
                (Py.get_or hp "pokemon" (JStr "")) Hv) as Hsel.
  cbv zeta in Hsel.
  set (sel := selectbox ss (key_prefix ++ "_poke") names _) in *.
  set (offset := text_input ss (key_prefix ++ "_lro") lro) in *.
  set (level := text_input ss (key_prefix ++ "_lr") lr) in *.
  set (lead := checkbox ss (key_prefix ++ "_leader") leader) in *.
  injection Hr as <-.
  unfold render_herd_pokemon.
  destruct (mt >? 0)%Z eqn:Emt; destruct offset as [|c o] eqn:Eo;
    cbn [Py.str_truthy Py.set String.eqb Ascii.eqb Bool.eqb];
    cbn [Py.get_or Py.get String.eqb Ascii.eqb Bool.eqb as_str as_bool
         float_of int_of Py.truthy];
    rewrite (AppFacts.number_input_float_fresh _ _ Ew);
    unfold selectbox, text_input, checkbox;
    cbn [fresh text_state check_state]; rewrite Hsel.
  all: try (assert (Hz : (mt =? 0)%Z = false) by (apply Z.eqb_neq; lia);
            rewrite Hz; cbn [negb]).
  all: first [rewrite (AppFacts.number_input_int_fresh _ _ Emt0)
             |rewrite (AppFacts.number_input_int_fresh _ 0%Z eq_refl)].
  all: cbv iota beta; try rewrite Emt.
  all: cbn [Py.str_truthy Py.set String.eqb Ascii.eqb Bool.eqb];
    try reflexivity.
Qed.

End StableFacts.

Module DropsStable.
Import App AppSpawnFacts.

(** One turn of the loop adds nothing, or one entry of the written form. *)
Lemma render_entry_writes ss file_entries key_prefix updated to_delete ei acc :
  render_entry ss file_entries key_prefix (updated, to_delete) ei = Some acc ->
  fst acc = updated \/
  exists e, fst acc = updated ++ [e] /\ Shape.drop_entry e.
Proof.
  unfold render_entry.
  destruct (item_at _ _ _) as [entry|]; [|discriminate].
  destruct (as_str (Py.get_or entry "item" _)) as [item0|]; [|discriminate].
  destruct (as_str (Py.get_or entry "quantityRange" _)) as [qr0|];
    [|discriminate].
  destruct (float_of _) as [pct0|]; [|discriminate].
  destruct (number_input_float ss _ pct0) as [pct|] eqn:Epct; [|discriminate].
  apply AppFacts.number_input_float_safe in Epct.
  destruct (checkbox _ _ _); [intros [= <-]; auto|].
  destruct (Py.str_truthy (text_input ss _ item0)) eqn:E;
    intros [= <-]; [|auto].
  right. eexists. split; [reflexivity|].
  set (item := text_input ss _ item0) in *.
  set (qr := text_input ss _ qr0) in *.
  exists item, (if Py.str_truthy qr then Some qr else None),
    (if PrimFloat.ltb 0 pct then Some pct else None).
  split; [|split; [exact E|split]].
  - destruct (Py.str_truthy qr), (PrimFloat.ltb 0 pct); reflexivity.
  - intros q. destruct (Py.str_truthy qr) eqn:Eq; [|discriminate].
    now intros [= <-].
  - intros p. destruct (PrimFloat.ltb 0 pct) eqn:Ep; [|discriminate].
    intros [= <-]. auto.
Qed.

Lemma render_entries_write ss file_entries key_prefix l acc acc' :
  foldO (render_entry ss file_entries key_prefix) l acc = Some acc' ->
  Forall Shape.drop_entry (fst acc) ->
  Forall Shape.drop_entry (fst acc').
Proof.
  revert acc. induction l as [|ei l IH]; simpl; intros [updated to_delete].
  - now intros [= <-].
  - destruct (render_entry _ _ _ _ ei) as [acc1|] eqn:E; [|discriminate].
    intros Hl Hall. apply (IH acc1 Hl).
    apply render_entry_writes in E as [->|(e & -> & He)]; auto.
    apply Forall_app. auto.
Qed.

(** A run of [render_drops] that returns drops. *)
Lemma render_drops_shape drops key_prefix ss d ss' :
  render_drops drops key_prefix ss = Done (Some d) ss' ->
  exists amount0 amount entries,
    (1 <= amount0)%Z /\
    number_input_int ss (key_prefix ++ "_amount") amount0 = Some amount /\
    d = [("amount", JInt amount); ("entries", JList entries)] /\
    Forall Shape.drop_entry entries.
Proof.
  unfold render_drops. rewrite bind_reads.
  destruct (negb _); [discriminate|].
  rewrite bind_lift.
  destruct (match drops with
            | Some JNull | None => Some default_drops
            | Some v => as_dict v
            end) as [dr|]; [|discriminate].
  rewrite bind_lift.
  destruct (as_list _) as [file_entries|]; [|discriminate].
  intros Hr. apply bind_inv in Hr as (n & s1 & Hn & Hr).
  assert (Hs1 : int_state s1 = int_state ss).
  { unfold init_count in Hn. destruct (count_state ss _);
      injection Hn as _ <-; reflexivity. }
  rewrite bind_lift in Hr.
  destruct (int_of _) as [a|]; [|discriminate]. cbn iota in Hr.
  destruct (a <? 1)%Z eqn:Ea; [discriminate|].
  rewrite bind_read_opt in Hr.
  destruct (number_input_int s1 _ a) as [amount|] eqn:Eam; [|discriminate].
  rewrite bind_read_opt in Hr.
  destruct (foldO _ _ _) as [[updated to_delete]|] eqn:El; [|discriminate].
  apply render_entries_write in El; [|constructor].
  destruct to_delete; [|discriminate].
  rewrite bind_reads in Hr.
  destruct (button _ _); [discriminate|].
  injection Hr as <- _. exists a, amount, updated.
  split; [|split; [|split; [reflexivity|exact El]]].
  - apply Z.ltb_ge in Ea. lia.
  - unfold number_input_int in *. now rewrite <- Hs1.
Qed.

(** The loop over entries of the written form, with nothing stored. *)
Lemma render_written ss key_prefix es : forall pre acc,
  Shape.untouched ss ->
  Forall Shape.drop_entry es ->
  foldO (render_entry ss (pre ++ es) key_prefix)
        (seq (length pre) (length es)) (acc, [])
  = Some (acc ++ es, []).
Proof.
  induction es as [|e es IH]; intros pre acc Hq Hall.
  - simpl. now rewrite app_nil_r.
  - inversion Hall as [|? ? He Hes]; subst.
    cbn [length seq foldO].
    assert (Hstep : render_entry ss (pre ++ e :: es) key_prefix (acc, [])
                      (length pre) = Some (acc ++ [e], [])).
    { unfold render_entry, item_at.
      rewrite nth_error_app2, Nat.sub_diag by lia. cbn [nth_error].
      destruct He as (item & qr & pct & -> & Hi & Hqr & Hp).
      unfold text_input, number_input_float, checkbox.
      pose proof (Hq (index_key (key_prefix ++ "_entry") (length pre)
                      ++ "_item")%string) as (Ht1 & _).
      pose proof (Hq (index_key (key_prefix ++ "_entry") (length pre)
                      ++ "_qr")%string) as (Ht2 & _).
      pose proof (Hq (index_key (key_prefix ++ "_entry") (length pre)
                      ++ "_pct")%string) as (_ & _ & _ & Hf & _).
      pose proof (Hq (index_key (key_prefix ++ "_entry") (length pre)
                      ++ "_del")%string) as (_ & Hc & _).
      destruct qr as [q|], pct as [p|];
        cbn [as_dict Py.update fold_left fst snd option_map Py.set
             String.eqb Ascii.eqb Bool.eqb];
        cbn [Py.get_or Py.get String.eqb Ascii.eqb Bool.eqb as_str float_of];
        rewrite ?Ht1, ?Ht2, ?Hf, ?Hc, ?Hi;
        try rewrite (Hqr q eq_refl);
        try (destruct (Hp p eq_refl) as [Hlt Hjs]; rewrite Hjs;
             cbv iota beta; rewrite Hlt);
        try reflexivity. }
    rewrite Hstep.
    replace (pre ++ e :: es) with ((pre ++ [e]) ++ es)
      by (now rewrite <- app_assoc).
    replace (S (length pre)) with (length (pre ++ [e]))
      by (rewrite length_app; simpl; lia).
    rewrite IH by assumption. now rewrite <- app_assoc.
Qed.

Lemma untouched_set_count key n : Shape.untouched (set_count fresh key n).
Proof. intros k. repeat split. Qed.

Lemma drops_stable drops key_prefix ss d ss' key_prefix' :
  render_drops drops key_prefix ss = Done (Some d) ss' ->
  (forall a, int_state ss (key_prefix ++ "_amount") = Some a -> (1 <= a)%Z) ->
  exists ss'',
    render_drops (Some (JObj d)) key_prefix' fresh = Done (Some d) ss''.
Proof.
  intros Hr Ha.
  apply render_drops_shape in Hr
    as (amount0 & amount & entries & H0 & Eam & -> & Hall).
  assert (Hamount : (amount <? 1)%Z = false).
  { apply Z.ltb_ge. unfold number_input_int in Eam.
    destruct (js_int amount0); [|discriminate].
    destruct (int_state ss _) as [a|] eqn:E.
    - destruct (js_int a); [|discriminate]. injection Eam as <-.
      now apply Ha.
    - now injection Eam as <-. }
  apply AppFacts.number_input_int_safe in Eam.
  eexists. unfold render_drops. rewrite bind_reads.
  cbn [checkbox fresh check_state negb]. rewrite bind_lift. cbn [as_dict].
  rewrite bind_lift.
  cbn [Py.get_or Py.get String.eqb Ascii.eqb Bool.eqb as_list].
  unfold bindM at 1. unfold init_count. cbn [fresh count_state].
  rewrite bind_lift. cbn [int_of]. rewrite Hamount.
  rewrite bind_read_opt.
  assert (Hn : number_input_int
                 (set_count fresh (key_prefix' ++ "_entry_count")
                    (length entries))
                 (key_prefix' ++ "_amount") amount = Some amount).
  { unfold number_input_int. rewrite Eam. reflexivity. }
  rewrite Hn. rewrite bind_read_opt.
  rewrite (render_written _ _ entries [] []);
    [|apply untouched_set_count|exact Hall].
  cbn [app]. rewrite bind_reads.
  cbn [button set_count fresh clicked].
  unfold ret. reflexivity.
Qed.

End DropsStable.

Module SlotsStable.
Import App AppSpawnFacts.

(** The loop over slots whose items the editor returns as they are. *)
Lemma slots_again render ss default key_prefix items : forall pre acc,
  (forall k, check_state ss k = None) ->
  (forall i it, nth_error items i = Some it ->
                exists d, it = JObj d /\
                          render ss d (index_key key_prefix (length pre + i))
                          = Some d) ->
  foldO (render_slot render ss (pre ++ items) default key_prefix)
        (seq (length pre) (length items)) (acc, [])
  = Some (acc ++ items, []).
Proof.
  induction items as [|e es IH]; intros pre acc Hc Hall.
  - simpl. now rewrite app_nil_r.
  - cbn [length seq foldO].
    destruct (Hall 0 e eq_refl) as (d & -> & Hd).
    rewrite Nat.add_0_r in Hd.
    assert (Hstep : render_slot render ss (pre ++ JObj d :: es) default
                      key_prefix (acc, []) (length pre)
                    = Some (acc ++ [JObj d], [])).
    { unfold render_slot, item_at.
      rewrite nth_error_app2, Nat.sub_diag by lia. cbn [nth_error as_dict].
      unfold checkbox. rewrite Hc, Hd. reflexivity. }
    rewrite Hstep.
    replace (pre ++ JObj d :: es) with ((pre ++ [JObj d]) ++ es)
      by (now rewrite <- app_assoc).
    replace (S (length pre)) with (length (pre ++ [JObj d]))
      by (rewrite length_app; simpl; lia).
    rewrite IH; [now rewrite <- app_assoc|assumption|].
    intros i it Hi. destruct (Hall (S i) it Hi) as (d' & -> & Hd').
    exists d'. split; [reflexivity|].
    rewrite length_app. simpl.
    now replace (length pre + 1 + i) with (length pre + S i) by lia.
Qed.

Lemma slots_stable render default key_prefix count_key add_key items :
  (forall i it, nth_error items i = Some it ->
                exists d, it = JObj d /\
                          render (set_count fresh count_key (length items)) d
                            (index_key key_prefix i) = Some d) ->
  render_slots render items default key_prefix count_key add_key fresh
  = Done items (set_count fresh count_key (length items)).
Proof.
  intros Hall. unfold render_slots.
  unfold bindM at 1. unfold init_count. cbn [fresh count_state].
  rewrite bind_read_opt.
  rewrite (slots_again render _ default key_prefix items [] []);
    [|reflexivity|exact Hall].
  cbn [app]. rewrite bind_reads. reflexivity.
Qed.

Lemma multiplier_stable `{PyFloat} ss wm key_prefix key_prefix' d :
  render_weight_multiplier ss wm key_prefix = Some d ->
  (forall x, text_state ss (key (key_prefix ++ "_mc") "timeRange") = Some x ->
             In x TIME_RANGES) ->
  (forall x, text_state ss (key (key_prefix ++ "_mc") "moonPhase") = Some x ->
             In x MOON_PHASES) ->
  render_weight_multiplier fresh d key_prefix' = Some d.
Proof.
  intros Hr Ht Hm. unfold render_weight_multiplier in Hr.
  destruct (float_of _) as [value|]; [|discriminate].
  destruct (number_input_float ss _ value) as [mult|] eqn:Em; [|discriminate].
  apply AppFacts.number_input_float_safe in Em.
  destruct (as_dict _) as [c|]; [|discriminate].
  destruct (render_condition ss c _) as [cond|] eqn:Ec; [|discriminate].
  injection Hr as <-.
  unfold render_weight_multiplier.
  cbn [Py.set Py.get_or Py.get String.eqb Ascii.eqb Bool.eqb float_of as_dict].
  rewrite (AppFacts.number_input_float_fresh _ _ Em).
  rewrite (ConditionStable.stable _ _ _ _ _ Ec Ht Hm).
  cbn [Py.set String.eqb Ascii.eqb Bool.eqb]. reflexivity.
Qed.

End SlotsStable.

Module SpeciesFacts.
Import GetDefault.

Lemma to_lower_twice c : Str.to_lower (Str.to_lower c) = Str.to_lower c.
Proof.
  destruct c as [[] [] [] [] [] [] [] []]; reflexivity.
Qed.

Lemma lower_twice s : Str.lower (Str.lower s) = Str.lower s.
Proof.
  unfold Str.lower. induction s as [|c r IH]; [reflexivity|].
  cbn [Str.map_chars]. now rewrite to_lower_twice, IH.
Qed.

Lemma fetch_one_cases species m r :
  fetch_one species m = Some r ->
  r = species \/
  exists dex s, r = species ++ [(dex, Str.lower s)] /\ dex <> JNull /\ s <> "".
Proof.
  unfold fetch_one. destruct (negb (isfile m) || _); [intros [= <-]; auto|].
  destruct (content m) as [[| | | | | |info]|]; try discriminate;
    [|intros [= <-]; auto].
  cbv zeta.
  destruct (Py.get_or info "nationalPokedexNumber" JNull)
    as [|b0|n0|f0|s0|l0|kv0] eqn:Ed;
    cbn [negb andb]; try (intros [= <-]; now auto);
    (destruct (Py.truthy (Py.get_or info "name" JNull)) eqn:Et;
     [|intros [= <-]; now auto]);
    (destruct (Py.get_or info "name" JNull) as [| | | |s| |];
     try discriminate; intros [= <-]; right; eexists; exists s;
     split; [reflexivity|]; split; [discriminate|]; now destruct s).
Qed.

Lemma fetch_one_skip species m : read m = false -> fetch_one species m = Some species.
Proof.
  unfold read, fetch_one. intros Hr.
  destruct (isfile m); [|reflexivity].
  destruct (Str.endswith (name m) ".json"); [|reflexivity].
  cbn in Hr |- *. now destruct (content m).
Qed.

Lemma fetched members : forall acc species,
  App.foldO fetch_one members acc = Some species ->
  Forall (fun sp => fst sp <> JNull /\ snd sp <> "" /\
                    Str.lower (snd sp) = snd sp) acc ->
  Forall (fun sp => fst sp <> JNull /\ snd sp <> "" /\
                    Str.lower (snd sp) = snd sp) species /\
  length species <= length acc + length (filter read members) /\
  App.foldO fetch_one (filter read members) acc = Some species.
Proof.
  induction members as [|m members IH]; intros acc species Hf Hacc.
  - cbn in Hf. injection Hf as <-. cbn. repeat split; auto. lia.
  - cbn [App.foldO] in Hf.
    destruct (fetch_one acc m) as [acc1|] eqn:E1; [|discriminate].
    cbn [filter]. destruct (read m) eqn:Er.
    + cbn [App.foldO length]. rewrite E1.
      apply fetch_one_cases in E1 as [->|(dex & s & -> & Hd & Hs)].
      * destruct (IH _ _ Hf Hacc) as (H1 & H2 & H3). repeat split; auto. lia.
      * destruct (IH _ _ Hf) as (H1 & H2 & H3).
        { apply Forall_app. split; auto. constructor; [|constructor].
          cbn. repeat split; auto.
          - destruct s; [congruence|discriminate].
          - apply lower_twice. }
        repeat split; auto. rewrite length_app in H2. simpl in H2. lia.
    + rewrite (fetch_one_skip acc m Er) in E1. injection E1 as <-.
      now apply IH.
Qed.

End SpeciesFacts.
(* ===================================================================== *)
(** * The main window of [exe.py] *)
(* ===================================================================== *)

Section MainWindow.
Import Files ExeMain ExeMain.CobblemonSpawnEditor.

(** X1: once a file is open in the desktop editor (its name is not
    empty, as no name of the list is), "Save" does not fail, and the
    object it writes has the four keys [enabled],
    [neededInstalledMods], [neededUninstalledMods] and [spawns] and no
    other, one spawn per editor: whatever other key the file had at its
    top level is gone from the file that is read back. *)
Theorem save_writes_four_keys `{PyFloat} self dir file vars :
  current_file self = Some file ->
  file <> "" ->
  top self = Some vars ->
  exists data spawns,
    _save self dir = Some (save_spawn_data dir file data) /\
    load_spawn_data (save_spawn_data dir file data) file = Some (JObj data) /\
    Py.keys data = ["enabled"; "neededInstalledMods";
                    "neededUninstalledMods"; "spawns"] /\
    Py.get data "spawns" = Some (JList (map JObj spawns)) /\
    length spawns = length (spawn_editors self).
Proof.
  intros Hc Hne Ht. destruct (ExeMainFacts.collect_data self vars Ht)
    as (spawns & Hm & Hd).
  eexists. exists spawns. unfold _save. rewrite Hc, Hd.
  destruct file as [|c file]; [congruence|]. cbn [Py.str_truthy negb].
  split; [reflexivity|]. split; [|split; [reflexivity|split; [reflexivity|]]].
  - unfold load_spawn_data, save_spawn_data.
    now rewrite StrFacts.assoc_set_same.
  - now apply mapM_length in Hm.
Qed.

Lemma save_writes_four_keys_witness :
  exists data spawns,
    _save Scenes.opened Scenes.dir
    = Some (save_spawn_data Scenes.dir "0016_pidgey.json" data) /\
    load_spawn_data (save_spawn_data Scenes.dir "0016_pidgey.json" data)
      "0016_pidgey.json" = Some (JObj data) /\
    Py.keys data = ["enabled"; "neededInstalledMods";
                    "neededUninstalledMods"; "spawns"] /\
    Py.get data "spawns" = Some (JList (map JObj spawns)) /\
    length spawns = length (spawn_editors Scenes.opened).
Proof.
  exact (save_writes_four_keys (H := example_floats) Scenes.opened Scenes.dir
           "0016_pidgey.json"
           {| enabled_var := false;
              installed_var := "cobblemon, mega showdown";
              uninstalled_var := "" |} eq_refl ltac:(discriminate) eq_refl).
Defined.

(** X2: opening a file in the desktop editor and collecting the form
    without touching it gives back the file's [enabled] flag ([true] when
    the file has none) and each of its two mod lists, provided the entries
    of the list are non-empty, have no white space at either end and no
    comma; an absent list is written as the empty list. *)
Theorem top_fields_survive_open `{PyFloat} self dir filename display self' data :
  load_spawn_data dir filename = Some (JObj data) ->
  _load_editor self dir filename display = Completed self' ->
  exists out,
    _collect_data self' = Some out /\
    (Py.get data "enabled" = None ->
     Py.get out "enabled" = Some (JBool true)) /\
    (forall b, Py.get data "enabled" = Some (JBool b) ->
               Py.get out "enabled" = Some (JBool b)) /\
    (forall key l,
        key = "neededInstalledMods" \/ key = "neededUninstalledMods" ->
        Py.get data key = Some (JList (map JStr l)) ->
        Forall (fun m => Shape.clean_mod m = true) l ->
        Py.get out key = Some (JList (map JStr l))) /\
    (forall key,
        key = "neededInstalledMods" \/ key = "neededUninstalledMods" ->
        Py.get data key = None ->
        Py.get out key = Some (JList [])).
Proof.
  intros Hl Hc.
  apply ExeMainFacts.load_editor_inv in Hc
    as (data' & enabled & installed & uninstalled & spawns & Hl' & He & Hi
        & Hu & _ & _ & _ & _ & Ht).
  rewrite Hl in Hl'. injection Hl' as <-.
  destruct (ExeMainFacts.collect_data self' _ Ht) as (sp & _ & Hd).
  eexists. split; [exact Hd|]. cbn [enabled_var installed_var uninstalled_var].
  split; [|split; [|split]].
  - intros Hn. unfold Py.get_or in He. rewrite Hn in He.
    injection He as <-. reflexivity.
  - intros b Hb. unfold Py.get_or in He. rewrite Hb in He.
    injection He as <-. reflexivity.
  - intros key l [-> | ->] Hg Hall.
    + rewrite (ExeMainFacts.mods_text_get _ _ _ Hg) in Hi. injection Hi as <-.
      rewrite ModsFacts.mods_of_join by assumption. reflexivity.
    + rewrite (ExeMainFacts.mods_text_get _ _ _ Hg) in Hu. injection Hu as <-.
      rewrite ModsFacts.mods_of_join by assumption. reflexivity.
  - intros key [-> | ->] Hg.
    + rewrite (ExeMainFacts.mods_text_absent _ _ Hg) in Hi. injection Hi as <-.
      reflexivity.
    + rewrite (ExeMainFacts.mods_text_absent _ _ Hg) in Hu. injection Hu as <-.
      reflexivity.
Qed.

Lemma top_fields_survive_open_witness :
  exists out,
    _collect_data Scenes.opened = Some out /\
    Py.get out "enabled" = Some (JBool false) /\
    Py.get out "neededInstalledMods"
    = Some (JList [JStr "cobblemon"; JStr "mega showdown"]) /\
    Py.get out "neededUninstalledMods" = Some (JList []).
Proof.
  assert (Hl : load_spawn_data Scenes.dir "0016_pidgey.json"
               = Some (JObj Scenes.pidgey_file)) by reflexivity.
  assert (Hc : _load_editor (with_current Scenes.listed "0016_pidgey.json")
                 Scenes.dir "0016_pidgey.json" "#0016 Pidgey"
               = Completed Scenes.opened) by (vm_compute; reflexivity).
  destruct (top_fields_survive_open _ _ _ _ _ _ Hl Hc)
    as (out & Hd & _ & Hb & Hm & Ha).
  exists out. split; [exact Hd|]. split; [|split].
  - apply Hb. reflexivity.
  - apply (Hm "neededInstalledMods" ["cobblemon"; "mega showdown"]).
    + now left.
    + reflexivity.
    + repeat constructor.
  - apply Ha; [now right|reflexivity].
Defined.

(** X3: a file that cannot be read (it is missing, or does not hold a JSON
    object) still becomes the current file when it is picked in the list (no
    name of the list is empty):
    the exception leaves the window with that file current, no spawn
    editor, and the top-level variables of the file that was open before.
    "Save" then writes those variables and an empty spawn list under the
    name of the unreadable file. *)
Theorem unreadable_file_becomes_current `{PyFloat} self dir idx fname display :
  nth_error (_filtered self) idx = Some (fname, display) ->
  fname <> "" ->
  current_file self <> Some fname ->
  (v <~ load_spawn_data dir fname ;; as_dict v) = None ->
  exists self',
    _on_select self (Some idx) dir = Failed self' /\
    current_file self' = Some fname /\
    spawn_editors self' = [] /\
    top self' = top self /\
    forall vars dir',
      top self = Some vars ->
      _save self' dir'
      = Some (save_spawn_data dir' fname
                [("enabled", JBool (enabled_var vars));
                 ("neededInstalledMods",
                  JList (map JStr (mods_of (installed_var vars))));
                 ("neededUninstalledMods",
                  JList (map JStr (mods_of (uninstalled_var vars))));
                 ("spawns", JList [])]).
Proof.
  intros Hn Hf Hc Hl. eexists. unfold _on_select. rewrite Hn.
  assert (Hne : match current_file self with
                | Some c => String.eqb fname c
                | None => false
                end = false).
  { destruct (current_file self) as [c|]; [|reflexivity].
    destruct (String.eqb_spec fname c); [subst; congruence|reflexivity]. }
  rewrite Hne. unfold _load_editor. rewrite Hl.
  split; [reflexivity|]. repeat split.
  intros vars dir' Ht. unfold _save, _collect_data. simpl.
  destruct fname as [|c fname]; [congruence|]. cbn [Py.str_truthy negb].
  now rewrite Ht.
Qed.

Lemma unreadable_file_becomes_current_witness :
  exists self',
    _on_select Scenes.opened (Some 1) Scenes.dir = Failed self' /\
    current_file self' = Some "0017_pidgeotto.json" /\
    spawn_editors self' = [] /\
    load_spawn_data Scenes.dir "0017_pidgeotto.json" = None /\
    exists dir',
      _save self' Scenes.dir = Some dir' /\
      load_spawn_data dir' "0017_pidgeotto.json"
      = Some (JObj [("enabled", JBool false);
                    ("neededInstalledMods",
                     JList [JStr "cobblemon"; JStr "mega showdown"]);
                    ("neededUninstalledMods", JList []);
                    ("spawns", JList [])]).
Proof.
  assert (Hn : nth_error (_filtered Scenes.opened) 1
               = Some ("0017_pidgeotto.json", "#0017 Pidgeotto"))
    by reflexivity.
  assert (Hc : current_file Scenes.opened <> Some "0017_pidgeotto.json")
    by discriminate.
  assert (Hl : (v <~ load_spawn_data Scenes.dir "0017_pidgeotto.json" ;;
                as_dict v) = None) by reflexivity.
  destruct (unreadable_file_becomes_current (H := example_floats)
              Scenes.opened Scenes.dir 1 _ _ Hn ltac:(discriminate) Hc Hl)
    as (self' & Hs & Hcur & Hed & Htop & Hsave).
  exists self'. split; [exact Hs|]. split; [exact Hcur|].
  split; [exact Hed|]. split; [reflexivity|].
  eexists. split; [apply Hsave; reflexivity|]. reflexivity.
Defined.

(** X4: "Add new spawn" in the desktop editor always succeeds on an open
    file (its name is not empty); the editor it adds is collected as a spawn with the keys [id],
    [type], [pokemon], [presets], [spawnablePositionType], [bucket],
    [level] and [weight], in this order, so without the empty condition
    of the template; the id counts the editors that are there, deleted
    ones not included. Here [float] is taken to read back the text [str]
    makes of [1.0]. *)
Theorem added_spawn_collected `{PyFloat} self file :
  current_file self = Some file ->
  file <> "" ->
  float_ (repr_float 1.0) = Some 1.0%float ->
  exists editor,
    _add_spawn self
    = Some (with_editors self (spawn_editors self ++ [editor])) /\
    Exe.SpawnEditor.get_data editor
    = Ok [("id", JStr (poke_name file ++ "-" ++
                       Py.str_int (Z.of_nat (length (spawn_editors self) + 1))));
          ("type", JStr "pokemon");
          ("pokemon", JStr (poke_name file));
          ("presets", JList [JStr "natural"]);
          ("spawnablePositionType", JStr "grounded");
          ("bucket", JStr "common");
          ("level", JStr "1-50");
          ("weight", JFloat 1.0)].
Proof.
  intros Hc Hne Hf. unfold _add_spawn. rewrite Hc.
  replace (negb (Py.str_truthy file)) with false
    by (destruct file; [congruence|reflexivity]).
  unfold new_spawn. cbv zeta.
  set (id := (poke_name file ++ "-" ++ _)%string).
  set (name := poke_name file).
  eexists. split; [reflexivity|].
  unfold Exe.SpawnEditor.get_data. cbn. rewrite Hf. cbn. reflexivity.
Qed.

Lemma added_spawn_collected_witness :
  exists editor,
    _add_spawn Scenes.opened
    = Some (with_editors Scenes.opened
              (spawn_editors Scenes.opened ++ [editor])) /\
    Exe.SpawnEditor.get_data editor
    = Ok [("id", JStr "pidgey-2"); ("type", JStr "pokemon");
          ("pokemon", JStr "pidgey"); ("presets", JList [JStr "natural"]);
          ("spawnablePositionType", JStr "grounded");
          ("bucket", JStr "common"); ("level", JStr "1-50");
          ("weight", JFloat 1.0)].
Proof.
  assert (Hf : float_ (repr_float 1.0) = Some 1.0%float)
    by (vm_compute; reflexivity).
  destruct (added_spawn_collected Scenes.opened "0016_pidgey.json"
              eq_refl ltac:(discriminate) Hf) as (editor & Ha & Hd).
  exists editor. split; [exact Ha|exact Hd].
Defined.

(** X5: pressing "OK" in the preset popup without ticking anything gives
    the spawn the presets it had, each once: first the known ones in the
    order of [PRESET_OPTIONS], then the others. *)
Theorem presets_after_ok self :
  let presets := Exe.SpawnEditor.presets_list self in
  let selected := ChecklistPopup._ok (_edit_presets self) in
  (forall p, In p selected <-> In p presets) /\
  NoDup selected /\
  exists customs,
    selected = filter (fun o => Py.mem o presets) PRESET_OPTIONS ++ customs /\
    Forall (fun c => Py.mem c PRESET_OPTIONS = false) customs.
Proof.
  intros presets selected. subst selected.
  unfold ChecklistPopup._ok, _edit_presets, ChecklistPopup.__init__.
  cbn [ChecklistPopup.vars]. fold presets.
  set (f := fun o => Py.mem o presets).
  change (fun vars opt => Str.set vars opt (Py.mem opt presets))
    with (Shape.tick f).
  set (C := filter (fun p => negb (Py.mem p PRESET_OPTIONS)) presets).
  rewrite fold_left_app.
  assert (HP : NoDup PRESET_OPTIONS)
    by (apply PyFacts.nodupb_NoDup; vm_compute; reflexivity).
  pose proof (ExeMainFacts.ticks_fresh f PRESET_OPTIONS [] HP) as Hfold.
  cbn [map app] in Hfold. rewrite Hfold.
  assert (Ht0 : Shape.ticked f (map (fun o => (o, f o)) PRESET_OPTIONS)).
  { apply Forall_forall. intros e He. apply in_map_iff in He as (o & <- & _).
    reflexivity. }
  assert (Hk0 : map fst (map (fun o => (o, f o)) PRESET_OPTIONS)
                = PRESET_OPTIONS).
  { rewrite map_map. apply map_id. }
  destruct (ExeMainFacts.ticks f C _ Ht0) as (tail & -> & Ht & Hnd & Hk).
  { now rewrite Hk0. }
  rewrite Hk0 in Hk. split; [|split].
  - intros p. split.
    + intros Hin. apply in_map_iff in Hin as ([k v] & <- & Hin).
      apply filter_In in Hin as [Hin Hv]. simpl in Hv. subst v.
      unfold Shape.ticked in Ht. rewrite Forall_forall in Ht.
      specialize (Ht _ Hin). simpl in Ht. symmetry in Ht.
      now apply PyFacts.mem_In in Ht.
    + intros Hin.
      assert (Hf : f p = true) by (now apply PyFacts.mem_In).
      assert (Hkey : In p (map fst (map (fun o => (o, f o)) PRESET_OPTIONS
                                    ++ tail))).
      { rewrite map_app, Hk0, in_app_iff.
        destruct (in_dec string_dec p PRESET_OPTIONS) as [Hp|Hp]; [now left|].
        right. apply Hk. split; auto. apply filter_In. split; auto.
        apply negb_true_iff. destruct (Py.mem p PRESET_OPTIONS) eqn:E; auto.
        apply PyFacts.mem_In in E. tauto. }
      apply in_map_iff in Hkey as ([k v] & Hp & Hkey). simpl in Hp. subst k.
      apply in_map_iff. exists (p, v). split; auto. apply filter_In.
      split; auto. unfold Shape.ticked in Ht. rewrite Forall_forall in Ht.
      specialize (Ht _ Hkey). simpl in *. congruence.
  - now apply ExeMainFacts.NoDup_filter_keys.
  - exists (map fst (filter snd tail)). split.
    + rewrite filter_app, map_app. f_equal. apply ExeMainFacts.ok_map.
    + apply Forall_forall. intros c Hc.
      apply in_map_iff in Hc as (e & <- & He). apply filter_In in He as [He _].
      assert (Hin : In (fst e) (map fst tail)) by (apply in_map; auto).
      apply Hk in Hin as [_ Hn].
      destruct (Py.mem (fst e) PRESET_OPTIONS) eqn:E; auto.
      apply PyFacts.mem_In in E. tauto.
Qed.

(** X6: the two mod lists the desktop editor collects are fixed under
    opening and saving: their entries are non-empty, have no white space
    at either end and no comma, and the text a later [_load_editor] shows
    for such a list is collected as the same list. *)
Theorem saved_mod_lists_are_stable `{PyFloat} self data key :
  _collect_data self = Some data ->
  key = "neededInstalledMods" \/ key = "neededUninstalledMods" ->
  exists l text,
    Py.get data key = Some (JList (map JStr l)) /\
    Forall (fun m => Shape.clean_mod m = true) l /\
    mods_text data key = Some text /\
    mods_of text = l.
Proof.
  intros Hd Hk. unfold _collect_data in Hd.
  destruct (top self) as [vars|]; [|discriminate].
  destruct (mapM _ _) as [spawns|]; [|discriminate].
  injection Hd as <-.
  destruct Hk as [-> | ->].
  - exists (mods_of (installed_var vars)), (Py.join ", " (mods_of (installed_var vars))).
    split; [reflexivity|]. split; [apply ModsFacts.mods_of_clean|].
    split.
    + unfold mods_text. cbn. now rewrite traverse_as_str.
    + apply ModsFacts.mods_of_join, ModsFacts.mods_of_clean.
  - exists (mods_of (uninstalled_var vars)),
      (Py.join ", " (mods_of (uninstalled_var vars))).
    split; [reflexivity|]. split; [apply ModsFacts.mods_of_clean|].
    split.
    + unfold mods_text. cbn. now rewrite traverse_as_str.
    + apply ModsFacts.mods_of_join, ModsFacts.mods_of_clean.
Qed.

Lemma saved_mod_lists_are_stable_witness :
  exists data l text,
    _collect_data
      (with_top Scenes.opened
         {| enabled_var := true;
            installed_var := " cobblemon ,, mega showdown,";
            uninstalled_var := "" |}) = Some data /\
    Py.get data "neededInstalledMods" = Some (JList (map JStr l)) /\
    l = ["cobblemon"; "mega showdown"] /\
    mods_text data "neededInstalledMods" = Some text /\
    mods_of text = l.
Proof.
  eexists.
  assert (Hd : _collect_data
                 (with_top Scenes.opened
                    {| enabled_var := true;
                       installed_var := " cobblemon ,, mega showdown,";
                       uninstalled_var := "" |}) = Some _)
    by (vm_compute; reflexivity).
  destruct (saved_mod_lists_are_stable _ _ "neededInstalledMods" Hd
              (or_introl eq_refl)) as (l & text & Hg & _ & Ht & Hm).
  exists l, text. split; [exact Hd|]. split; [exact Hg|].
  split; [|split; [exact Ht|exact Hm]].
  cbn in Hg. injection Hg as Hg.
  clear - Hg. destruct l as [|a [|b [|c l]]]; try discriminate.
  now injection Hg as <- <-.
Defined.

(** X7: the two front-ends list the same files for the same search text:
    the list the desktop editor shows after the text is typed is the list
    the browser form filters. *)
Theorem both_front_ends_filter_alike self text :
  _filtered (type_search self text) = AppMain.filtered (files self) text /\
  listbox (type_search self text)
  = map snd (AppMain.filtered (files self) text).
Proof.
  assert (Hf : _filtered (type_search self text)
               = AppMain.filtered (files self) text).
  { unfold type_search, _filter_list, AppMain.filtered.
    cbn [files search_var _filtered].
    destruct text as [|c r].
    - cbn. induction (files self) as [|[f d] l IH]; [reflexivity|].
      cbn. now rewrite IH.
    - cbn [Py.str_truthy]. apply filter_ext. intros [f d].
      unfold shown. reflexivity. }
  split; [exact Hf|]. rewrite <- Hf. reflexivity.
Qed.

End MainWindow.
(* ===================================================================== *)
(** * Blank files and their names *)
(* ===================================================================== *)

Section BlankFiles.
Import Files GetDefault.

(** X8: [create_blank_spawns] only adds files: the directory afterwards is
    the directory before followed by the new files, so every entry that was
    there is there unchanged; each new file holds the blank record, has a
    name that was not in use, and is named after a species whose number no
    downloaded file has; and the count reported is the number of new
    files. *)
Theorem only_blank_files_added dir existing_files species dir' count :
  create_blank_spawns dir existing_files species = Some (dir', count) ->
  exists added,
    dir' = dir ++ added /\
    count = length added /\
    NoDup (map fst added) /\
    Forall (Shape.added_blank (existing_dex existing_files) species dir)
           added /\
    (forall name c, Py.assoc name dir = Some c ->
                    Py.assoc name dir' = Some c).
Proof.
  unfold create_blank_spawns.
  destruct (traverse numbered species) as [l|] eqn:El; [|discriminate].
  intros Hf.
  apply (GetDefaultFacts.fold_added _ species) in Hf
    as (added & -> & -> & Hall & Hnd).
  - exists added. repeat split; auto.
    intros name c Hc. rewrite PyFacts.assoc_app. now rewrite Hc.
  - intros dex name Hx. apply SortFacts.In_sorted in Hx.
    now apply (GetDefaultFacts.numbered_In species l El).
Qed.

Lemma only_blank_files_added_witness :
  exists added,
    Scenes.with_blanks = Scenes.dir ++ added /\
    1 = length added /\
    NoDup (map fst added) /\
    Forall (Shape.added_blank (existing_dex Scenes.downloaded) Scenes.species
              Scenes.dir) added /\
    (forall name c, Py.assoc name Scenes.dir = Some c ->
                    Py.assoc name Scenes.with_blanks = Some c).
Proof.
  apply (only_blank_files_added Scenes.dir Scenes.downloaded Scenes.species).
  vm_compute. reflexivity.
Defined.



(** X10: the file that [create_blank_spawns] makes for a species with a
    number that is not negative and a non-empty name without a line break
    is understood by the readers of the directory: [load_pokemon_files]
    lists it as [#dddd Name], the number padded as in the file name and the
    name in title case with blanks for underscores; a later
    [create_blank_spawns] reads the species' number from it; and "Add new
    spawn" takes the species' name from it. *)
Theorem blank_file_is_listed dex name fnames :
  (0 <= dex)%Z -> name <> "" -> Py.no_nl name = true ->
  display (blank_name dex name)
  = ("#" ++ Str.format_04d dex ++ " " ++
     Str.title (Str.replace "_" " " name))%string /\
  (In (blank_name dex name) fnames ->
   In (blank_name dex name,
       ("#" ++ Str.format_04d dex ++ " " ++
        Str.title (Str.replace "_" " " name))%string)
      (load_pokemon_files fnames)) /\
  existing_dex [blank_name dex name] = [dex] /\
  poke_name (blank_name dex name) = name.
Proof.
  intros Hdex Hne Hnl.
  assert (Ha : Shape.all_in Re.dot name = true).
  { clear Hne. induction name as [|c r IH]; [reflexivity|].
    simpl in Hnl |- *. apply andb_true_iff in Hnl as [Hc Hr].
    now rewrite Hc, IH. }
  pose proof (FormatFacts.format_nonempty dex) as HD.
  pose proof (FormatFacts.all_digits_format dex Hdex) as Hd.
  assert (Hdisp : display (blank_name dex name)
                  = ("#" ++ Str.format_04d dex ++ " " ++
                     Str.title (Str.replace "_" " " name))%string).
  { unfold display, blank_name. rewrite ReFacts.match_FILE by assumption.
    now rewrite FormatFacts.int_format. }
  split; [exact Hdisp|]. split; [|split].
  - intros Hin. unfold load_pokemon_files. rewrite <- Hdisp.
    apply (in_map (fun f => (f, display f))).
    now apply SortFacts.In_sorted.
  - unfold existing_dex, blank_name. cbn [flat_map].
    rewrite ReFacts.match_DEX by assumption.
    now rewrite FormatFacts.int_format.
  - unfold poke_name, blank_name. now rewrite ReFacts.match_POKE.
Qed.

Lemma blank_file_is_listed_witness :
  display "0001_mr_mime.json" = "#0001 Mr Mime" /\
  (In "0001_mr_mime.json" ["0002_b.json"; "0001_mr_mime.json"] ->
   In ("0001_mr_mime.json", "#0001 Mr Mime")
      (load_pokemon_files ["0002_b.json"; "0001_mr_mime.json"])) /\
  existing_dex ["0001_mr_mime.json"] = [1%Z] /\
  poke_name "0001_mr_mime.json" = "mr_mime".
Proof.
  apply (blank_file_is_listed 1 "mr_mime"); [lia|discriminate|reflexivity].
Defined.

(** X11: [load_pokemon_names] gives a species and its herd file one name.  For
    a file name made of digits, an underscore, a non-empty name without dot
    or line break, and [.json] or [_herd.json], the name read is that
    name, in the first case provided the name does not end in [_herd]
    itself; so the two files together give the one name. *)
Theorem herd_file_shares_the_name D name :
  D <> "" -> Py.all_digits D = true ->
  name <> "" -> Py.no_nl name = true -> Shape.lacks "." name = true ->
  pokemon_name (D ++ "_" ++ name ++ "_herd.json") = [name] /\
  (Shape.ends_with "_herd" name = false ->
   pokemon_name (D ++ "_" ++ name ++ ".json") = [name] /\
   load_pokemon_names [(D ++ "_" ++ name ++ ".json")%string;
                       (D ++ "_" ++ name ++ "_herd.json")%string] = [name]).
Proof.
  intros HD Hd Hne Hnl Hl.
  assert (Ha : Shape.all_in Re.dot name = true).
  { clear Hne Hl. induction name as [|c r IH]; [reflexivity|].
    simpl in Hnl |- *. apply andb_true_iff in Hnl as [Hc Hr].
    now rewrite Hc, IH. }
  assert (Hh : pokemon_name (D ++ "_" ++ name ++ "_herd.json") = [name]).
  { unfold pokemon_name. now rewrite ReFacts.match_NAME_herd. }
  split; [exact Hh|]. intros He.
  assert (Hp : pokemon_name (D ++ "_" ++ name ++ ".json") = [name]).
  { unfold pokemon_name. now rewrite ReFacts.match_NAME. }
  split; [exact Hp|].
  unfold load_pokemon_names. cbn [flat_map]. rewrite Hp, Hh.
  cbn [app nodup]. destruct (in_dec string_dec name [name]) as [_|Hn].
  - reflexivity.
  - exfalso. apply Hn. now left.
Qed.

Lemma herd_file_shares_the_name_witness :
  pokemon_name "0025_pikachu_herd.json" = ["pikachu"] /\
  (Shape.ends_with "_herd" "pikachu" = false ->
   pokemon_name "0025_pikachu.json" = ["pikachu"] /\
   load_pokemon_names ["0025_pikachu.json"; "0025_pikachu_herd.json"]
   = ["pikachu"]).
Proof.
  apply (herd_file_shares_the_name "0025" "pikachu");
    [discriminate|reflexivity|discriminate|reflexivity|reflexivity].
Defined.

End BlankFiles.
Section Species.
Import GetDefault.

(** X12: every species [fetch_all_species] returns has a number that is
    not null and a name that is not empty and is in lower case; there is at
    most one per member that is a file, is named [*.json] and holds JSON;
    the other members are passed over, so the result is the one for those
    members alone. *)
Theorem species_are_named members species :
  fetch_all_species members = Some species ->
  Forall (fun sp => fst sp <> JNull /\ snd sp <> "" /\
                    Str.lower (snd sp) = snd sp) species /\
  length species <= length (filter read members) /\
  fetch_all_species (filter read members) = Some species.
Proof.
  intros Hf. apply SpeciesFacts.fetched in Hf; [|constructor]. exact Hf.
Qed.

Lemma species_are_named_witness :
  exists species,
    fetch_all_species
      [{| isfile := false; name := "species"; content := None |};
       {| isfile := true; name := "species/pidgey.json";
          content := Some (JObj [("name", JStr "Pidgey");
                                 ("nationalPokedexNumber", JInt 16)]) |};
       {| isfile := true; name := "species/broken.json"; content := None |};
       {| isfile := true; name := "species/unnamed.json";
          content := Some (JObj [("nationalPokedexNumber", JInt 17)]) |}]
    = Some species /\
    species = [(JInt 16, "pidgey")] /\
    Forall (fun sp => fst sp <> JNull /\ snd sp <> "" /\
                      Str.lower (snd sp) = snd sp) species.
Proof.
  eexists.
  match goal with
  | |- ?G /\ _ => assert (Hf : G) by (vm_compute; reflexivity)
  end.
  split; [exact Hf|]. split; [reflexivity|].
  exact (proj1 (species_are_named _ _ Hf)).
Defined.

End Species.

(* ===================================================================== *)
(** * The page of [app.py] *)
(* ===================================================================== *)

Section Browser.
Import Files App AppMain.



(** X14: the file the browser form opens is the last of the listed files
    that has the display name picked in the select box: a file that is
    followed in the list by a file with the same display name is not
    opened by any choice. *)
Theorem opened_file_is_last_of_its_name `{PyFloat} fnames dir ss file fk data
  ss' :
  editor fnames dir ss = Done (Editing file fk data) ss' ->
  exists before after,
    filtered (load_pokemon_files fnames) (text_input ss "search" "")
    = before ++ (file, display file) :: after /\
    ~ In (display file) (map snd after) /\
    selectbox ss "pokemon_select"
      (map fst (options (filtered (load_pokemon_files fnames)
                           (text_input ss "search" "")))) 0
    = Some (display file).
Proof.
  intros He.
  apply AppMainFacts.editor_inv in He
    as (d & data0 & s0 & installed & uninstalled & updated & Hsel & Ha & _).
  destruct (AppMainFacts.options_last _ _ _ Ha) as (before & after & Hf & Hn).
  assert (Hd : d = display file).
  { apply (AppMainFacts.listed_display fnames).
    apply (AppMainFacts.filtered_incl _ (text_input ss "search" "")).
    rewrite Hf. apply in_or_app. right. now left. }
  subst d. exists before, after. auto.
Qed.

Lemma opened_file_is_last_of_its_name_witness :
  exists fk data ss' before after,
    editor ["1_pidgey.json"; "0001_pidgey.json"]
      [("0001_pidgey.json", Some (JObj [])); ("1_pidgey.json", Some (JObj []))]
      fresh
    = Done (Editing "1_pidgey.json" fk data) ss' /\
    filtered (load_pokemon_files ["1_pidgey.json"; "0001_pidgey.json"])
      (text_input fresh "search" "")
    = before ++ ("1_pidgey.json", display "1_pidgey.json") :: after /\
    ~ In (display "1_pidgey.json") (map snd after) /\
    display "0001_pidgey.json" = display "1_pidgey.json".
Proof.
  do 3 eexists.
  assert (He : editor ["1_pidgey.json"; "0001_pidgey.json"]
                 [("0001_pidgey.json", Some (JObj []));
                  ("1_pidgey.json", Some (JObj []))] fresh
               = Done (Editing "1_pidgey.json" _ _) _)
    by (vm_compute; reflexivity).
  destruct (opened_file_is_last_of_its_name _ _ _ _ _ _ _ He)
    as (before & after & Hf & Hn & _).
  exists before, after. split; [exact He|]. split; [exact Hf|].
  split; [exact Hn|reflexivity].
Defined.

(** X15: in a run of the browser form in which the three top-level widgets
    of the file hold no state of their own, the data the form ends with
    has the file's [enabled] flag ([true] when the file has none) and each
    of its two mod lists, provided the entries of the list are non-empty,
    have no white space at either end and no comma; an absent list becomes
    the empty list. *)
Theorem browser_top_fields_survive `{PyFloat} fnames dir ss file fk data'
  ss' :
  editor fnames dir ss = Done (Editing file fk data') ss' ->
  check_state ss (fk ++ "_enabled") = None ->
  text_state ss (fk ++ "_installed_mods") = None ->
  text_state ss (fk ++ "_uninstalled_mods") = None ->
  exists data,
    load_spawn_data dir file = Some (JObj data) /\
    (Py.get data "enabled" = None ->
     Py.get data' "enabled" = Some (JBool true)) /\
    (forall b, Py.get data "enabled" = Some (JBool b) ->
               Py.get data' "enabled" = Some (JBool b)) /\
    (forall key l,
        key = "neededInstalledMods" \/ key = "neededUninstalledMods" ->
        Py.get data key = Some (JList (map JStr l)) ->
        Forall (fun m => Shape.clean_mod m = true) l ->
        Py.get data' key = Some (JList (map JStr l))) /\
    (forall key,
        key = "neededInstalledMods" \/ key = "neededUninstalledMods" ->
        Py.get data key = None ->
        Py.get data' key = Some (JList [])).
Proof.
  intros He Hc Hi Hu.
  apply AppMainFacts.editor_inv in He
    as (d & data & s1 & installed & uninstalled & updated & _ & _ & Hfk
        & Hl & Hs1 & Hin & Hun & _ & ->).
  cbv zeta in Hs1. destruct Hs1 as [[Hne _]|(v & _ & Hv & ->)];
    [congruence|].
  exists data. split; [exact Hl|].
  assert (He : checkbox (set_check ss (fk ++ "_enabled") v)
                 (fk ++ "_enabled") false = v).
  { unfold checkbox, set_check. cbn [check_state].
    now rewrite String.eqb_refl. }
  assert (Hti : text_input (set_check ss (fk ++ "_enabled") v)
                  (fk ++ "_installed_mods") installed = installed).
  { unfold text_input, set_check. cbn [text_state]. now rewrite Hi. }
  assert (Htu : text_input (set_check ss (fk ++ "_enabled") v)
                  (fk ++ "_uninstalled_mods") uninstalled = uninstalled).
  { unfold text_input, set_check. cbn [text_state]. now rewrite Hu. }
  rewrite He, Hti, Htu. rewrite !PyFacts.get_set.
  split; [|split; [|split]].
  - intros Hn. unfold Py.get_or in Hv. rewrite Hn in Hv.
    injection Hv as <-. reflexivity.
  - intros b Hb. unfold Py.get_or in Hv. rewrite Hb in Hv.
    injection Hv as <-. reflexivity.
  - intros key l [-> | ->] Hg Hall; rewrite !PyFacts.get_set; cbn.
    + rewrite (ExeMainFacts.mods_text_get _ _ _ Hg) in Hin.
      injection Hin as <-.
      rewrite ModsFacts.mods_of_join by assumption. reflexivity.
    + rewrite (ExeMainFacts.mods_text_get _ _ _ Hg) in Hun.
      injection Hun as <-.
      rewrite ModsFacts.mods_of_join by assumption. reflexivity.
  - intros key [-> | ->] Hg; rewrite !PyFacts.get_set; cbn.
    + rewrite (ExeMainFacts.mods_text_absent _ _ Hg) in Hin.
      injection Hin as <-. reflexivity.
    + rewrite (ExeMainFacts.mods_text_absent _ _ Hg) in Hun.
      injection Hun as <-. reflexivity.
Qed.

Lemma browser_top_fields_survive_witness :
  exists fk data' ss',
    editor Scenes.fnames Scenes.dir fresh
    = Done (Editing "0016_pidgey.json" fk data') ss' /\
    Py.get data' "enabled" = Some (JBool false) /\
    Py.get data' "neededInstalledMods"
    = Some (JList [JStr "cobblemon"; JStr "mega showdown"]) /\
    Py.get data' "neededUninstalledMods" = Some (JList []).
Proof.
  do 3 eexists.
  match goal with
  | |- ?G /\ _ => assert (He : G) by (vm_compute; reflexivity)
  end.
  split; [exact He|].
  destruct (browser_top_fields_survive _ _ _ _ _ _ _ He eq_refl eq_refl
              eq_refl) as (data & Hl & _ & Hb & Hm & Ha).
  vm_compute in Hl. injection Hl as <-.
  split; [|split].
  - apply Hb. reflexivity.
  - apply (Hm "neededInstalledMods" ["cobblemon"; "mega showdown"]).
    + now left.
    + reflexivity.
    + repeat constructor.
  - apply Ha; [now right|reflexivity].
Defined.

End Browser.
(* ===================================================================== *)
(** * What the browser form writes is stable *)
(* ===================================================================== *)

Section Stable.
Import App.

(** X16: what the browser form makes of a herd member is stable: read
    into the form again with nothing stored for its widgets, it is
    returned as it is.  The select box is taken to hold one of its
    options. *)
Theorem herd_member_is_stable names ss hp key_prefix key_prefix' d :
  render_herd_pokemon names ss hp key_prefix = Some d ->
  (forall v, text_state ss (key_prefix ++ "_poke") = Some v -> In v names) ->
  render_herd_pokemon names fresh d key_prefix' = Some d.
Proof. apply StableFacts.herd_member_stable. Qed.

Lemma herd_member_is_stable_witness :
  exists d,
    render_herd_pokemon ["pidgey"; "rattata"] fresh default_herd_member "k"
    = Some d /\
    render_herd_pokemon ["pidgey"; "rattata"] fresh d "again" = Some d.
Proof.
  eexists.
  match goal with
  | |- ?G /\ _ => assert (Hr : G) by (vm_compute; reflexivity)
  end.
  split; [exact Hr|].
  apply (herd_member_is_stable _ _ _ _ "again" _ Hr).
  intros v Hv. discriminate Hv.
Defined.

End Stable.

Section StableDrops.
Import App AppSpawnFacts.

(** X17: the drops the browser form returns are stable: read into the
    form again with nothing stored for its widgets, they are returned as
    they are, entry for entry.  The number input of the amount is taken
    to hold a value within its bound. *)
Theorem drops_are_stable drops key_prefix ss d ss' key_prefix' :
  render_drops drops key_prefix ss = Done (Some d) ss' ->
  (forall a, int_state ss (key_prefix ++ "_amount") = Some a -> (1 <= a)%Z) ->
  exists ss'',
    render_drops (Some (JObj d)) key_prefix' fresh = Done (Some d) ss''.
Proof. apply DropsStable.drops_stable. Qed.

Lemma drops_are_stable_witness :
  exists ss'',
    render_drops (Some (JObj Examples.with_drops_rendered)) "again" fresh
    = Done (Some Examples.with_drops_rendered) ss''.
Proof.
  assert (Hr : exists ss',
             render_drops (Some Examples.with_drops) "k" fresh
             = Done (Some Examples.with_drops_rendered) ss')
    by (eexists; vm_compute; reflexivity).
  destruct Hr as [ss' Hr].
  apply (drops_are_stable _ _ _ _ _ "again" Hr). discriminate.
Defined.

End StableDrops.

Section StableCondition.
Import App AppEntries.

(** X18: what the browser form makes of a condition is stable, whatever
    the condition and the session it was made from: read into the form
    again with nothing stored for its widgets, it is returned as it is.
    The two select boxes are taken to hold one of their options. *)
Theorem condition_is_stable `{PyFloat} ss cond key_prefix key_prefix' d :
  render_condition ss cond key_prefix = Some d ->
  (forall v, text_state ss (key key_prefix "timeRange") = Some v ->
             In v TIME_RANGES) ->
  (forall v, text_state ss (key key_prefix "moonPhase") = Some v ->
             In v MOON_PHASES) ->
  render_condition fresh d key_prefix' = Some d.
Proof. apply ConditionStable.stable. Qed.

Lemma condition_is_stable_witness :
  exists d,
    render_condition fresh Examples.padded_biome "k" = Some d /\
    d = [("biomes", JList [JStr "plains"])] /\
    render_condition fresh d "again" = Some d.
Proof.
  eexists.
  match goal with
  | |- ?G /\ _ => assert (Hr : G) by (vm_compute; reflexivity)
  end.
  split; [exact Hr|]. split; [reflexivity|].
  apply (condition_is_stable (H := example_floats) _ _ _ "again" _ Hr);
    intros v Hv; discriminate Hv.
Defined.

End StableCondition.

Section StableMultipliers.
Import App.

(** X19: weight multipliers that the browser form wrote are stable: read
    into the form again, in a session with nothing stored, the loop over
    the slots returns the list as it is, and the slot count it stores is
    the length of the list. *)
Theorem multipliers_are_stable `{PyFloat} wms key_prefix count_key add_key :
  Forall Shape.written_multiplier wms ->
  render_slots render_weight_multiplier wms default_weight_multiplier
    key_prefix count_key add_key fresh
  = Done wms (set_count fresh count_key (length wms)).
Proof.
  intros Hall. apply SlotsStable.slots_stable. intros i it Hi.
  rewrite Forall_forall in Hall.
  destruct (Hall it (nth_error_In _ _ Hi)) as (ss & wm & k & d & -> & Hr & Ht & Hm).
  exists d. split; [reflexivity|].
  exact (SlotsStable.multiplier_stable _ _ _ (index_key key_prefix i) _
           Hr Ht Hm).
Qed.

Lemma multipliers_are_stable_witness :
  exists d,
    render_weight_multiplier fresh Examples.legacy_multiplier "k" = Some d /\
    render_slots render_weight_multiplier [JObj d] default_weight_multiplier
      "again_wms" "again_wm_count" "again_add_wms" fresh
    = Done [JObj d] (set_count fresh "again_wm_count" 1).
Proof.
  eexists.
  match goal with
  | |- ?G /\ _ => assert (Hr : G) by (vm_compute; reflexivity)
  end.
  split; [exact Hr|].
  apply (multipliers_are_stable (H := example_floats)).
  constructor; [|constructor].
  eexists fresh, Examples.legacy_multiplier, "k", _.
  split; [reflexivity|]. split; [exact Hr|].
  split; intros x Hx; discriminate Hx.
Defined.

End StableMultipliers.
